(** * DevMind backend: the resilient database executor and the VS Code bridge

    A shallow embedding of the two mechanisms of [Backend/main.py] and
    [Backend/main_multi_model.py] that carry the logic of the service:

    - [DatabaseManager.execute_with_retry], the retry loop around one SQLite
      statement (module [Database]);
    - [VSCodeBridgeManager], the connection manager that relays a prompt over a
      WebSocket and waits for one reply (modules [Json], [Bridge], [Main] and
      [MultiModel]).

    Everything outside the Python process (the file system, the SQLite driver,
    the WebSocket peer, the clock) is an explicit argument of the embedded
    functions; what the functions do to the outside is returned as a list of
    events. *)

From Stdlib Require Import List String Ascii Bool Arith NArith ZArith QArith Lia.
From Stdlib Require Import DecimalString.
Import ListNotations.

Local Close Scope Q_scope.

(* ================================================================= *)
(** ** Python values shared by both parts *)

(** [str(n)] for a Python [int]. *)
Definition str_of_Z (z : Z) : string := NilZero.string_of_int (Z.to_int z).
Definition str_of_nat (n : nat) : string := str_of_Z (Z.of_nat n).

(* ================================================================= *)
(** ** The resilient database executor *)

Module Database.

Local Open Scope string_scope.

(** Module constants of [main.py]. *)
Definition DB_TIMEOUT : Z := 30.
Definition MAX_RETRIES : nat := 3.
(** [RETRY_DELAY = 0.1]: delays are kept as exact rationals.  The only
    arithmetic the code does on them is a multiplication by a power of two,
    which is exact in binary floating point as well. *)
Definition RETRY_DELAY : Q := 1 # 10.

(** *** Strings

    Messages are [string]s, read as text whose code points are below 256.
    On that range [str.lower] works character by character. *)

Definition lower_char (c : ascii) : ascii :=
  let n := nat_of_ascii c in
  if (((65 <=? n) && (n <=? 90)) || ((192 <=? n) && (n <=? 222) && negb (n =? 215)))%nat
  then ascii_of_nat (n + 32)
  else c.

Fixpoint lower (s : string) : string :=
  match s with
  | EmptyString => EmptyString
  | String c s' => String (lower_char c) (lower s')
  end.

(** [sub in s] *)
Fixpoint contains (sub s : string) : bool :=
  String.prefix sub s ||
  match s with
  | EmptyString => false
  | String _ s' => contains sub s'
  end.

(** *** Rows and results *)

Inductive sql_value : Type :=
| SqlNull
| SqlInteger (z : Z)
| SqlReal (repr : string)
| SqlText (s : string)
| SqlBlob (b : list Byte.byte).

Definition row : Type := list sql_value.

(** What [execute_with_retry] hands back: [None], one row, or a list of rows. *)
Inductive py_value : Type :=
| PyNone
| PyRow (r : row)
| PyRows (rs : list row).

Definition fetchone (rows : list row) : py_value :=
  match rows with
  | [] => PyNone
  | r :: _ => PyRow r
  end.

Definition fetchall (rows : list row) : py_value := PyRows rows.

(** *** Exceptions

    The three classes the [except] clauses of the loop tell apart.  Each
    carries [str(e)]. *)
Inductive py_exn : Type :=
| DatabaseError (msg : string)      (* sqlite3.DatabaseError and its subclasses *)
| FileNotFoundError (msg : string)
| OtherException (msg : string).    (* any other subclass of Exception *)

Definition str_exn (e : py_exn) : string :=
  match e with
  | DatabaseError m | FileNotFoundError m | OtherException m => m
  end.

(** [str(last_exception)], where [last_exception] starts as [None]. *)
Definition str_last (last_exception : option py_exn) : string :=
  match last_exception with
  | None => "None"
  | Some e => str_exn e
  end.

(** *** The outside world

    For the physical attempt with index [attempt] (0-based, as in the code):
    whether [os.path.exists(self.db_path)] holds, and what the driver does with
    the statement once the file is there.  [Completes rows] stands for: the
    connection opens, the pragmas and the statement run, the cursor holds
    [rows], and closing and committing go through.  [Throws e] stands for: one
    of these driver calls raises [e]. *)
Inductive driver_outcome : Type :=
| Completes (rows : list row)
| Throws (e : py_exn).

Record db_world : Type := {
  path_exists : nat -> bool;
  run_statement : nat -> string -> list sql_value -> bool -> driver_outcome
}.

(** What the executor does to the outside: it starts physical attempts and it
    sleeps. *)
Inductive event : Type :=
| EvAttempt (attempt : nat)
| EvSleep (delay : Q).

Definition trace : Type := list event.

(** How a call ends: a value, or [raise Exception(msg)]. *)
Inductive outcome : Type :=
| Returned (v : py_value)
| Raised (msg : string).

Definition run : Type := (outcome * trace)%type.

Definition emit (ev : event) (k : run) : run := (fst k, ev :: snd k).

(** [RETRY_DELAY * (2 ** attempt)] *)
Definition backoff (attempt : nat) : Q :=
  (RETRY_DELAY * inject_Z (2 ^ Z.of_nat attempt))%Q.

(** The body of the [try] block of one iteration. *)
Definition try_body (w : db_world) (db_path : string) (attempt : nat)
    (query : string) (params : list sql_value)
    (fetch_one fetch_all commit : bool) : py_value + py_exn :=
  if negb (path_exists w attempt) then
    inr (FileNotFoundError ("Database file not found: " ++ db_path))
  else
    match run_statement w attempt query params commit with
    | Throws e => inr e
    | Completes rows =>
        let result := PyNone in
        let result :=
          if fetch_one then fetchone rows
          else if fetch_all then fetchall rows
          else result in
        inl result
    end.

(** The [for attempt in range(MAX_RETRIES)] loop, by recursion on the attempts
    still to run; [continue] and falling off the end of a handler both go on
    with the next element of the range.  The empty range is the code after the
    loop. *)
Fixpoint retry_loop (w : db_world) (db_path query : string) (params : list sql_value)
    (fetch_one fetch_all commit : bool)
    (attempts : list nat) (last_exception : option py_exn) : run :=
  match attempts with
  | [] =>
      (Raised ("Database operation failed after " ++ str_of_nat MAX_RETRIES
               ++ " attempts. Last error: " ++ str_last last_exception), [])
  | attempt :: rest =>
      let continue le :=
        retry_loop w db_path query params fetch_one fetch_all commit rest le in
      emit (EvAttempt attempt)
        match try_body w db_path attempt query params fetch_one fetch_all commit with
        | inl result => (Returned result, [])
        | inr (DatabaseError m as e) =>
            let error_msg := lower (str_exn e) in
            let last_exception := Some e in
            if contains "database is locked" error_msg then
              if (attempt <? MAX_RETRIES - 1)%nat then
                emit (EvSleep (backoff attempt)) (continue last_exception)
              else continue last_exception
            else if contains "database disk image is malformed" error_msg then
              (Raised "Database is corrupted. Please contact administrator to restore database.", [])
            else if contains "no such table" error_msg then
              (Raised "Required database tables not found. Please check database schema.", [])
            else
              if (attempt <? MAX_RETRIES - 1)%nat then
                emit (EvSleep (backoff attempt)) (continue last_exception)
              else (Raised ("Database error: " ++ str_exn e), [])
        | inr (FileNotFoundError _) =>
            (Raised "Database file not accessible. Please check network connection and file permissions.", [])
        | inr (OtherException _ as e) =>
            let last_exception := Some e in
            if (attempt <? MAX_RETRIES - 1)%nat then
              emit (EvSleep (backoff attempt)) (continue last_exception)
            else (Raised ("Database connection failed: " ++ str_exn e), [])
        end
  end.

Definition execute_with_retry (w : db_world) (db_path query : string)
    (params : list sql_value) (fetch_one fetch_all commit : bool) : run :=
  retry_loop w db_path query params fetch_one fetch_all commit
    (seq 0 MAX_RETRIES) None.

(** *** Reading the loop and its traces

    [judge] is one iteration read off the handlers: what they decide for the
    attempt with index [attempt]. *)
Inductive verdict : Type :=
| Done (v : py_value)          (* [return result] *)
| Fatal (msg : string)         (* a [raise] that does not look at the attempt number *)
| Again (e : py_exn) (final : option string).
    (* back off and retry; on the last attempt raise [final], or fall out of
       the loop when there is none *)

Definition judge (w : db_world) (db_path query : string) (params : list sql_value)
    (fetch_one fetch_all commit : bool) (attempt : nat) : verdict :=
  match try_body w db_path attempt query params fetch_one fetch_all commit with
  | inl v => Done v
  | inr (DatabaseError m as e) =>
      if contains "database is locked" (lower m) then Again e None
      else if contains "database disk image is malformed" (lower m) then
        Fatal "Database is corrupted. Please contact administrator to restore database."
      else if contains "no such table" (lower m) then
        Fatal "Required database tables not found. Please check database schema."
      else Again e (Some ("Database error: " ++ m))
  | inr (FileNotFoundError _) =>
      Fatal "Database file not accessible. Please check network connection and file permissions."
  | inr (OtherException m as e) => Again e (Some ("Database connection failed: " ++ m))
  end.

(** [schedule a m]: [m] physical attempts with indices [a], [a+1], ..., each
    but the last followed by its back-off sleep: the shape of every trace. *)

Fixpoint schedule (a m : nat) : trace :=
  match m with
  | 0 => []
  | S m' =>
      EvAttempt a ::
      match m' with
      | 0 => []
      | S _ => EvSleep (backoff a) :: schedule (S a) m'
      end
  end.

Definition attempts_of (tr : trace) : list nat :=
  flat_map (fun ev => match ev with EvAttempt a => [a] | EvSleep _ => [] end) tr.

Definition sleeps_of (tr : trace) : list Q :=
  flat_map (fun ev => match ev with EvAttempt _ => [] | EvSleep d => [d] end) tr.

Definition total_sleep (tr : trace) : Q :=
  fold_right Qplus (0 # 1)%Q (sleeps_of tr).

(** The three failures the loop never retries, each with the message it
    raises, for the attempt with index [attempt]: the file is missing; the
    driver raises a database error whose lower-cased message holds the
    corruption signature and not the lock signature (which is tested first); or
    it holds the missing-table signature and neither of the other two. *)
Inductive fatal_class (w : db_world) (query : string) (params : list sql_value)
    (commit : bool) (attempt : nat) : string -> Prop :=
| fatal_file_missing :
    path_exists w attempt = false ->
    fatal_class w query params commit attempt
      "Database file not accessible. Please check network connection and file permissions."
| fatal_corrupted (m : string) :
    path_exists w attempt = true ->
    run_statement w attempt query params commit = Throws (DatabaseError m) ->
    contains "database is locked" (lower m) = false ->
    contains "database disk image is malformed" (lower m) = true ->
    fatal_class w query params commit attempt
      "Database is corrupted. Please contact administrator to restore database."
| fatal_schema_missing (m : string) :
    path_exists w attempt = true ->
    run_statement w attempt query params commit = Throws (DatabaseError m) ->
    contains "database is locked" (lower m) = false ->
    contains "database disk image is malformed" (lower m) = false ->
    contains "no such table" (lower m) = true ->
    fatal_class w query params commit attempt
      "Required database tables not found. Please check database schema.".

(** Worlds used as concrete inputs below: the file is there and every attempt
    raises the same database error, or returns the same rows. *)
Definition always_raises (m : string) : db_world :=
  {| path_exists := fun _ => true;
     run_statement := fun _ _ _ _ => Throws (DatabaseError m) |}.

Definition always_rows (rows : list row) : db_world :=
  {| path_exists := fun _ => true;
     run_statement := fun _ _ _ _ => Completes rows |}.

(** The delay the specification gives for the sleep before physical attempt
    [k] (counted from 1): [baseDelay * 2^(k-2)]. *)
Definition delay_before (k : nat) : Q :=
  (RETRY_DELAY * inject_Z (2 ^ (Z.of_nat k - 2)))%Q.

End Database.

(* ================================================================= *)
(** ** Text and JSON, as the bridge uses them

    The bridge builds a [dict], prints it with [json.dumps] and reads the reply
    with [json.loads].  Both are the standard library's, with their default
    settings ([ensure_ascii=True], separators [", "] and [": "], strict
    strings).  A Python [str] is a sequence of code points, each at most
    [0x10FFFF]; a lone surrogate is a legal element. *)

Module Json.

Local Open Scope N_scope.

Definition ustr : Type := list N.

(** A literal of the source, code point by code point. *)
Definition lit (s : string) : ustr := map N_of_ascii (list_ascii_of_string s).

Fixpoint ustr_eqb (s t : ustr) : bool :=
  match s, t with
  | [], [] => true
  | c :: s', d :: t' => (c =? d) && ustr_eqb s' t'
  | _, _ => false
  end.

(** The values [json] handles.  A [float] is kept as the decimal text that
    stands for it ([repr] when printing, the literal when reading); nothing
    below computes with floats. *)
#[local] Unset Elimination Schemes.
Inductive json : Type :=
| JNull
| JBool (b : bool)
| JInt (z : Z)
| JFloat (repr : ustr)
| JStr (s : ustr)
| JList (l : list json)
| JDict (d : list (ustr * json)).
#[local] Set Elimination Schemes.

(** *** Dictionaries: insertion-ordered, one value per key *)

Fixpoint dict_get (d : list (ustr * json)) (k : ustr) : option json :=
  match d with
  | [] => None
  | (k', v) :: d' => if ustr_eqb k' k then Some v else dict_get d' k
  end.

Fixpoint dict_set (d : list (ustr * json)) (k : ustr) (v : json) : list (ustr * json) :=
  match d with
  | [] => [(k, v)]
  | (k', v') :: d' =>
      if ustr_eqb k' k then (k', v) :: d' else (k', v') :: dict_set d' k v
  end.

(** [dict(pairs)] *)
Definition dict_of_pairs (pairs : list (ustr * json)) : list (ustr * json) :=
  fold_left (fun d kv => dict_set d (fst kv) (snd kv)) pairs [].

(** *** [json.dumps] *)

Definition hexdigit (d : N) : N := if d <? 10 then 48 + d else 87 + d.

(** ['\\u{0:04x}'.format(n)] for [n < 0x10000] *)
Definition u_escape (n : N) : ustr :=
  [92; 117;
   hexdigit (N.land (N.shiftr n 12) 15);
   hexdigit (N.land (N.shiftr n 8) 15);
   hexdigit (N.land (N.shiftr n 4) 15);
   hexdigit (N.land n 15)].

(** The replacement of one character by [encode_basestring_ascii]: backslash,
    quote and everything outside [' '..'~'] are escaped, code points from
    [0x10000] on as a surrogate pair. *)
Definition escape_char (c : N) : ustr :=
  if c =? 92 then [92; 92]
  else if c =? 34 then [92; 34]
  else if (32 <=? c) && (c <=? 126) then [c]
  else if c =? 8 then [92; 98]
  else if c =? 12 then [92; 102]
  else if c =? 10 then [92; 110]
  else if c =? 13 then [92; 114]
  else if c =? 9 then [92; 116]
  else if c <? 65536 then u_escape c
  else
    let n := c - 65536 in
    let s1 := N.lor 55296 (N.land (N.shiftr n 10) 1023) in
    let s2 := N.lor 56320 (N.land n 1023) in
    u_escape s1 ++ u_escape s2.

Definition encode_basestring_ascii (s : ustr) : ustr :=
  34 :: flat_map escape_char s ++ [34].

Fixpoint join (sep : ustr) (items : list ustr) : ustr :=
  match items with
  | [] => []
  | [x] => x
  | x :: rest => x ++ sep ++ join sep rest
  end.

Fixpoint dumps (v : json) : ustr :=
  match v with
  | JNull => lit "null"
  | JBool true => lit "true"
  | JBool false => lit "false"
  | JInt z => lit (str_of_Z z)
  | JFloat repr => repr
  | JStr s => encode_basestring_ascii s
  | JList l => lit "[" ++ join (lit ", ") (map dumps l) ++ lit "]"
  | JDict d =>
      lit "{" ++
      join (lit ", ")
        (map (fun kv => encode_basestring_ascii (fst kv) ++ lit ": " ++ dumps (snd kv)) d)
      ++ lit "}"
  end.

(** *** [json.loads] *)

Definition is_ws (c : N) : bool :=
  (c =? 32) || (c =? 9) || (c =? 10) || (c =? 13).

Fixpoint skip_ws (s : ustr) : ustr :=
  match s with
  | c :: s' => if is_ws c then skip_ws s' else s
  | [] => []
  end.

Definition hexval (c : N) : option N :=
  if (48 <=? c) && (c <=? 57) then Some (c - 48)
  else if (97 <=? c) && (c <=? 102) then Some (c - 87)
  else if (65 <=? c) && (c <=? 70) then Some (c - 55)
  else None.

(** [_decode_uXXXX]: four hexadecimal digits *)
Definition decode_uXXXX (a b c d : N) : option N :=
  match hexval a, hexval b, hexval c, hexval d with
  | Some a, Some b, Some c, Some d => Some (((a * 16 + b) * 16 + c) * 16 + d)
  | _, _, _, _ => None
  end.

Definition BACKSLASH (esc : N) : option N :=
  if esc =? 34 then Some 34
  else if esc =? 92 then Some 92
  else if esc =? 47 then Some 47
  else if esc =? 98 then Some 8
  else if esc =? 102 then Some 12
  else if esc =? 110 then Some 10
  else if esc =? 114 then Some 13
  else if esc =? 116 then Some 9
  else None.

Definition is_high_surrogate (c : N) : bool := (55296 <=? c) && (c <=? 56319).
Definition is_low_surrogate (c : N) : bool := (56320 <=? c) && (c <=? 57343).

(** After a [\uXXXX] escape that gave a high surrogate: is the text that
    follows another [\u] escape, and does it give a low surrogate? *)
Inductive pair_check : Type :=
| NoPair
| BadEscape
| Pair (uni2 : N).

Definition check_pair (s : ustr) : pair_check :=
  match s with
  | bs :: u :: t =>
      if (bs =? 92) && (u =? 117) then
        match t with
        | a :: b :: c :: d :: _ =>
            match decode_uXXXX a b c d with
            | None => BadEscape
            | Some uni2 => if is_low_surrogate uni2 then Pair uni2 else NoPair
            end
        | _ => BadEscape
        end
      else NoPair
  | _ => NoPair
  end.

(** [scanstring], strict: the text after the opening quote, up to the closing
    one.  [None] is a [JSONDecodeError]. *)
Fixpoint scanstring (s : ustr) (chunks : ustr) : option (ustr * ustr) :=
  match s with
  | [] => None
  | c :: s1 =>
      if c =? 34 then Some (chunks, s1)
      else if c =? 92 then
        match s1 with
        | [] => None
        | esc :: s2 =>
            if negb (esc =? 117) then
              match BACKSLASH esc with
              | Some char => scanstring s2 (chunks ++ [char])
              | None => None
              end
            else
              match s2 with
              | a :: b :: c' :: d :: s6 =>
                  match decode_uXXXX a b c' d with
                  | None => None
                  | Some uni =>
                      if is_high_surrogate uni then
                        match check_pair s6 with
                        | NoPair => scanstring s6 (chunks ++ [uni])
                        | BadEscape => None
                        | Pair uni2 =>
                            let uni :=
                              65536 + N.lor (N.shiftl (uni - 55296) 10) (uni2 - 56320) in
                            match s6 with
                            | _ :: _ :: _ :: _ :: _ :: _ :: s12 =>
                                scanstring s12 (chunks ++ [uni])
                            | _ => None
                            end
                        end
                      else scanstring s6 (chunks ++ [uni])
                  end
              | _ => None
              end
        end
      else if c <? 32 then None
      else scanstring s1 (chunks ++ [c])
  end.

(** Numbers, as the scanner matches them: an optional minus, an integer part
    without leading zeros, then a fraction and an exponent when they are
    complete. *)

Definition is_digit (c : N) : bool := (48 <=? c) && (c <=? 57).

Fixpoint span_digits (s : ustr) : ustr * ustr :=
  match s with
  | c :: s' =>
      if is_digit c then let (ds, r) := span_digits s' in (c :: ds, r) else ([], s)
  | [] => ([], [])
  end.

Definition int_of_digits (ds : ustr) : Z :=
  fold_left (fun acc c => (acc * 10 + Z.of_N (c - 48))%Z) ds 0%Z.

Definition match_number (s : ustr) : option (json * ustr) :=
  let (neg, s1) :=
    match s with
    | c :: s' => if c =? 45 then (true, s') else (false, s)
    | [] => (false, s)
    end in
  match s1 with
  | [] => None
  | c :: s2 =>
      let int_part :=
        if (49 <=? c) && (c <=? 57) then
          let (ds, r) := span_digits s2 in Some (c :: ds, r)
        else if c =? 48 then Some ([48], s2)
        else None in
      match int_part with
      | None => None
      | Some (ds, r) =>
          let (frac, r1) :=
            match r with
            | dot :: d :: r' =>
                if (dot =? 46) && is_digit d then
                  let (fs, r'') := span_digits r' in (dot :: d :: fs, r'')
                else ([], r)
            | _ => ([], r)
            end in
          let (exp, r2) :=
            match r1 with
            | e :: r' =>
                if (e =? 101) || (e =? 69) then
                  let (sign, r'') :=
                    match r' with
                    | sg :: t => if (sg =? 45) || (sg =? 43) then ([sg], t) else ([], r')
                    | [] => ([], r')
                    end in
                  let (es, r''') := span_digits r'' in
                  match es with
                  | [] => ([], r1)
                  | _ :: _ => (e :: sign ++ es, r''')
                  end
                else ([], r1)
            | [] => ([], r1)
            end in
          match frac, exp with
          | [], [] =>
              Some (JInt (if neg then - int_of_digits ds else int_of_digits ds)%Z, r2)
          | _, _ =>
              Some (JFloat ((if neg then [45] else []) ++ ds ++ frac ++ exp), r2)
          end
      end
  end.

Fixpoint strip_prefix (p s : ustr) : option ustr :=
  match p with
  | [] => Some s
  | c :: p' =>
      match s with
      | d :: s' => if c =? d then strip_prefix p' s' else None
      | [] => None
      end
  end.

(** The constants and numbers of [scan_once]. *)
Definition scan_atom (s : ustr) : option (json * ustr) :=
  match strip_prefix (lit "null") s with
  | Some r => Some (JNull, r)
  | None =>
  match strip_prefix (lit "true") s with
  | Some r => Some (JBool true, r)
  | None =>
  match strip_prefix (lit "false") s with
  | Some r => Some (JBool false, r)
  | None =>
  match strip_prefix (lit "NaN") s with
  | Some r => Some (JFloat (lit "NaN"), r)
  | None =>
  match strip_prefix (lit "Infinity") s with
  | Some r => Some (JFloat (lit "Infinity"), r)
  | None =>
  match strip_prefix (lit "-Infinity") s with
  | Some r => Some (JFloat (lit "-Infinity"), r)
  | None => match_number s
  end end end end end end.

(** [scan_once] with the object and array parsers it calls.  The recursion is
    on [fuel]; every recursive call is made after a character has been read,
    so the length of the text is fuel enough. *)
Fixpoint scan_once (fuel : nat) (s : ustr) : option (json * ustr) :=
  match fuel with
  | O => None
  | S fuel' =>
      match s with
      | [] => None
      | c :: s' =>
          if c =? 34 then
            match scanstring s' [] with
            | Some (str, r) => Some (JStr str, r)
            | None => None
            end
          else if c =? 123 then parse_object fuel' (skip_ws s')
          else if c =? 91 then parse_array fuel' (skip_ws s')
          else scan_atom s
      end
  end

(** after ['{'] and white space *)
with parse_object (fuel : nat) (s : ustr) : option (json * ustr) :=
  match fuel with
  | O => None
  | S fuel' =>
      match s with
      | c :: s' =>
          if c =? 125 then Some (JDict [], s')
          else if c =? 34 then parse_members fuel' s' []
          else None
      | [] => None
      end
  end

(** after the opening quote of a key; [pairs] are the members read so far *)
with parse_members (fuel : nat) (s : ustr) (pairs : list (ustr * json))
    : option (json * ustr) :=
  match fuel with
  | O => None
  | S fuel' =>
      match scanstring s [] with
      | None => None
      | Some (key, s) =>
          match skip_ws s with
          | colon :: s =>
              if colon =? 58 then
                match scan_once fuel' (skip_ws s) with
                | None => None
                | Some (value, s) =>
                    let pairs := pairs ++ [(key, value)] in
                    match skip_ws s with
                    | c :: s =>
                        if c =? 125 then Some (JDict (dict_of_pairs pairs), s)
                        else if c =? 44 then
                          match skip_ws s with
                          | q :: s => if q =? 34 then parse_members fuel' s pairs else None
                          | [] => None
                          end
                        else None
                    | [] => None
                    end
                end
              else None
          | [] => None
          end
      end
  end

(** after ['['] and white space *)
with parse_array (fuel : nat) (s : ustr) : option (json * ustr) :=
  match fuel with
  | O => None
  | S fuel' =>
      match s with
      | c :: s' => if c =? 93 then Some (JList [], s') else parse_elements fuel' s []
      | [] => None
      end
  end

with parse_elements (fuel : nat) (s : ustr) (values : list json)
    : option (json * ustr) :=
  match fuel with
  | O => None
  | S fuel' =>
      match scan_once fuel' s with
      | None => None
      | Some (value, s) =>
          let values := values ++ [value] in
          match skip_ws s with
          | c :: s =>
              if c =? 93 then Some (JList values, s)
              else if c =? 44 then parse_elements fuel' (skip_ws s) values
              else None
          | [] => None
          end
      end
  end.

(** [json.loads(s)] for a [str]: one value between optional white space.
    [None] is a [JSONDecodeError]. *)
Definition loads (s : ustr) : option json :=
  match scan_once (3 * List.length s + 3) (skip_ws s) with
  | Some (v, r) =>
      match skip_ws r with
      | [] => Some v
      | _ :: _ => None
      end
  | None => None
  end.

(** *** Well-formed text

    [is_str]: every element is a code point, which holds of every Python
    [str].  [no_surrogate_pair]: no high surrogate is directly followed by a
    low surrogate; text made of Unicode scalar values (no surrogates at all) is
    of this kind. *)

Definition is_code_point (c : N) : bool := c <=? 1114111.

Definition is_str (s : ustr) : bool := forallb is_code_point s.

Fixpoint no_surrogate_pair (s : ustr) : bool :=
  match s with
  | [] => true
  | c :: s' =>
      match s' with
      | [] => true
      | c' :: _ => negb (is_high_surrogate c && is_low_surrogate c') && no_surrogate_pair s'
      end
  end.

(** A dictionary all of whose values are strings. *)
Definition str_dict (kvs : list (ustr * ustr)) : json :=
  JDict (map (fun kv => (fst kv, JStr (snd kv))) kvs).

Definition ok_text (s : ustr) : bool := is_str s && no_surrogate_pair s.

(** The text of one member of such a dictionary, as [dumps] writes it. *)
Definition member_text (kv : ustr * ustr) : ustr :=
  encode_basestring_ascii (fst kv) ++ lit ": " ++ encode_basestring_ascii (snd kv).

End Json.

(* ================================================================= *)
(** ** The bridge connection manager: what both files share *)

Module Bridge.
Import Json.

Local Open Scope string_scope.
Local Open Scope list_scope.

(** WebSocket configuration *)
Definition WS_PORT : Z := 8765.
Definition REQUEST_TIMEOUT : Z := 60.

(** *** The clock: a naive [datetime] and its [isoformat()] *)

Record datetime : Type := {
  year : nat; month : nat; day : nat;
  hour : nat; minute : nat; second : nat;
  microsecond : nat
}.

Fixpoint zeros (n : nat) : string :=
  match n with
  | O => ""
  | S n' => String "0" (zeros n')
  end.

(** ["%0<width>d" % n] *)
Definition pad (width n : nat) : string :=
  let digits := str_of_nat n in
  (zeros (width - String.length digits) ++ digits)%string.

Definition isoformat (d : datetime) : string :=
  (pad 4 (year d) ++ "-" ++ pad 2 (month d) ++ "-" ++ pad 2 (day d) ++ "T" ++
   pad 2 (hour d) ++ ":" ++ pad 2 (minute d) ++ ":" ++ pad 2 (second d) ++
   match microsecond d with
   | O => ""
   | S _ => "." ++ pad 6 (microsecond d)
   end)%string.

(** *** The manager

    [ws_client] is the client object of the last successful
    [websockets.connect], with the one thing the manager does to it: calling
    [close()].  ([main.py] also creates a [pending_requests] dictionary; no
    code reads or writes it after that.) *)
Record websocket : Type := {
  ws_id : nat;
  ws_closed : bool
}.

Record manager : Type := {
  ws_client : option websocket;
  is_connected : bool
}.

(** [__init__] *)
Definition init : manager := {| ws_client := None; is_connected := false |}.

(** *** Exceptions *)
Inductive exn : Type :=
| HTTPException (status_code : Z) (detail : ustr)
| ConnectionClosed (msg : ustr)        (* websockets.exceptions.ConnectionClosed *)
| TimeoutError                         (* asyncio.TimeoutError *)
| JSONDecodeError (msg : ustr)
| OtherException (msg : ustr).         (* any other subclass of Exception *)

(** [str(e)]; for an [HTTPException] it is Starlette's "<status>: <detail>". *)
Definition str_exn (e : exn) : ustr :=
  match e with
  | HTTPException status_code detail => lit (str_of_Z status_code) ++ lit ": " ++ detail
  | ConnectionClosed msg => msg
  | TimeoutError => []
  | JSONDecodeError msg => msg
  | OtherException msg => msg
  end.

(** *** The outside world during one operation *)

Inductive connect_outcome : Type :=
| Connects (id : nat)
| ConnectRaises (msg : ustr).

Inductive send_outcome : Type :=
| Sent
| SendRaisesClosed (msg : ustr)
| SendRaises (msg : ustr).

(** What [asyncio.wait_for(ws.recv(), timeout)] does: a message arrives in
    time, the time runs out, the transport reports the connection closed, or
    something else goes wrong. *)
Inductive recv_outcome : Type :=
| Receives (raw : ustr)
| TimesOut
| RecvRaisesClosed (msg : ustr)
| RecvRaises (msg : ustr).

Record peer : Type := {
  now : datetime;                          (* datetime.now() *)
  on_connect : connect_outcome;            (* websockets.connect(...) *)
  on_send : ustr -> send_outcome;          (* ws.send(text) *)
  on_recv : ustr -> Z -> recv_outcome;     (* the wait, after [text] was sent *)
  decode_error : ustr -> ustr              (* the message of the JSONDecodeError for a text *)
}.

Inductive event : Type :=
| EvConnect
| EvSend (ws : nat) (text : ustr)
| EvRecv (ws : nat) (timeout : Z)
| EvClose (ws : nat).

(** *** Computations on the manager *)

Inductive result (A : Type) : Type :=
| Ok (a : A)
| Raise (e : exn).
Arguments Ok {A} a.
Arguments Raise {A} e.

Definition M (A : Type) : Type := manager -> result A * manager * list event.

Definition ret {A : Type} (a : A) : M A := fun m => (Ok a, m, []).

Definition raise {A : Type} (e : exn) : M A := fun m => (Raise e, m, []).

Definition bind {A B : Type} (c : M A) (k : A -> M B) : M B := fun m =>
  match c m with
  | (Ok a, m1, t1) => let '(r, m2, t2) := k a m1 in (r, m2, t1 ++ t2)
  | (Raise e, m1, t1) => (Raise e, m1, t1)
  end.

(** [try: body  except ...: handler]: [handler e = None] when no clause
    matches [e]. *)
Definition try_except {A : Type} (body : M A) (handler : exn -> option (M A)) : M A :=
  fun m =>
  match body m with
  | (Ok a, m1, t1) => (Ok a, m1, t1)
  | (Raise e, m1, t1) =>
      match handler e with
      | Some h => let '(r, m2, t2) := h m1 in (r, m2, t1 ++ t2)
      | None => (Raise e, m1, t1)
      end
  end.

Notation "x <- c ;; k" := (bind c (fun x => k))
  (at level 61, c at next level, right associativity).
Notation "c ;;; k" := (bind c (fun _ => k))
  (at level 61, right associativity).

Definition get_is_connected : M bool := fun m => (Ok (is_connected m), m, []).

Definition set_is_connected (b : bool) : M unit := fun m =>
  (Ok tt, {| ws_client := ws_client m; is_connected := b |}, []).

Definition set_ws_client (ws : websocket) : M unit := fun m =>
  (Ok tt, {| ws_client := Some ws; is_connected := is_connected m |}, []).

(** [websockets.connect(...)], inside the [try] of [connect] *)
Definition websockets_connect (w : peer) : M websocket := fun m =>
  (match on_connect w with
   | Connects id => Ok {| ws_id := id; ws_closed := false |}
   | ConnectRaises msg => Raise (OtherException msg)
   end, m, [EvConnect]).

(** [self.ws_client.send(text)] *)
Definition ws_send (w : peer) (text : ustr) : M unit := fun m =>
  match ws_client m with
  | None => (Raise (OtherException (lit "'NoneType' object has no attribute 'send'")), m, [])
  | Some ws =>
      (match on_send w text with
       | Sent => Ok tt
       | SendRaisesClosed msg => Raise (ConnectionClosed msg)
       | SendRaises msg => Raise (OtherException msg)
       end, m, [EvSend (ws_id ws) text])
  end.

(** [asyncio.wait_for(self.ws_client.recv(), timeout=timeout)] *)
Definition wait_for_recv (w : peer) (sent : ustr) (timeout : Z) : M ustr := fun m =>
  match ws_client m with
  | None => (Raise (OtherException (lit "'NoneType' object has no attribute 'recv'")), m, [])
  | Some ws =>
      (match on_recv w sent timeout with
       | Receives raw => Ok raw
       | TimesOut => Raise TimeoutError
       | RecvRaisesClosed msg => Raise (ConnectionClosed msg)
       | RecvRaises msg => Raise (OtherException msg)
       end, m, [EvRecv (ws_id ws) timeout])
  end.

(** [json.loads(response_raw)] *)
Definition json_loads (w : peer) (raw : ustr) : M json :=
  match loads raw with
  | Some v => ret v
  | None => raise (JSONDecodeError (decode_error w raw))
  end.

(** [connect]: the assignments happen only when [websockets.connect] returns;
    any exception is caught and turned into [False]. *)
Definition connect (w : peer) : M bool :=
  try_except
    (ws <- websockets_connect w ;;
     set_ws_client ws ;;;
     set_is_connected true ;;;
     ret true)
    (fun e => Some (set_is_connected false ;;; ret false)).

(** [disconnect]: [close()] on a client object does not raise, and closing a
    closed one does nothing. *)
Definition disconnect : M unit := fun m =>
  match ws_client m with
  | Some ws =>
      (Ok tt,
       {| ws_client := Some {| ws_id := ws_id ws; ws_closed := true |};
          is_connected := false |},
       [EvClose (ws_id ws)])
  | None => (Ok tt, m, [])
  end.

Definition result_of {A : Type} (r : result A * manager * list event) : result A :=
  fst (fst r).
Definition state_of {A : Type} (r : result A * manager * list event) : manager :=
  snd (fst r).
Definition trace_of {A : Type} (r : result A * manager * list event) : list event :=
  snd r.

Definition is_connect (ev : event) : bool :=
  match ev with
  | EvConnect => true
  | _ => false
  end.

(** The number of connection attempts among the events. *)
Definition connect_count (tr : list event) : nat := List.length (filter is_connect tr).

(** The first step of [send_prompt] in both files. *)
Definition ensure_connected (w : peer) : M unit :=
  is_connected <- get_is_connected ;;
  if negb is_connected then
    connected <- connect w ;;
    if negb connected then
      raise (HTTPException 503
        (lit "VS Code Copilot bridge is not available. Please ensure the VS Code extension is running."))
    else ret tt
  else ret tt.

End Bridge.

(* ================================================================= *)
(** ** [send_prompt] of [main.py] *)

Module Main.
Import Json Bridge.
Local Open Scope string_scope.
Local Open Scope list_scope.

Definition request_message (request_id prompt : ustr) : json :=
  JDict [ (lit "type", JStr (lit "copilot_request"));
          (lit "requestId", JStr request_id);
          (lit "prompt", JStr prompt);
          (lit "timestamp", JStr request_id) ].

Definition send_prompt (w : peer) (prompt : ustr) (timeout : Z) : M json :=
  ensure_connected w ;;;
  try_except
    (let request_id := lit (isoformat (now w)) in
     let message := request_message request_id prompt in
     let text := dumps message in
     ws_send w text ;;;
     try_except
       (response_raw <- wait_for_recv w text timeout ;;
        response <- json_loads w response_raw ;;
        ret response)
       (fun e =>
          match e with
          | TimeoutError =>
              Some (raise (HTTPException 504
                (lit "Timeout waiting for Copilot response after " ++
                 lit (str_of_Z timeout) ++ lit " seconds")))
          | _ => None
          end))
    (fun e =>
       match e with
       | ConnectionClosed _ =>
           Some (set_is_connected false ;;;
                 raise (HTTPException 503 (lit "Connection to VS Code bridge was closed")))
       | _ =>
           Some (raise (HTTPException 500
             (lit "Error communicating with VS Code bridge: " ++ str_exn e)))
       end).

End Main.

(* ================================================================= *)
(** ** [send_prompt] of [main_multi_model.py] *)

Module MultiModel.
Import Json Bridge.
Local Open Scope string_scope.
Local Open Scope list_scope.

(** [kwargs.get(key, default)] *)
Fixpoint kwargs_get (kwargs : list (string * json)) (key : string) (default : json) : json :=
  match kwargs with
  | [] => default
  | (k, v) :: rest => if String.eqb k key then v else kwargs_get rest key default
  end.

Definition request_message (request_id prompt : ustr) (kwargs : list (string * json)) : json :=
  JDict [ (lit "type", JStr (lit "copilot_request"));
          (lit "requestId", JStr request_id);
          (lit "prompt", JStr prompt);
          (lit "temperature", kwargs_get kwargs "temperature" (JFloat (lit "0.7")));
          (lit "maxTokens", kwargs_get kwargs "max_tokens" (JInt 2000));
          (lit "timestamp", JStr request_id) ].

Definition send_prompt (w : peer) (prompt : ustr) (timeout : Z)
    (kwargs : list (string * json)) : M json :=
  ensure_connected w ;;;
  try_except
    (let request_id := lit (isoformat (now w)) in
     let message := request_message request_id prompt kwargs in
     let text := dumps message in
     ws_send w text ;;;
     try_except
       (response_raw <- wait_for_recv w text timeout ;;
        response <- json_loads w response_raw ;;
        ret response)
       (fun e =>
          match e with
          | TimeoutError =>
              Some (raise (HTTPException 504
                (lit "Timeout waiting for response after " ++
                 lit (str_of_Z timeout) ++ lit " seconds")))
          | _ => None
          end))
    (fun e =>
       match e with
       | ConnectionClosed _ =>
           Some (set_is_connected false ;;;
                 raise (HTTPException 503 (lit "Connection to VS Code bridge was closed")))
       | _ => Some (raise e)
       end).

End MultiModel.

(* ================================================================= *)
(** ** The states a manager can be in, and sample peers *)

Module Lifecycle.
Import Json Bridge.

(** The manager starts as [__init__] leaves it and changes only through its
    three methods, whatever the outside does. *)
Inductive reachable : manager -> Prop :=
| reach_init : reachable init
| reach_connect (w : peer) (m : manager) :
    reachable m -> reachable (state_of (connect w m))
| reach_disconnect (m : manager) :
    reachable m -> reachable (state_of (disconnect m))
| reach_send_prompt (w : peer) (prompt : ustr) (timeout : Z) (m : manager) :
    reachable m -> reachable (state_of (Main.send_prompt w prompt timeout m))
| reach_send_prompt_multi (w : peer) (prompt : ustr) (timeout : Z)
    (kwargs : list (string * json)) (m : manager) :
    reachable m -> reachable (state_of (MultiModel.send_prompt w prompt timeout kwargs m)).

(** While the flag is set there is a client object. *)
Definition consistent (m : manager) : Prop :=
  is_connected m = true -> ws_client m <> None.

Definition noon : datetime :=
  {| year := 2025; month := 1; day := 2; hour := 12; minute := 0; second := 0;
     microsecond := 0 |}.

(** A peer that accepts the connection and the request and then stays
    silent. *)
Definition silent_peer : peer :=
  {| now := noon;
     on_connect := Connects 1;
     on_send := fun _ => Sent;
     on_recv := fun _ _ => TimesOut;
     decode_error := fun _ => lit "Expecting value" |}.

(** A peer that cannot be reached. *)
Definition absent_peer : peer :=
  {| now := noon;
     on_connect := ConnectRaises (lit "Connect call failed");
     on_send := fun _ => Sent;
     on_recv := fun _ _ => TimesOut;
     decode_error := fun _ => lit "Expecting value" |}.

(** A peer that closes the connection while the manager waits. *)
Definition closing_peer : peer :=
  {| now := noon;
     on_connect := Connects 1;
     on_send := fun _ => Sent;
     on_recv := fun _ _ => RecvRaisesClosed (lit "no close frame received or sent");
     decode_error := fun _ => lit "Expecting value" |}.

(** A manager with an open connection. *)
Definition connected_manager : manager :=
  {| ws_client := Some {| ws_id := 1; ws_closed := false |}; is_connected := true |}.

End Lifecycle.

(* ================================================================= *)
(** ** The helpers of [DatabaseManager] that go through the executor *)

Module DatabaseHelpers.
Import Database.
Local Open Scope string_scope.

(** How a helper ends: a value, or an exception with its message. *)
Inductive answer (A : Type) : Type :=
| Gives (a : A)
| Fails (msg : string).
Arguments Gives {A} a.
Arguments Fails {A} msg.

(** [bool(v)] for a value read from the database. *)
Definition truthy (v : sql_value) : bool :=
  match v with
  | SqlNull => false
  | SqlInteger z => negb (Z.eqb z 0)
  | SqlReal repr => negb (String.eqb repr "0.0" || String.eqb repr "-0.0")
  | SqlText s => negb (String.eqb s "")
  | SqlBlob b => match b with [] => false | _ :: _ => true end
  end.

(** [check_jira_exists]: the handler logs and re-raises. *)
Definition check_jira_exists (w : db_world) (db_path jira_id : string)
    : answer bool * trace :=
  match execute_with_retry w db_path
          "SELECT 1 FROM jira_dashboard WHERE jira_number = ? LIMIT 1"
          [SqlText jira_id] true false false with
  | (Returned result, tr) =>
      (Gives match result with PyNone => false | _ => true end, tr)
  | (Raised msg, tr) => (Fails msg, tr)
  end.

(** [get_prompt_template].  The statement selects the one column [p_value], so
    [result["p_value"]] is the first value of the row; a row is false when it
    has no value at all. *)
Definition get_prompt_template (w : db_world) (db_path template_key : string)
    : answer sql_value * trace :=
  match execute_with_retry w db_path
          "SELECT p_value FROM jira_prompts_template WHERE p_key = ? LIMIT 1"
          [SqlText template_key] true false false with
  | (Raised msg, tr) => (Fails msg, tr)
  | (Returned result, tr) =>
      let not_found :=
        Fails ("Prompt template '" ++ template_key ++ "' not found in database") in
      match result with
      | PyNone => (not_found, tr)
      | PyRow [] => (not_found, tr)
      | PyRow (p_value :: _) =>
          if negb (truthy p_value) then (not_found, tr) else (Gives p_value, tr)
      | PyRows [] => (not_found, tr)
      | PyRows (_ :: _) =>
          (Fails "list indices must be integers or slices, not str", tr)
      end
  end.

(** [save_prompt]: every exception becomes [False]. *)
Definition save_prompt (w : db_world) (db_path jira_id prompt : string)
    : answer bool * trace :=
  match execute_with_retry w db_path
          "INSERT INTO jira_tmp_prompts (jira_no, analysis_prompt) VALUES (?, ?)"
          [SqlText jira_id; SqlText prompt] false false true with
  | (Returned _, tr) => (Gives true, tr)
  | (Raised _, tr) => (Gives false, tr)
  end.

(** *** Reading the handlers

    [retried e]: the handlers of the loop answer [e] with a back-off and
    another attempt (when one is left). *)
Definition retried (e : py_exn) : bool :=
  match e with
  | DatabaseError m =>
      contains "database is locked" (lower m) ||
      negb (contains "database disk image is malformed" (lower m) ||
            contains "no such table" (lower m))
  | FileNotFoundError _ => false
  | OtherException _ => true
  end.

(** What a call returns from the rows of the cursor. *)
Definition fetched (fetch_one fetch_all : bool) (rows : list row) : py_value :=
  if fetch_one then fetchone rows
  else if fetch_all then fetchall rows
  else PyNone.

(** The attempts with index below [i] are all answered with a retry. *)
Definition retried_before (w : db_world) (query : string) (params : list sql_value)
    (commit : bool) (i : nat) : Prop :=
  forall j, j < i ->
    path_exists w j = true /\
    exists e, run_statement w j query params commit = Throws e /\ retried e = true.

End DatabaseHelpers.

(* ================================================================= *)
(** ** The chat endpoint of [main.py] and the validation of its request *)

Module Endpoint.
Import Json Bridge.
Local Open Scope string_scope.
Local Open Scope list_scope.

(** *** [PromptRequest.validate_prompt] *)

(** [str.isspace] for one code point *)
Definition isspace (c : N) : bool :=
  (((9 <=? c) && (c <=? 13)) || ((28 <=? c) && (c <=? 32)) ||
   (c =? 133) || (c =? 160) || (c =? 5760) ||
   ((8192 <=? c) && (c <=? 8202)) ||
   (c =? 8232) || (c =? 8233) || (c =? 8239) || (c =? 8287) || (c =? 12288))%N.

Fixpoint lstrip (s : ustr) : ustr :=
  match s with
  | c :: s' => if isspace c then lstrip s' else s
  | [] => []
  end.

Definition rstrip (s : ustr) : ustr := rev (lstrip (rev s)).

(** [s.strip()] *)
Definition strip (s : ustr) : ustr := rstrip (lstrip s).

Definition is_empty (s : ustr) : bool :=
  match s with
  | [] => true
  | _ :: _ => false
  end.

(** A text that does not begin with white space. *)
Definition starts_clean (s : ustr) : Prop :=
  match s with
  | c :: _ => isspace c = false
  | [] => True
  end.

(** The validator: the stripped prompt, or the message of the [ValueError]. *)
Definition validate_prompt (v : ustr) : ustr + string :=
  if is_empty v || is_empty (strip v) then
    inr "Prompt cannot be empty or whitespace only"
  else inl (strip v).

(** *** [getCopilotResponseWithVSCodeBridge] *)

Record CopilotResponse : Type := {
  success : bool;
  response : ustr;
  prompt : ustr;
  timestamp : string;
  error : option ustr
}.

(** Besides the extension, the handler meets the clock once more, and the
    validation of the response model.  For a field declared [str], a value that
    is a string is taken as it is; what becomes of any other value differs
    between versions of the validation library, and is left to the world: the
    string it is turned into, or the message of the validation error. *)
Record handler_world : Type := {
  bridge : peer;
  answered_at : datetime;
  coerce_str : json -> ustr + ustr
}.

Definition type_name (v : json) : string :=
  match v with
  | JNull => "NoneType"
  | JBool _ => "bool"
  | JInt _ => "int"
  | JFloat _ => "float"
  | JStr _ => "str"
  | JList _ => "list"
  | JDict _ => "dict"
  end.

(** [response.get(key, default)]: only a dictionary has [get]. *)
Definition py_get (response : json) (key : string) (default : json) : M json :=
  match response with
  | JDict d =>
      ret match dict_get d (lit key) with
          | Some v => v
          | None => default
          end
  | other =>
      raise (OtherException
               (lit ("'" ++ type_name other ++ "' object has no attribute 'get'")))
  end.

(** [v == "literal"] *)
Definition equals_str (v : json) (s : string) : bool :=
  match v with
  | JStr t => ustr_eqb t (lit s)
  | _ => false
  end.

(** The validation of a [str] field and of an [Optional[str]] field. *)
Definition str_field (w : handler_world) (v : json) : M ustr :=
  match v with
  | JStr s => ret s
  | other =>
      match coerce_str w other with
      | inl s => ret s
      | inr msg => raise (OtherException msg)
      end
  end.

Definition optional_str_field (w : handler_world) (v : json) : M (option ustr) :=
  match v with
  | JNull => ret None
  | other => s <- str_field w other ;; ret (Some s)
  end.

Definition getCopilotResponseWithVSCodeBridge (w : handler_world)
    (request_prompt : ustr) (request_timeout : Z) : M CopilotResponse :=
  try_except
    (response <- Main.send_prompt (bridge w) request_prompt request_timeout ;;
     type1 <- py_get response "type" JNull ;;
     if equals_str type1 "copilot_response" then
       text <- py_get response "response" (JStr []) ;;
       text <- str_field w text ;;
       ret {| success := true; response := text; prompt := request_prompt;
              timestamp := isoformat (answered_at w); error := None |}
     else
       type2 <- py_get response "type" JNull ;;
       if equals_str type2 "error" then
         err <- py_get response "error" (JStr (lit "Unknown error from VS Code bridge")) ;;
         err <- optional_str_field w err ;;
         ret {| success := false; response := []; prompt := request_prompt;
                timestamp := isoformat (answered_at w); error := err |}
       else
         raise (HTTPException 500 (lit "Unexpected response format from VS Code bridge")))
    (fun e =>
       match e with
       | HTTPException _ _ => Some (raise e)
       | _ =>
           Some (raise (HTTPException 500 (lit "Internal server error: " ++ str_exn e)))
       end).

End Endpoint.

(* ================================================================= *)
(** ** [inject_and_save_prompt] of [main.py]

    The endpoint reads the database through the three helpers and writes to the
    extension without waiting for an answer.  As for the executor, the texts
    that pass through the database are [string]s read as code points below
    256. *)

Module Inject.
Import Json Bridge.
Import DatabaseHelpers.
Local Open Scope string_scope.
Local Open Scope list_scope.

Definition DB_PATH : string := "Z:\mcp_dashboard.db".

(** *** The string methods the endpoint calls *)

Definition isspace (c : ascii) : bool := Endpoint.isspace (N_of_ascii c).

Fixpoint lstrip (s : string) : string :=
  match s with
  | String c s' => if isspace c then lstrip s' else s
  | EmptyString => EmptyString
  end.

Fixpoint rstrip (s : string) : string :=
  match s with
  | EmptyString => EmptyString
  | String c s' =>
      match rstrip s' with
      | EmptyString => if isspace c then EmptyString else String c EmptyString
      | rest => String c rest
      end
  end.

(** [s.strip()] *)
Definition strip (s : string) : string := rstrip (lstrip s).

(** [s.replace(old, new)] for an [old] of one character *)
Fixpoint replace (s : string) (old : ascii) (new : string) : string :=
  match s with
  | EmptyString => EmptyString
  | String c s' =>
      if Ascii.eqb c old then new ++ replace s' old new
      else String c (replace s' old new)
  end.

(** [template_prompt.replace('?', jira_id)] on what the database handed back:
    only a text has such a method; [bytes.replace] does not take strings. *)
Definition call_replace (template_prompt : Database.sql_value) (jira_id : string)
    : string + string :=
  match template_prompt with
  | Database.SqlText s => inl (replace s "?" jira_id)
  | Database.SqlNull => inr "'NoneType' object has no attribute 'replace'"
  | Database.SqlInteger _ => inr "'int' object has no attribute 'replace'"
  | Database.SqlReal _ => inr "'float' object has no attribute 'replace'"
  | Database.SqlBlob _ => inr "a bytes-like object is required, not 'str'"
  end.

(** *** The response model *)

Record InjectPromptResponse : Type := {
  isValidJiraId : bool;
  isPromptInjectVScode : bool;
  genratedPrompt : option string;
  error : option string
}.

(** The response of the three early returns and of the [except] clause. *)
Definition rejected (error : string) : InjectPromptResponse :=
  {| isValidJiraId := false; isPromptInjectVScode := false;
     genratedPrompt := None; error := Some error |}.

(** *** The outside world during one request

    Each helper runs its own call of the executor, so each meets the database
    on its own; the clock is read twice for the envelope. *)
Record inject_world : Type := {
  on_check : Database.db_world;
  on_template : Database.db_world;
  on_save : Database.db_world;
  bridge : peer;
  request_id_at : datetime;
  timestamp_at : datetime
}.

Inductive helper : Type := CheckJira | GetTemplate | SavePrompt.

Inductive event : Type :=
| EvDb (h : helper) (ev : Database.event)
| EvWs (ev : Bridge.event).

Definition db_events (h : helper) (tr : Database.trace) : list event := map (EvDb h) tr.
Definition ws_events (tr : list Bridge.event) : list event := map EvWs tr.

(** *** Step 3: the envelope is written and no answer is awaited *)

Definition request_message (w : inject_world) (generated_prompt : string) : json :=
  JDict [ (lit "type", JStr (lit "copilot_request"));
          (lit "requestId", JStr (lit (isoformat (request_id_at w))));
          (lit "prompt", JStr (lit generated_prompt));
          (lit "timestamp", JStr (lit (isoformat (timestamp_at w)))) ].

(** The inner [try]: the same in both branches. *)
Definition send_request (w : inject_world) (generated_prompt : string) : M bool :=
  try_except
    (ws_send (bridge w) (dumps (request_message w generated_prompt)) ;;;
     ret true)
    (fun send_exc => Some (ret false)).

Definition inject (w : inject_world) (generated_prompt : string) : M bool :=
  try_except
    (is_connected <- get_is_connected ;;
     if negb is_connected then
       connected <- connect (bridge w) ;;
       if negb connected then ret false
       else send_request w generated_prompt
     else send_request w generated_prompt)
    (fun copilot_exc => Some (ret false)).

(** *** The endpoint *)

Definition inject_and_save_prompt (w : inject_world) (request_jira_id : string)
    (m : manager) : result InjectPromptResponse * manager * list event :=
  let jira_id := strip request_jira_id in
  if String.eqb jira_id "" then
    (Ok (rejected "JIRA ID cannot be empty"), m, [])
  else
    let '(checked, tr1) := check_jira_exists (on_check w) DB_PATH jira_id in
    match checked with
    | Fails msg => (Ok (rejected msg), m, db_events CheckJira tr1)
    | Gives false =>
        (Ok (rejected ("JIRA ID '" ++ jira_id ++ "' not found in database")), m,
         db_events CheckJira tr1)
    | Gives true =>
        let is_valid_jira := true in
        let '(template, tr2) :=
          get_prompt_template (on_template w) DB_PATH "analysis_prompt" in
        let log := db_events CheckJira tr1 ++ db_events GetTemplate tr2 in
        match template with
        | Fails msg => (Ok (rejected msg), m, log)
        | Gives template_prompt =>
            match call_replace template_prompt jira_id with
            | inr msg => (Ok (rejected msg), m, log)
            | inl generated_prompt =>
                match inject w generated_prompt m with
                | (Raise e, m1, tr3) => (Raise e, m1, log ++ ws_events tr3)
                | (Ok is_prompt_injected, m1, tr3) =>
                    (* the outcome of the save is logged and not looked at *)
                    let tr4 :=
                      if is_valid_jira && negb (String.eqb generated_prompt "") then
                        snd (save_prompt (on_save w) DB_PATH jira_id generated_prompt)
                      else [] in
                    let error_message :=
                      if is_valid_jira && negb is_prompt_injected then
                        Some "VS Code Copilot bridge is not available. Prompt saved to database. Please ensure VS Code extension is running on port 8765."
                      else None in
                    (Ok {| isValidJiraId := is_valid_jira;
                           isPromptInjectVScode := is_prompt_injected;
                           genratedPrompt := Some generated_prompt;
                           error := error_message |},
                     m1, log ++ ws_events tr3 ++ db_events SavePrompt tr4)
                end
            end
        end
    end.

(** The same world with another database at the time of the save. *)
Definition with_save (w : inject_world) (db : Database.db_world) : inject_world :=
  {| on_check := on_check w; on_template := on_template w; on_save := db;
     bridge := bridge w; request_id_at := request_id_at w;
     timestamp_at := timestamp_at w |}.

(** The request passes the first two steps: the JIRA number is not blank and is
    found, and the template read is the text [template]. *)
Definition accepted (w : inject_world) (request_jira_id template : string) : Prop :=
  strip request_jira_id <> "" /\
  fst (check_jira_exists (on_check w) DB_PATH (strip request_jira_id)) = Gives true /\
  fst (get_prompt_template (on_template w) DB_PATH "analysis_prompt")
  = Gives (Database.SqlText template).

(** An event of one of the two reading helpers. *)
Definition is_read (ev : event) : Prop :=
  exists h e, ev = EvDb h e /\ h <> SavePrompt.

Definition response_of (r : result InjectPromptResponse * manager * list event)
    : result InjectPromptResponse := fst (fst r).
Definition manager_after (r : result InjectPromptResponse * manager * list event)
    : manager := snd (fst r).
Definition events_of (r : result InjectPromptResponse * manager * list event)
    : list event := snd r.

(** The events of one kind. *)
Definition is_wait (ev : event) : bool :=
  match ev with
  | EvWs (EvRecv _ _) => true
  | _ => false
  end.

Definition is_close (ev : event) : bool :=
  match ev with
  | EvWs (EvClose _) => true
  | _ => false
  end.

Definition is_write (ev : event) : bool :=
  match ev with
  | EvWs (EvSend _ _) => true
  | _ => false
  end.

Definition is_dial (ev : event) : bool :=
  match ev with
  | EvWs EvConnect => true
  | _ => false
  end.

Definition count (p : event -> bool) (tr : list event) : nat :=
  List.length (filter p tr).

(** A database in which every statement completes, with one row holding
    [v]. *)
Definition holds (v : Database.sql_value) : Database.db_world :=
  Database.always_rows [[v]].

(** A request meets a database that holds the JIRA number and the template
    "Analyse ?" and is locked at the time of the save. *)
Definition locked_at_save (p : peer) : inject_world :=
  {| on_check := holds (Database.SqlInteger 1);
     on_template := holds (Database.SqlText "Analyse ?");
     on_save := Database.always_raises "database is locked";
     bridge := p;
     request_id_at := Lifecycle.noon;
     timestamp_at := Lifecycle.noon |}.

(** A peer whose connection is found closed at the write. *)
Definition closed_at_write : peer :=
  {| now := Lifecycle.noon;
     on_connect := Connects 1;
     on_send := fun _ => SendRaisesClosed (lit "no close frame received or sent");
     on_recv := fun _ _ => TimesOut;
     decode_error := fun _ => lit "Expecting value" |}.

End Inject.

(* ================================================================= *)
(** ** [health_check] of [main.py] *)

Module Health.
Import Bridge.
Local Open Scope string_scope.
Local Open Scope list_scope.

Record HealthResponse : Type := {
  status : string;
  bridge_connected : bool;
  database_connected : bool;
  database_path : string;
  timestamp : string
}.

(** The test statement goes through the executor; whatever that raises is
    logged and makes the database count as not connected.  The flag of the
    manager is read, nothing more. *)
Definition health_check (w : Database.db_world) (clock : datetime) (m : manager)
    : HealthResponse * Database.trace :=
  let '(tested, tr) :=
    Database.execute_with_retry w Inject.DB_PATH "SELECT 1 LIMIT 1" [] true false false in
  let database_connected :=
    match tested with
    | Database.Returned _ => true
    | Database.Raised _ => false
    end in
  ({| status := if database_connected then "healthy" else "degraded";
      bridge_connected := is_connected m;
      database_connected := database_connected;
      database_path := Inject.DB_PATH;
      timestamp := isoformat clock |},
   tr).

End Health.

(* ================================================================= *)
(** ** [model_providers.py]: the providers and their factory *)

Module Providers.
Local Open Scope string_scope.
Local Open Scope list_scope.

(** [os.environ], as [os.getenv] reads it. *)
Definition environ : Type := string -> option string.

Definition getenv (env : environ) (key : string) : option string := env key.

(** [os.getenv(key, default)] *)
Definition getenv_default (env : environ) (key default : string) : string :=
  match env key with
  | Some v => v
  | None => default
  end.

(** [bool(s)] and [a or b] for values that are a string or [None]. *)
Definition bool_str (a : option string) : bool :=
  match a with
  | Some s => negb (String.eqb s "")
  | None => false
  end.

Definition py_or (a b : option string) : option string :=
  if bool_str a then a else b.

(** *** The provider classes

    An instance holds what the constructors assign; [base_url] is [None] for
    the classes that have no such attribute. *)
Inductive provider_class : Type :=
| OpenAIProvider
| ClaudeProvider
| GeminiProvider
| OllamaProvider.

Record provider : Type := {
  class_of : provider_class;
  api_key : option string;
  base_url : option string;
  model_name : string
}.

Definition new_OpenAIProvider (env : environ) (api_key : option string) : provider :=
  {| class_of := OpenAIProvider;
     api_key := py_or api_key (getenv env "OPENAI_API_KEY");
     base_url := None;
     model_name := "OpenAI GPT" |}.

Definition new_ClaudeProvider (env : environ) (api_key : option string) : provider :=
  {| class_of := ClaudeProvider;
     api_key := py_or api_key (getenv env "ANTHROPIC_API_KEY");
     base_url := None;
     model_name := "Anthropic Claude" |}.

Definition new_GeminiProvider (env : environ) (api_key : option string) : provider :=
  {| class_of := GeminiProvider;
     api_key := py_or api_key (getenv env "GOOGLE_API_KEY");
     base_url := Some "https://generativelanguage.googleapis.com/v1beta";
     model_name := "Google Gemini" |}.

Definition new_OllamaProvider (env : environ) (base_url : option string) : provider :=
  {| class_of := OllamaProvider;
     api_key := None;
     base_url :=
       py_or base_url
         (Some (getenv_default env "OLLAMA_BASE_URL" "http://localhost:11434"));
     model_name := "Ollama Local" |}.

(** [is_available]: the base method, and the one [OllamaProvider] overrides it
    with. *)
Definition is_available (p : provider) : bool :=
  match class_of p with
  | OllamaProvider => bool_str (base_url p)
  | _ => bool_str (api_key p)
  end.

(** *** Dictionaries with string keys, in insertion order *)

Fixpoint lookup {A : Type} (k : string) (d : list (string * A)) : option A :=
  match d with
  | [] => None
  | (k', v) :: rest => if String.eqb k' k then Some v else lookup k rest
  end.

(** [d[k] = v] *)
Fixpoint store {A : Type} (k : string) (v : A) (d : list (string * A))
    : list (string * A) :=
  match d with
  | [] => [(k, v)]
  | (k', v') :: rest =>
      if String.eqb k' k then (k, v) :: rest else (k', v') :: store k v rest
  end.

Definition keys {A : Type} (d : list (string * A)) : list string := map fst d.

(** *** [ModelFactory] *)

Definition _providers : list (string * provider_class) :=
  [ ("openai", OpenAIProvider);
    ("claude", ClaudeProvider);
    ("gemini", GeminiProvider);
    ("ollama", OllamaProvider) ].

(** [_instances], the cache. *)
Definition instances : Type := list (string * provider).

(** [provider_class()] *)
Definition construct (env : environ) (c : provider_class) : provider :=
  match c with
  | OpenAIProvider => new_OpenAIProvider env None
  | ClaudeProvider => new_ClaudeProvider env None
  | GeminiProvider => new_GeminiProvider env None
  | OllamaProvider => new_OllamaProvider env None
  end.

(** [create_provider]: the instance, or the message of the [ValueError]; and
    the cache afterwards. *)
Definition create_provider (env : environ) (provider_name : string)
    (_instances : instances) : (provider + string) * instances :=
  let provider_name := Database.lower provider_name in
  match lookup provider_name _instances with
  | Some instance => (inl instance, _instances)
  | None =>
      match lookup provider_name _providers with
      | None =>
          (inr ("Unknown provider: " ++ provider_name ++ ". " ++
                "Available: " ++ String.concat ", " (keys _providers))%string,
           _instances)
      | Some provider_class =>
          let instance := construct env provider_class in
          (inl instance, store provider_name instance _instances)
      end
  end.

(** The loop of [get_available_providers] over the names still to check. *)
Fixpoint check_providers (env : environ) (names : list string)
    (status : list (string * bool)) (_instances : instances)
    : list (string * bool) * instances :=
  match names with
  | [] => (status, _instances)
  | name :: rest =>
      match create_provider env name _instances with
      | (inl provider, _instances) =>
          check_providers env rest (store name (is_available provider) status) _instances
      | (inr _, _instances) =>
          check_providers env rest (store name false status) _instances
      end
  end.

Definition get_available_providers (env : environ) (_instances : instances)
    : list (string * bool) * instances :=
  check_providers env (keys _providers) [] _instances.

Definition clear_cache (_instances : instances) : instances := [].

(** *** [MODEL_ROUTING] *)

Definition MODEL_ROUTING : list (string * (string * string)) :=
  [ ("openai-gpt4", ("openai", "gpt-4"));
    ("openai-gpt4-turbo", ("openai", "gpt-4-turbo-preview"));
    ("openai-gpt3.5", ("openai", "gpt-3.5-turbo"));
    ("claude-opus", ("claude", "claude-3-opus-20240229"));
    ("claude-sonnet", ("claude", "claude-3-sonnet-20240229"));
    ("claude-haiku", ("claude", "claude-3-haiku-20240307"));
    ("gemini-pro", ("gemini", "gemini-pro"));
    ("gemini-pro-vision", ("gemini", "gemini-pro-vision"));
    ("ollama-llama2", ("ollama", "llama2"));
    ("ollama-mistral", ("ollama", "mistral"));
    ("ollama-codellama", ("ollama", "codellama")) ].

(** *** Caches the factory can have built

    [_instances] starts empty and changes only through the three class
    methods. *)
Inductive built : instances -> Prop :=
| built_empty : built []
| built_create (env : environ) (provider_name : string) (c : instances) :
    built c -> built (snd (create_provider env provider_name c))
| built_check (env : environ) (c : instances) :
    built c -> built (snd (get_available_providers env c))
| built_clear (c : instances) :
    built c -> built (clear_cache c).

(** The names the factory knows, as they are spelled in [_providers]. *)
Definition known (name : string) : Prop :=
  Database.lower name = name /\ lookup name _providers <> None.

(** An environment that sets the given variables and no other. *)
Definition environment (vars : list (string * string)) : environ :=
  fun key => lookup key vars.

End Providers.

(* ================================================================= *)
(** ** [chat_with_ai] of [main_multi_model.py] *)

Module MultiEndpoint.
Import Json Bridge Providers.
Local Open Scope string_scope.
Local Open Scope list_scope.

(** *** The request *)

Inductive ModelProvider : Type :=
| VSCODE_BRIDGE
| OPENAI_GPT4
| OPENAI_GPT4_TURBO
| OPENAI_GPT35
| CLAUDE_OPUS
| CLAUDE_SONNET
| CLAUDE_HAIKU
| GEMINI_PRO
| OLLAMA_LLAMA2
| OLLAMA_MISTRAL
| OLLAMA_CODELLAMA.

(** [model.value] *)
Definition value (model : ModelProvider) : string :=
  match model with
  | VSCODE_BRIDGE => "vscode-bridge"
  | OPENAI_GPT4 => "openai-gpt4"
  | OPENAI_GPT4_TURBO => "openai-gpt4-turbo"
  | OPENAI_GPT35 => "openai-gpt3.5"
  | CLAUDE_OPUS => "claude-opus"
  | CLAUDE_SONNET => "claude-sonnet"
  | CLAUDE_HAIKU => "claude-haiku"
  | GEMINI_PRO => "gemini-pro"
  | OLLAMA_LLAMA2 => "ollama-llama2"
  | OLLAMA_MISTRAL => "ollama-mistral"
  | OLLAMA_CODELLAMA => "ollama-codellama"
  end.

Definition is_bridge (model : ModelProvider) : bool :=
  match model with
  | VSCODE_BRIDGE => true
  | _ => false
  end.

(** A validated request.  [temperature] and [max_tokens] are optional: a
    number, or [None]; a float is kept as its [repr].  The timeout is taken to
    be a number. *)
Record PromptRequest : Type := {
  prompt : ustr;
  model : ModelProvider;
  timeout : Z;
  temperature : option ustr;
  max_tokens : option Z
}.

Definition json_of_temperature (t : option ustr) : json :=
  match t with
  | Some repr => JFloat repr
  | None => JNull
  end.

Definition json_of_max_tokens (n : option Z) : json :=
  match n with
  | Some z => JInt z
  | None => JNull
  end.

(** *** The response model and the two ways the endpoint ends *)

(** The fields [prompt], [model] and [provider] of the response are written
    [response_prompt], [response_model] and [provider_name] here, the first two
    names being those of the request. *)
Record AIResponse : Type := {
  success : bool;
  response : ustr;
  response_prompt : ustr;
  response_model : string;
  provider_name : string;
  timestamp : string;
  error : option ustr;
  metadata : option (list (string * json))
}.

(** [return AIResponse(...)], or [raise HTTPException(status_code, detail)];
    the detail is whatever value the code puts there. *)
Inductive outcome : Type :=
| Responds (r : AIResponse)
| Fails (status_code : Z) (detail : json).

(** *** The outside world during one request *)

(** What the call of a provider's API comes to: the value handed back, or an
    exception with its text. *)
Inductive generate_outcome : Type :=
| Generated (v : json)
| GenerateRaises (msg : ustr).

(** [format_model] is the text an f-string makes of a member of the
    enumeration, which differs between versions of Python; [coerce_str] is the
    validation of a [str] field for a value that is no string, as for the chat
    endpoint of [main.py]. *)
Record chat_world : Type := {
  bridge : peer;
  env : environ;
  call_api : provider -> ustr -> string -> json -> json -> generate_outcome;
  answered_at : datetime;
  format_model : ModelProvider -> string;
  coerce_str : json -> ustr + ustr
}.

(** [s.upper()] for a text of ASCII characters, which the keys of the routing
    table are. *)
Definition upper_char (c : ascii) : ascii :=
  let n := nat_of_ascii c in
  if ((97 <=? n) && (n <=? 122))%nat then ascii_of_nat (n - 32) else c.

Fixpoint upper (s : string) : string :=
  match s with
  | EmptyString => EmptyString
  | String c s' => String (upper_char c) (upper s')
  end.

(** [provider.generate(...)]: the three hosted providers test their key before
    anything else; what follows is the call of the API, whose exceptions are
    logged and raised again. *)
Definition generate (w : chat_world) (p : provider) (prompt : ustr) (model : string)
    (temperature max_tokens : json) : generate_outcome :=
  match class_of p with
  | OpenAIProvider =>
      if negb (is_available p) then GenerateRaises (lit "OpenAI API key not configured")
      else call_api w p prompt model temperature max_tokens
  | ClaudeProvider =>
      if negb (is_available p) then GenerateRaises (lit "Anthropic API key not configured")
      else call_api w p prompt model temperature max_tokens
  | GeminiProvider =>
      if negb (is_available p) then GenerateRaises (lit "Google API key not configured")
      else call_api w p prompt model temperature max_tokens
  | OllamaProvider => call_api w p prompt model temperature max_tokens
  end.

(** [d.get(key, default)] *)
Definition get (d : list (ustr * json)) (key : string) (default : json) : json :=
  match dict_get d (lit key) with
  | Some v => v
  | None => default
  end.

(** *** The endpoint *)

(** The response of the [except Exception] clause. *)
Definition answer_error (w : chat_world) (request : PromptRequest) (text : ustr)
    : AIResponse :=
  {| success := false; response := [];
     response_prompt := prompt request;
     response_model := value (model request);
     provider_name := "error";
     timestamp := isoformat (answered_at w);
     error := Some text;
     metadata := None |}.

(** The [return] at the end of the [try]: the response model takes a text as
    it is; a validation error is an exception raised inside the [try]. *)
Definition answer (w : chat_world) (request : PromptRequest)
    (response_text : json) (provider_name : string) : AIResponse :=
  let build text :=
    {| success := true; response := text;
       response_prompt := prompt request;
       response_model := value (model request);
       provider_name := provider_name;
       timestamp := isoformat (answered_at w);
       error := None;
       metadata :=
         Some [ ("temperature", json_of_temperature (temperature request));
                ("max_tokens", json_of_max_tokens (max_tokens request)) ] |} in
  match response_text with
  | JStr text => build text
  | other =>
      match coerce_str w other with
      | inl text => build text
      | inr msg => answer_error w request msg
      end
  end.

Definition chat_with_ai (w : chat_world) (request : PromptRequest)
    (m : manager) (c : instances)
    : outcome * manager * instances * list Bridge.event :=
  if is_bridge (model request) then
    match MultiModel.send_prompt (bridge w) (prompt request) (timeout request)
            [ ("temperature", json_of_temperature (temperature request));
              ("max_tokens", json_of_max_tokens (max_tokens request)) ] m with
    | (Raise (HTTPException status_code detail), m1, tr) =>
        (Fails status_code (JStr detail), m1, c, tr)
    | (Raise e, m1, tr) =>
        (Responds (answer_error w request (str_exn e)), m1, c, tr)
    | (Ok (JDict d), m1, tr) =>
        if Endpoint.equals_str (get d "type" JNull) "copilot_response" then
          (Responds (answer w request (get d "response" (JStr [])) "VS Code Copilot"),
           m1, c, tr)
        else if Endpoint.equals_str (get d "type" JNull) "error" then
          (Fails 500 (get d "error" (JStr (lit "Unknown error from VS Code bridge"))),
           m1, c, tr)
        else
          (Responds (answer w request (JStr []) ""), m1, c, tr)
    | (Ok other, m1, tr) =>
        (Responds
           (answer_error w request
              (lit ("'" ++ Endpoint.type_name other ++ "' object has no attribute 'get'"))),
         m1, c, tr)
    end
  else
    match lookup (value (model request)) MODEL_ROUTING with
    | None =>
        (Fails 400 (JStr (lit ("Unknown model: " ++ format_model w (model request)))),
         m, c, [])
    | Some (provider_key, model_name) =>
        match create_provider (env w) provider_key c with
        | (inr msg, c1) => (Responds (answer_error w request (lit msg)), m, c1, [])
        | (inl provider, c1) =>
            if negb (is_available provider) then
              (Fails 503
                 (JStr (lit (upper provider_key
                             ++ " is not configured. Please set up API key."))),
               m, c1, [])
            else
              match generate w provider (prompt request) model_name
                      (json_of_temperature (temperature request))
                      (json_of_max_tokens (max_tokens request)) with
              | GenerateRaises msg =>
                  (Responds (answer_error w request msg), m, c1, [])
              | Generated response_text =>
                  (Responds
                     (answer w request response_text
                        (upper provider_key ++ " - " ++ model_name)),
                   m, c1, [])
              end
        end
    end.

Definition outcome_of (r : outcome * manager * instances * list Bridge.event) : outcome :=
  fst (fst (fst r)).
Definition manager_of (r : outcome * manager * instances * list Bridge.event) : manager :=
  snd (fst (fst r)).
Definition cache_of (r : outcome * manager * instances * list Bridge.event) : instances :=
  snd (fst r).
Definition events_of (r : outcome * manager * instances * list Bridge.event)
    : list Bridge.event := snd r.

(** The envelope [send_prompt] builds when it is called from here. *)
Definition envelope (w : chat_world) (request : PromptRequest) : json :=
  JDict [ (lit "type", JStr (lit "copilot_request"));
          (lit "requestId", JStr (lit (isoformat (now (bridge w)))));
          (lit "prompt", JStr (prompt request));
          (lit "temperature", json_of_temperature (temperature request));
          (lit "maxTokens", json_of_max_tokens (max_tokens request));
          (lit "timestamp", JStr (lit (isoformat (now (bridge w))))) ].

(** A world with no API key, whose extension is the given peer. *)
Definition unconfigured (p : peer) : chat_world :=
  {| bridge := p;
     env := environment [];
     call_api := fun _ _ _ _ _ => GenerateRaises (lit "unreachable");
     answered_at := Lifecycle.noon;
     format_model := value;
     coerce_str := fun _ => inr (lit "str type expected") |}.

Definition ask (model : ModelProvider) : PromptRequest :=
  {| prompt := lit "hello"; model := model; timeout := 1;
     temperature := None; max_tokens := Some 2000%Z |}.

End MultiEndpoint.

(* ================================================================= *)
(** * Properties of the database executor *)

Module DatabaseFacts.
Import Database.
Local Open Scope string_scope.
Local Open Scope list_scope.

(** ** The code on small inputs *)

Example lower_message :
  lower "Database Is LOCKED" = "database is locked".
Proof. reflexivity. Qed.

Example contains_signature :
  contains "no such table" "no such table: jira_dashboard" = true /\
  contains "database is locked" "no such table: jira_dashboard" = false.
Proof. split; reflexivity. Qed.

(** A healthy store: [SELECT 1] with [fetch_one] gives the row [(1,)] at the
    first attempt, without a sleep. *)
Example healthy_select :
  execute_with_retry (always_rows [[SqlInteger 1]]) "Z:\mcp_dashboard.db"
    "SELECT 1 LIMIT 1" [] true false false
  = (Returned (PyRow [SqlInteger 1]), [EvAttempt 0]).
Proof. reflexivity. Qed.

(** A missing file: no driver call, no retry. *)
Example missing_file :
  execute_with_retry
    {| path_exists := fun _ => false;
       run_statement := fun _ _ _ _ => Completes [] |}
    "Z:\mcp_dashboard.db" "SELECT 1 LIMIT 1" [] true false false
  = (Raised "Database file not accessible. Please check network connection and file permissions.",
     [EvAttempt 0]).
Proof. reflexivity. Qed.

(** An error that is no [sqlite3.DatabaseError] is retried like a lock, but the
    last attempt raises "Database connection failed". *)
Example other_error_three_times :
  execute_with_retry
    {| path_exists := fun _ => true;
       run_statement := fun _ _ _ _ => Throws (OtherException "disk I/O error") |}
    "Z:\mcp_dashboard.db" "SELECT 1 LIMIT 1" [] true false false
  = (Raised "Database connection failed: disk I/O error",
     [EvAttempt 0; EvSleep (1 # 10); EvAttempt 1; EvSleep (2 # 10); EvAttempt 2]).
Proof. reflexivity. Qed.

(** ** Substring tests survive lowering *)

Lemma prefix_lower (sub s : string) :
  String.prefix sub s = true -> String.prefix (lower sub) (lower s) = true.
Proof.
  revert s; induction sub as [|a sub IH]; intros [|b s]; simpl; auto.
  destruct (ascii_dec a b) as [->|]; [|discriminate].
  intros H. destruct (ascii_dec (lower_char b) (lower_char b)); [auto|congruence].
Qed.

Lemma contains_lower (sub s : string) :
  lower sub = sub -> contains sub s = true -> contains sub (lower s) = true.
Proof.
  intros Hsub. induction s as [|c s IH]; cbn [contains lower].
  - rewrite !orb_false_r. intros H. apply prefix_lower in H.
    now rewrite Hsub in H.
  - intros H. apply orb_true_iff in H as [H|H].
    + apply prefix_lower in H. rewrite Hsub in H. cbn [lower] in H.
      now rewrite H.
    + rewrite (IH H). apply orb_true_r.
Qed.

Section Loop.

Variables (w : db_world) (db_path query : string) (params : list sql_value).
Variables (fetch_one fetch_all commit : bool).

Let loop := retry_loop w db_path query params fetch_one fetch_all commit.
Let judge := judge w db_path query params fetch_one fetch_all commit.

Lemma loop_step (a : nat) (rest : list nat) (last : option py_exn) :
  loop (a :: rest) last =
  emit (EvAttempt a)
    match judge a with
    | Done v => (Returned v, [])
    | Fatal msg => (Raised msg, [])
    | Again e final =>
        if (a <? MAX_RETRIES - 1)%nat then emit (EvSleep (backoff a)) (loop rest (Some e))
        else match final with
             | Some msg => (Raised msg, [])
             | None => loop rest (Some e)
             end
    end.
Proof.
  unfold loop, judge, Database.judge. cbn [retry_loop].
  destruct (try_body w db_path a query params fetch_one fetch_all commit) as [v|[m|m|m]];
    cbn [str_exn]; try reflexivity.
  destruct (contains "database is locked" (lower m)); [reflexivity|].
  destruct (contains "database disk image is malformed" (lower m)); [reflexivity|].
  destruct (contains "no such table" (lower m)); reflexivity.
Qed.

Lemma loop_nil (last : option py_exn) :
  loop [] last =
  (Raised ("Database operation failed after 3 attempts. Last error: " ++ str_last last)%string, []).
Proof. reflexivity. Qed.

(** The trace of the loop from attempt [a] on is a schedule. *)
Lemma loop_schedule (n a : nat) (last : option py_exn) :
  a + S n = MAX_RETRIES ->
  exists m, 1 <= m <= S n /\ snd (loop (seq a (S n)) last) = schedule a m.
Proof.
  revert a last. induction n as [|n IH]; intros a last Ha;
    cbn [seq]; rewrite loop_step; unfold MAX_RETRIES in *.
  - replace (a <? 3 - 1)%nat with false by (symmetry; apply Nat.ltb_ge; simpl; lia).
    exists 1. split; [lia|].
    destruct (judge a) as [v|msg|e [msg|]]; reflexivity.
  - replace (a <? 3 - 1)%nat with true by (symmetry; apply Nat.ltb_lt; simpl; lia).
    destruct (judge a) as [v|msg|e final].
    + exists 1. split; [lia|reflexivity].
    + exists 1. split; [lia|reflexivity].
    + destruct (IH (S a) (Some e)) as (m & Hm & Htr); [lia|].
      exists (S m). split; [lia|].
      cbn [emit snd schedule]. fold loop. cbn [seq] in Htr. rewrite Htr.
      destruct m; [lia|reflexivity].
Qed.

End Loop.

(** ** Schedules *)

Lemma schedule_attempts (m a : nat) : attempts_of (schedule a m) = seq a m.
Proof.
  revert a. induction m as [|m IH]; intros a; [reflexivity|].
  cbn [schedule]. destruct m as [|m]; [reflexivity|].
  change (attempts_of (EvAttempt a :: EvSleep (backoff a) :: schedule (S a) (S m)))
    with (a :: attempts_of (schedule (S a) (S m))).
  now rewrite IH.
Qed.

Lemma schedule_sleeps (m a : nat) :
  sleeps_of (schedule a (S m)) = map backoff (seq a m).
Proof.
  revert a. induction m as [|m IH]; intros a; [reflexivity|].
  change (sleeps_of (schedule a (S (S m))))
    with (backoff a :: sleeps_of (schedule (S a) (S m))).
  now rewrite IH.
Qed.

(** In a schedule every attempt but the first comes right after the sleep of
    the attempt before it. *)
Lemma schedule_before (m a j : nat) (pre post : trace) :
  schedule a m = pre ++ EvAttempt j :: post ->
  (pre = [] /\ j = a) \/
  (a < j /\ exists pre', pre = pre' ++ [EvSleep (backoff (j - 1))]).
Proof.
  revert a pre. induction m as [|m IH]; intros a pre H.
  - destruct pre; discriminate.
  - cbn [schedule] in H. destruct pre as [|ev pre].
    + left. cbn [app] in H. injection H as H _. now split.
    + right. cbn [app] in H. injection H as <- H.
      destruct m as [|m]; [destruct pre; discriminate|].
      destruct pre as [|ev pre]; [discriminate|].
      cbn [app] in H. injection H as <- H.
      apply IH in H as [[-> ->]|[Hlt [pre' ->]]].
      * split; [lia|]. exists [EvAttempt a].
        now replace (S a - 1) with a by lia.
      * split; [lia|]. now exists (EvAttempt a :: EvSleep (backoff a) :: pre').
Qed.

Lemma backoff_delay_before (k : nat) : 2 <= k -> backoff (k - 2) = delay_before k.
Proof.
  intros Hk. unfold backoff, delay_before.
  now rewrite Nat2Z.inj_sub by exact Hk.
Qed.

Lemma sleeps_as_specified (m a : nat) :
  map backoff (seq a m) = map delay_before (seq (2 + a) m).
Proof.
  revert a. induction m as [|m IH]; intros a; [reflexivity|].
  cbn [seq map]. f_equal; [|apply (IH (S a))].
  rewrite <- (backoff_delay_before (2 + a)) by lia.
  f_equal. lia.
Qed.

Lemma delay_before_doubles (k : nat) :
  2 <= k ->
  (delay_before (S k) == 2 * delay_before k)%Q /\
  (delay_before k < delay_before (S k))%Q.
Proof.
  intros Hk. unfold delay_before, RETRY_DELAY.
  replace (Z.of_nat (S k) - 2)%Z with (Z.succ (Z.of_nat k - 2)) by lia.
  rewrite Z.pow_succ_r by lia.
  set (p := (2 ^ (Z.of_nat k - 2))%Z).
  assert (Hp : (0 < p)%Z) by (apply Z.pow_pos_nonneg; lia).
  clearbody p. unfold Qeq, Qlt, Qmult, inject_Z, Qnum, Qden.
  rewrite !Pos.mul_1_r, !Z.mul_1_l. split; lia.
Qed.

(** ** Whole calls *)

Section Calls.

Variables (w : db_world) (db_path query : string) (params : list sql_value).
Variables (fetch_one fetch_all commit : bool).

Let call := execute_with_retry w db_path query params fetch_one fetch_all commit.
Let loop := retry_loop w db_path query params fetch_one fetch_all commit.
Let judge := judge w db_path query params fetch_one fetch_all commit.

Lemma call_schedule : exists m, 1 <= m <= MAX_RETRIES /\ snd call = schedule 0 m.
Proof. apply (loop_schedule w db_path query params fetch_one fetch_all commit 2 0 None eq_refl). Qed.

Lemma fatal_class_judge (attempt : nat) (msg : string) :
  fatal_class w query params commit attempt msg -> judge attempt = Fatal msg.
Proof.
  unfold judge, Database.judge, try_body.
  intros [Hp | m Hp Hr Hl Hc | m Hp Hr Hl Hc Hs]; rewrite Hp; cbn [negb];
    [reflexivity | rewrite Hr, Hl, Hc | rewrite Hr, Hl, Hc, Hs]; reflexivity.
Qed.

(** A fatal verdict ends the loop on the spot: the attempt it is given for is
    the last event. *)
Lemma loop_fatal (n a i : nat) (last : option py_exn) (msg : string) :
  a + S n = MAX_RETRIES ->
  judge i = Fatal msg ->
  In (EvAttempt i) (snd (loop (seq a (S n)) last)) ->
  fst (loop (seq a (S n)) last) = Raised msg /\
  exists pre, snd (loop (seq a (S n)) last) = pre ++ [EvAttempt i].
Proof.
  revert a last. induction n as [|n IH]; intros a last Ha Hi;
    cbn [seq]; unfold loop; rewrite loop_step; fold loop; fold judge;
    unfold MAX_RETRIES in *.
  - replace (a <? 3 - 1)%nat with false by (symmetry; apply Nat.ltb_ge; simpl; lia).
    destruct (judge a) as [v|msg'|e [msg'|]] eqn:Hj;
      cbn [emit fst snd loop retry_loop In];
      (intros [[= <-]|[]]; rewrite Hi in Hj; try discriminate).
    injection Hj as <-. split; [reflexivity|now exists []].
  - replace (a <? 3 - 1)%nat with true by (symmetry; apply Nat.ltb_lt; simpl; lia).
    destruct (judge a) as [v|msg'|e final] eqn:Hj; cbn [emit fst snd In].
    + intros [[= <-]|[]]. rewrite Hi in Hj. discriminate.
    + intros [[= <-]|[]]. rewrite Hi in Hj. injection Hj as <-.
      split; [reflexivity|now exists []].
    + intros [[= <-]|[[=]|Hin]]; [rewrite Hi in Hj; discriminate|].
      destruct (IH (S a) (Some e)) as (Hres & pre & Htr); [lia|exact Hi|exact Hin|].
      split; [exact Hres|].
      exists (EvAttempt a :: EvSleep (backoff a) :: pre).
      cbn [seq] in Htr. now rewrite Htr.
Qed.

(** Without a fetch flag a successful iteration hands back [None]. *)
Lemma loop_result (l : list nat) (last : option py_exn) (v : py_value) :
  fst (loop l last) = Returned v -> exists i, judge i = Done v.
Proof.
  revert last. induction l as [|a l IH]; intros last; [discriminate|].
  unfold loop; rewrite loop_step; fold loop; fold judge.
  destruct (judge a) as [v'|msg'|e final] eqn:Hj; cbn [emit fst].
  - intros [= <-]. now exists a.
  - discriminate.
  - destruct (a <? MAX_RETRIES - 1)%nat; cbn [emit fst]; [apply IH|].
    destruct final; [discriminate|apply IH].
Qed.

End Calls.

(** ** What the specification says of [execute_with_retry] *)

Lemma judge_locked (w : db_world) (db_path query : string) (params : list sql_value)
    (fetch_one fetch_all commit : bool) (attempt : nat) (m : string) :
  path_exists w attempt = true ->
  run_statement w attempt query params commit = Throws (DatabaseError m) ->
  contains "database is locked" m = true ->
  judge w db_path query params fetch_one fetch_all commit attempt
  = Again (DatabaseError m) None.
Proof.
  intros Hp Hr Hc. unfold judge, try_body. rewrite Hp, Hr. cbn [negb].
  now rewrite (contains_lower "database is locked" m eq_refl Hc).
Qed.

(** C2.  When the file is there and every physical attempt raises a database
    error whose message contains "database is locked", the call makes exactly
    the three attempts 0, 1, 2, sleeps [RETRY_DELAY * 1] after the first and
    [RETRY_DELAY * 2] after the second (in total [RETRY_DELAY * (1 + 2)]), and
    then raises the error that names the three attempts and carries the message
    of the last cause. *)
Theorem locked_on_every_attempt
    (w : db_world) (db_path query : string) (params : list sql_value)
    (fetch_one fetch_all commit : bool) (msg : nat -> string) :
  (forall attempt, attempt < MAX_RETRIES ->
     path_exists w attempt = true /\
     run_statement w attempt query params commit = Throws (DatabaseError (msg attempt)) /\
     contains "database is locked" (msg attempt) = true) ->
  execute_with_retry w db_path query params fetch_one fetch_all commit =
    (Raised ("Database operation failed after 3 attempts. Last error: " ++ msg 2)%string,
     [EvAttempt 0; EvSleep (RETRY_DELAY * 1)%Q;
      EvAttempt 1; EvSleep (RETRY_DELAY * 2)%Q;
      EvAttempt 2]) /\
  List.length (attempts_of
            (snd (execute_with_retry w db_path query params fetch_one fetch_all commit)))
  = MAX_RETRIES /\
  (total_sleep (snd (execute_with_retry w db_path query params fetch_one fetch_all commit))
   == RETRY_DELAY * (1 + 2))%Q.
Proof.
  intros H.
  assert (Hcall : execute_with_retry w db_path query params fetch_one fetch_all commit =
    (Raised ("Database operation failed after 3 attempts. Last error: " ++ msg 2)%string,
     [EvAttempt 0; EvSleep (RETRY_DELAY * 1)%Q;
      EvAttempt 1; EvSleep (RETRY_DELAY * 2)%Q;
      EvAttempt 2])).
  { unfold execute_with_retry. cbn [seq MAX_RETRIES].
    destruct (H 0) as (P0 & R0 & C0); [unfold MAX_RETRIES; lia|].
    destruct (H 1) as (P1 & R1 & C1); [unfold MAX_RETRIES; lia|].
    destruct (H 2) as (P2 & R2 & C2); [unfold MAX_RETRIES; lia|].
    rewrite loop_step,
      (judge_locked w db_path query params fetch_one fetch_all commit _ _ P0 R0 C0).
    cbn [Nat.ltb Nat.leb Nat.sub MAX_RETRIES].
    rewrite loop_step,
      (judge_locked w db_path query params fetch_one fetch_all commit _ _ P1 R1 C1).
    cbn [Nat.ltb Nat.leb Nat.sub MAX_RETRIES].
    rewrite loop_step,
      (judge_locked w db_path query params fetch_one fetch_all commit _ _ P2 R2 C2).
    reflexivity. }
  rewrite Hcall. split; [reflexivity|]. split; reflexivity.
Qed.

Lemma locked_on_every_attempt_witness :
  (forall attempt, attempt < MAX_RETRIES ->
     path_exists (always_raises "database is locked") attempt = true /\
     run_statement (always_raises "database is locked") attempt "SELECT 1 LIMIT 1" [] false
       = Throws (DatabaseError "database is locked") /\
     contains "database is locked" "database is locked" = true) /\
  execute_with_retry (always_raises "database is locked") "Z:\mcp_dashboard.db"
    "SELECT 1 LIMIT 1" [] true false false =
    (Raised "Database operation failed after 3 attempts. Last error: database is locked",
     [EvAttempt 0; EvSleep (1 # 10); EvAttempt 1; EvSleep (2 # 10); EvAttempt 2]).
Proof.
  assert (H : forall attempt, attempt < MAX_RETRIES ->
     path_exists (always_raises "database is locked") attempt = true /\
     run_statement (always_raises "database is locked") attempt "SELECT 1 LIMIT 1" [] false
       = Throws (DatabaseError "database is locked") /\
     contains "database is locked" "database is locked" = true).
  { intros attempt _. repeat split. }
  split; [exact H|].
  exact (proj1 (locked_on_every_attempt (always_raises "database is locked")
                  "Z:\mcp_dashboard.db" "SELECT 1 LIMIT 1" [] true false false
                  (fun _ => "database is locked") H)).
Defined.

(** C3, as the code has it.  An attempt that finds the file missing, or whose
    database error is (in lower case) a corruption message without the lock
    signature, or a missing-table message without the lock and corruption
    signatures, ends the call at once with the error of its class: that
    attempt is the last event of the trace, so no attempt and no sleep follow
    it. *)
Theorem fatal_classes_end_the_call
    (w : db_world) (db_path query : string) (params : list sql_value)
    (fetch_one fetch_all commit : bool) (attempt : nat) (msg : string) :
  fatal_class w query params commit attempt msg ->
  In (EvAttempt attempt)
     (snd (execute_with_retry w db_path query params fetch_one fetch_all commit)) ->
  fst (execute_with_retry w db_path query params fetch_one fetch_all commit) = Raised msg /\
  exists pre,
    snd (execute_with_retry w db_path query params fetch_one fetch_all commit)
    = pre ++ [EvAttempt attempt].
Proof.
  intros Hc Hin.
  apply (loop_fatal w db_path query params fetch_one fetch_all commit 2 0 attempt None msg
           eq_refl (fatal_class_judge w db_path query params fetch_one fetch_all commit _ _ Hc) Hin).
Qed.

Lemma fatal_classes_end_the_call_witness :
  fst (execute_with_retry (always_raises "database disk image is malformed")
         "Z:\mcp_dashboard.db" "SELECT 1 LIMIT 1" [] true false false)
  = Raised "Database is corrupted. Please contact administrator to restore database." /\
  exists pre,
    snd (execute_with_retry (always_raises "database disk image is malformed")
           "Z:\mcp_dashboard.db" "SELECT 1 LIMIT 1" [] true false false)
    = pre ++ [EvAttempt 0].
Proof.
  apply (fatal_classes_end_the_call (always_raises "database disk image is malformed")
           "Z:\mcp_dashboard.db" "SELECT 1 LIMIT 1" [] true false false 0).
  - apply (fatal_corrupted (always_raises "database disk image is malformed")
             "SELECT 1 LIMIT 1" [] false 0 "database disk image is malformed");
      reflexivity.
  - left. reflexivity.
Defined.

(** C3 as worded fails: a missing-table error whose message also holds the
    lock signature (the table is called "database is locked") is taken for a
    lock, retried twice with both sleeps, and ends in the exhausted-retries
    error. *)
Lemma missing_table_named_like_a_lock_is_retried :
  contains "no such table" "no such table: database is locked" = true /\
  execute_with_retry (always_raises "no such table: database is locked")
    "Z:\mcp_dashboard.db" "SELECT * FROM [database is locked]" [] false true false =
  (Raised "Database operation failed after 3 attempts. Last error: no such table: database is locked",
   [EvAttempt 0; EvSleep (1 # 10); EvAttempt 1; EvSleep (2 # 10); EvAttempt 2]) /\
  fst (execute_with_retry (always_raises "no such table: database is locked")
         "Z:\mcp_dashboard.db" "SELECT * FROM [database is locked]" [] false true false)
  <> Raised "Required database tables not found. Please check database schema.".
Proof. split; [reflexivity|]. split; [reflexivity|]. discriminate. Qed.

(** C10.  A call that succeeds with neither fetch flag set returns [None]. *)
Theorem no_fetch_flag_returns_None
    (w : db_world) (db_path query : string) (params : list sql_value)
    (commit : bool) (v : py_value) (tr : trace) :
  execute_with_retry w db_path query params false false commit = (Returned v, tr) ->
  v = PyNone.
Proof.
  intros H.
  destruct (loop_result w db_path query params false false commit
              (seq 0 MAX_RETRIES) None v) as [i Hi].
  { unfold execute_with_retry in H. now rewrite H. }
  unfold judge, try_body in Hi.
  destruct (path_exists w i); cbn [negb] in Hi; [|discriminate].
  destruct (run_statement w i query params commit) as [rows|[m|m|m]];
    try discriminate.
  - now injection Hi as <-.
  - destruct (contains "database is locked" (lower m)); [discriminate|].
    destruct (contains "database disk image is malformed" (lower m)); [discriminate|].
    destruct (contains "no such table" (lower m)); discriminate.
Qed.

(** The statement is a [SELECT] that yields a row, and still [None] comes
    back. *)
Lemma no_fetch_flag_returns_None_witness :
  execute_with_retry (always_rows [[SqlInteger 1]]) "Z:\mcp_dashboard.db"
    "SELECT 1 LIMIT 1" [] false false false = (Returned PyNone, [EvAttempt 0]) /\
  PyNone = PyNone.
Proof.
  split; [reflexivity|].
  apply (no_fetch_flag_returns_None (always_rows [[SqlInteger 1]]) "Z:\mcp_dashboard.db"
           "SELECT 1 LIMIT 1" [] false PyNone [EvAttempt 0]).
  reflexivity.
Defined.

End DatabaseFacts.

(* ================================================================= *)
(** * Properties of the JSON text *)

Module JsonFacts.
Import Json.
Local Open Scope N_scope.

Ltac euclid := zify; Z.to_euclidean_division_equations; lia.

Ltac arith := first [lia | euclid].

(** Decide the comparisons of a goal by arithmetic. *)
Ltac decide_tests :=
  repeat match goal with
  | |- context [?a =? ?b] =>
      first [ replace (a =? b) with true by (symmetry; apply N.eqb_eq; arith)
            | replace (a =? b) with false by (symmetry; apply N.eqb_neq; arith) ]
  | |- context [?a <=? ?b] =>
      first [ replace (a <=? b) with true by (symmetry; apply N.leb_le; arith)
            | replace (a <=? b) with false by (symmetry; apply N.leb_gt; arith) ]
  | |- context [?a <? ?b] =>
      first [ replace (a <? b) with true by (symmetry; apply N.ltb_lt; arith)
            | replace (a <? b) with false by (symmetry; apply N.ltb_ge; arith) ]
  end.

(** ** The code on small inputs *)

Example escape_newline : escape_char 10 = lit "\n".
Proof. reflexivity. Qed.

Example escape_e_acute : escape_char 233 = lit "\u00e9".
Proof. reflexivity. Qed.

Example escape_astral : escape_char 128512 = lit "\ud83d\ude00".
Proof. reflexivity. Qed.

Example dumps_list :
  dumps (JList [JInt 1; JBool true; JNull; JFloat (lit "0.7"); JDict []])
  = lit "[1, true, null, 0.7, {}]".
Proof. reflexivity. Qed.

Example loads_list :
  loads (lit " [1, 2.5e3, -0, NaN, true, null] ")
  = Some (JList [JInt 1; JFloat (lit "2.5e3"); JInt 0; JFloat (lit "NaN");
                 JBool true; JNull]).
Proof. reflexivity. Qed.

Example loads_rejects :
  map (fun s => loads (lit s)) ["01"; "[1,]"; "1 2"; ""; "-"; "1."; ".5"; "+1"]%string
  = [None; None; None; None; None; None; None; None].
Proof. reflexivity. Qed.

(** The reply of the extension, as [send_prompt] hands it on. *)
Example loads_reply :
  loads (34 :: lit "ok" ++ [34]) = Some (JStr (lit "ok")) /\
  loads (lit "{" ++ encode_basestring_ascii (lit "type") ++ lit ":" ++
         encode_basestring_ascii (lit "error") ++ lit "}")
  = Some (JDict [(lit "type", JStr (lit "error"))]).
Proof. split; reflexivity. Qed.

(** ** Bits and digits *)

Lemma lor_disjoint (a b k : N) :
  a mod 2 ^ k = 0 -> b < 2 ^ k -> N.lor a b = a + b.
Proof.
  intros Ha Hb.
  assert (Hland : N.land a b = 0).
  { apply N.bits_inj. intros i. rewrite N.land_spec, N.bits_0.
    destruct (N.lt_ge_cases i k) as [Hi|Hi].
    - rewrite <- (N.mod_pow2_bits_low a k i Hi), Ha, N.bits_0. reflexivity.
    - rewrite <- (N.mod_small b (2 ^ k) Hb), (N.mod_pow2_bits_high b k i Hi).
      apply andb_false_r. }
  now rewrite <- (N.lxor_lor _ _ Hland), (N.add_nocarry_lxor _ _ Hland).
Qed.

Lemma nibble (n k : N) : N.land (N.shiftr n k) 15 = (n / 2 ^ k) mod 16.
Proof.
  change 15 with (N.ones 4). now rewrite N.land_ones, N.shiftr_div_pow2.
Qed.

Lemma hexval_hexdigit (d : N) : d < 16 -> hexval (hexdigit d) = Some d.
Proof.
  intros Hd. unfold hexval, hexdigit.
  destruct (N.ltb_spec d 10); decide_tests; cbn [andb]; f_equal; lia.
Qed.

Lemma decode_u_escape (n : N) :
  n < 65536 ->
  decode_uXXXX (hexdigit (N.land (N.shiftr n 12) 15))
               (hexdigit (N.land (N.shiftr n 8) 15))
               (hexdigit (N.land (N.shiftr n 4) 15))
               (hexdigit (N.land n 15)) = Some n.
Proof.
  intros Hn. unfold decode_uXXXX.
  replace (N.land n 15) with (N.land (N.shiftr n 0) 15) by now rewrite N.shiftr_0_r.
  rewrite !nibble.
  rewrite !hexval_hexdigit by (apply N.mod_lt; discriminate).
  f_equal. change (2 ^ 12) with 4096. change (2 ^ 8) with 256.
  change (2 ^ 4) with 16. change (2 ^ 0) with 1. euclid.
Qed.

(** The surrogate pair the encoder writes for a code point from [0x10000] on,
    and the code point the decoder joins it to. *)
Lemma surrogate_pair (c : N) :
  65536 <= c <= 1114111 ->
  let n := c - 65536 in
  let s1 := N.lor 55296 (N.land (N.shiftr n 10) 1023) in
  let s2 := N.lor 56320 (N.land n 1023) in
  is_high_surrogate s1 = true /\ is_low_surrogate s2 = true /\
  is_low_surrogate s1 = false /\
  65536 + N.lor (N.shiftl (s1 - 55296) 10) (s2 - 56320) = c.
Proof.
  intros Hc n s1 s2.
  assert (H1 : s1 = 55296 + n / 1024).
  { unfold s1. change 1023 with (N.ones 10).
    rewrite N.land_ones, N.shiftr_div_pow2. change (2 ^ 10) with 1024.
    rewrite (lor_disjoint 55296 _ 10); [|reflexivity|apply N.mod_lt; discriminate].
    f_equal. unfold n. euclid. }
  assert (H2 : s2 = 56320 + n mod 1024).
  { unfold s2. change 1023 with (N.ones 10). rewrite N.land_ones.
    change (2 ^ 10) with 1024.
    now rewrite (lor_disjoint 56320 _ 10); [|reflexivity|apply N.mod_lt]. }
  assert (Hq : n / 1024 < 1024) by (unfold n; euclid).
  assert (Hr : n mod 1024 < 1024) by (apply N.mod_lt; discriminate).
  rewrite H1, H2. unfold is_high_surrogate, is_low_surrogate.
  repeat split.
  - decide_tests. reflexivity.
  - decide_tests. reflexivity.
  - decide_tests. reflexivity.
  - replace (55296 + n / 1024 - 55296) with (n / 1024) by arith.
    replace (56320 + n mod 1024 - 56320) with (n mod 1024) by arith.
    rewrite N.shiftl_mul_pow2. change (2 ^ 10) with 1024.
    rewrite (lor_disjoint _ _ 10);
      [|change (2 ^ 10) with 1024; apply N.Div0.mod_mul|exact Hr].
    unfold n. euclid.
Qed.

(** ** Reading back an escaped string *)

Lemma check_pair_u_escape (n : N) (t : ustr) :
  n < 65536 ->
  check_pair (u_escape n ++ t) = if is_low_surrogate n then Pair n else NoPair.
Proof.
  intros Hn. unfold u_escape. cbn [app check_pair].
  change ((92 =? 92) && (117 =? 117)) with true. cbv iota.
  now rewrite decode_u_escape.
Qed.

Lemma scan_u_escape (n : N) (t acc : ustr) :
  n < 65536 ->
  (is_high_surrogate n = true -> check_pair t = NoPair) ->
  scanstring (u_escape n ++ t) acc = scanstring t (acc ++ [n]).
Proof.
  intros Hn Hpair. unfold u_escape. cbn [app scanstring].
  change (92 =? 34) with false. change (92 =? 92) with true.
  change (negb (117 =? 117)) with false. cbv iota.
  rewrite decode_u_escape by exact Hn.
  destruct (is_high_surrogate n); [|reflexivity].
  now rewrite Hpair.
Qed.

Lemma scan_surrogate_pair (c : N) (t acc : ustr) :
  65536 <= c <= 1114111 ->
  let n := c - 65536 in
  scanstring (u_escape (N.lor 55296 (N.land (N.shiftr n 10) 1023)) ++
              u_escape (N.lor 56320 (N.land n 1023)) ++ t) acc
  = scanstring t (acc ++ [c]).
Proof.
  intros Hc n.
  destruct (surrogate_pair c Hc) as (Hhigh & Hlow & _ & Hjoin).
  fold n in Hhigh, Hlow, Hjoin.
  set (s1 := N.lor 55296 (N.land (N.shiftr n 10) 1023)) in *.
  set (s2 := N.lor 56320 (N.land n 1023)) in *.
  assert (H1 : s1 < 65536).
  { unfold is_high_surrogate in Hhigh. apply andb_true_iff in Hhigh as [_ H].
    apply N.leb_le in H. lia. }
  assert (H2 : s2 < 65536).
  { unfold is_low_surrogate in Hlow. apply andb_true_iff in Hlow as [_ H].
    apply N.leb_le in H. lia. }
  unfold u_escape at 1. cbn [app scanstring].
  change (92 =? 34) with false. change (92 =? 92) with true.
  change (negb (117 =? 117)) with false. cbv iota.
  rewrite decode_u_escape by exact H1. rewrite Hhigh.
  rewrite check_pair_u_escape by exact H2. rewrite Hlow.
  unfold u_escape. cbn [app]. now rewrite Hjoin.
Qed.

(** What follows an escaped character never pairs up with a high surrogate
    before it, unless the character is a low surrogate. *)
Lemma check_pair_escape_char (c : N) (t : ustr) :
  is_code_point c = true ->
  is_low_surrogate c = false ->
  check_pair (escape_char c ++ t) = NoPair.
Proof.
  unfold is_code_point. intros Hc%N.leb_le Hlow. unfold escape_char.
  destruct (N.eqb_spec c 92) as [->|H92]; [reflexivity|].
  destruct (N.eqb_spec c 34) as [->|H34]; [reflexivity|].
  destruct ((32 <=? c) && (c <=? 126)) eqn:Hprint.
  { cbn [app check_pair]. destruct t as [|u t]; [reflexivity|].
    apply N.eqb_neq in H92. now rewrite H92. }
  destruct (N.eqb_spec c 8) as [->|H8]; [reflexivity|].
  destruct (N.eqb_spec c 12) as [->|H12]; [reflexivity|].
  destruct (N.eqb_spec c 10) as [->|H10]; [reflexivity|].
  destruct (N.eqb_spec c 13) as [->|H13]; [reflexivity|].
  destruct (N.eqb_spec c 9) as [->|H9]; [reflexivity|].
  destruct (N.ltb_spec c 65536) as [Hlt|Hge].
  - rewrite check_pair_u_escape by exact Hlt. now rewrite Hlow.
  - destruct (surrogate_pair c (conj Hge Hc)) as (Hhigh & _ & Hnl & _).
    cbv zeta. rewrite <- app_assoc, check_pair_u_escape.
    + now rewrite Hnl.
    + unfold is_high_surrogate in Hhigh. apply andb_true_iff in Hhigh as [_ H].
      apply N.leb_le in H. lia.
Qed.

Lemma scan_escape_char (c : N) (t acc : ustr) :
  is_code_point c = true ->
  (is_high_surrogate c = true -> check_pair t = NoPair) ->
  scanstring (escape_char c ++ t) acc = scanstring t (acc ++ [c]).
Proof.
  unfold is_code_point. intros Hc%N.leb_le Hpair. unfold escape_char.
  destruct (N.eqb_spec c 92) as [->|H92]; [reflexivity|].
  destruct (N.eqb_spec c 34) as [->|H34]; [reflexivity|].
  destruct ((32 <=? c) && (c <=? 126)) eqn:Hprint.
  { apply andb_true_iff in Hprint as [Hlo%N.leb_le Hhi].
    cbn [app scanstring]. decide_tests. reflexivity. }
  destruct (N.eqb_spec c 8) as [->|H8]; [reflexivity|].
  destruct (N.eqb_spec c 12) as [->|H12]; [reflexivity|].
  destruct (N.eqb_spec c 10) as [->|H10]; [reflexivity|].
  destruct (N.eqb_spec c 13) as [->|H13]; [reflexivity|].
  destruct (N.eqb_spec c 9) as [->|H9]; [reflexivity|].
  destruct (N.ltb_spec c 65536) as [Hlt|Hge].
  - now apply scan_u_escape.
  - cbv zeta. rewrite <- app_assoc. now apply scan_surrogate_pair.
Qed.

Lemma check_pair_escaped (s rest : ustr) :
  is_str s = true ->
  match s with
  | [] => True
  | c :: _ => is_low_surrogate c = false
  end ->
  check_pair (flat_map escape_char s ++ 34 :: rest) = NoPair.
Proof.
  destruct s as [|c s]; intros Hs Hlow.
  - cbn [flat_map app check_pair]. now destruct rest.
  - cbn [flat_map]. rewrite <- app_assoc.
    apply check_pair_escape_char; [|exact Hlow].
    cbn [is_str forallb] in Hs. now apply andb_true_iff in Hs as [Hs _].
Qed.

(** [scanstring] undoes [encode_basestring_ascii]. *)
Lemma scanstring_escaped (s acc rest : ustr) :
  is_str s = true -> no_surrogate_pair s = true ->
  scanstring (flat_map escape_char s ++ 34 :: rest) acc = Some (acc ++ s, rest).
Proof.
  revert acc. induction s as [|c s IH]; intros acc Hs Hnp.
  - cbn [flat_map app scanstring]. change (34 =? 34) with true. cbv iota.
    now rewrite app_nil_r.
  - cbn [flat_map]. rewrite <- app_assoc.
    pose proof Hs as Hs'. cbn [is_str forallb] in Hs'.
    apply andb_true_iff in Hs' as [Hc Hs'].
    rewrite scan_escape_char; [|exact Hc|].
    + rewrite IH; [now rewrite <- app_assoc|exact Hs'|].
      cbn [no_surrogate_pair] in Hnp. destruct s; [reflexivity|].
      now apply andb_true_iff in Hnp as [_ Hnp].
    + intros Hhigh. apply check_pair_escaped; [exact Hs'|].
      destruct s as [|c' s]; [exact I|].
      cbn [no_surrogate_pair] in Hnp. apply andb_true_iff in Hnp as [Hnp _].
      rewrite Hhigh in Hnp. cbn [andb] in Hnp. now destruct (is_low_surrogate c').
Qed.

(** ** The parser reads forward, so the fuel of [loads] is enough *)

Lemma skip_ws_length (s : ustr) : (List.length (skip_ws s) <= List.length s)%nat.
Proof.
  induction s as [|c s IH]; [apply Nat.le_refl|].
  cbn [skip_ws]. destruct (is_ws c); cbn [List.length]; lia.
Qed.

Lemma scanstring_length (n : nat) :
  forall (s acc x r : ustr),
  (List.length s <= n)%nat -> scanstring s acc = Some (x, r) ->
  (List.length r < List.length s)%nat.
Proof.
  induction n as [|n IH]; intros s acc x r Hn H;
    (destruct s as [|c s1]; [discriminate|]); cbn [List.length] in Hn; [lia|].
  cbn [scanstring] in H.
  destruct (c =? 34); [injection H as _ <-; cbn [List.length]; lia|].
  destruct (c =? 92).
  - destruct s1 as [|esc s2]; [discriminate|].
    destruct (negb (esc =? 117)).
    + destruct (BACKSLASH esc); [|discriminate].
      apply IH in H; cbn [List.length] in *; lia.
    + destruct s2 as [|a [|b [|c' [|d s6]]]]; try discriminate.
      destruct (decode_uXXXX a b c' d) as [uni|]; [|discriminate].
      destruct (is_high_surrogate uni).
      * destruct (check_pair s6); [|discriminate|].
        -- apply IH in H; cbn [List.length] in *; lia.
        -- destruct s6 as [|x1 [|x2 [|x3 [|x4 [|x5 [|x6 s12]]]]]]; try discriminate.
           apply IH in H; cbn [List.length] in *; lia.
      * apply IH in H; cbn [List.length] in *; lia.
  - destruct (c <? 32); [discriminate|].
    apply IH in H; cbn [List.length] in *; lia.
Qed.

Lemma span_digits_length (s ds r : ustr) :
  span_digits s = (ds, r) -> (List.length r <= List.length s)%nat.
Proof.
  revert ds r. induction s as [|c s IH]; intros ds r H; cbn [span_digits] in H.
  - now injection H as _ <-.
  - destruct (is_digit c).
    + destruct (span_digits s) as [ds' r'] eqn:Hs. injection H as _ <-.
      specialize (IH ds' r' eq_refl). cbn [List.length]. lia.
    + now injection H as _ <-.
Qed.

Lemma match_number_length (s r : ustr) (v : json) :
  match_number s = Some (v, r) -> (List.length r < List.length s)%nat.
Proof.
  unfold match_number.
  set (sign := match s with
               | c :: s' => if c =? 45 then (true, s') else (false, s)
               | [] => (false, s)
               end).
  assert (Hsign : (List.length (snd sign) <= List.length s)%nat).
  { subst sign. destruct s as [|c s']; [apply Nat.le_refl|].
    destruct (c =? 45); cbn [snd List.length]; lia. }
  destruct sign as [neg s1]. cbn [snd] in Hsign.
  destruct s1 as [|c s2]; [discriminate|].
  set (int_part := if (49 <=? c) && (c <=? 57)
                   then let (ds, r0) := span_digits s2 in Some (c :: ds, r0)
                   else if c =? 48 then Some ([48], s2) else None).
  assert (Hint : forall ds r0, int_part = Some (ds, r0) ->
                 (List.length r0 <= List.length s2)%nat).
  { subst int_part. intros ds r0 H. destruct ((49 <=? c) && (c <=? 57)).
    - destruct (span_digits s2) as [ds' r'] eqn:Hs. injection H as _ <-.
      now apply span_digits_length in Hs.
    - destruct (c =? 48); [|discriminate]. now injection H as _ <-. }
  destruct int_part as [[ds r0]|]; [|discriminate].
  specialize (Hint ds r0 eq_refl).
  set (frac := match r0 with
               | dot :: d :: r' =>
                   if (dot =? 46) && is_digit d
                   then let (fs, r'') := span_digits r' in (dot :: d :: fs, r'')
                   else ([], r0)
               | _ => ([], r0)
               end).
  assert (Hfrac : (List.length (snd frac) <= List.length r0)%nat).
  { subst frac. destruct r0 as [|dot [|d r']]; try apply Nat.le_refl.
    destruct ((dot =? 46) && is_digit d); [|apply Nat.le_refl].
    destruct (span_digits r') as [fs r''] eqn:Hs.
    apply span_digits_length in Hs. cbn [snd List.length]. lia. }
  destruct frac as [fr r1]. cbn [snd] in Hfrac.
  set (expo := match r1 with
               | e :: r' =>
                   if (e =? 101) || (e =? 69)
                   then
                     let (sg, r'') :=
                       match r' with
                       | sg :: t => if (sg =? 45) || (sg =? 43) then ([sg], t) else ([], r')
                       | [] => ([], r')
                       end in
                     let (es, r''') := span_digits r'' in
                     match es with
                     | [] => ([], r1)
                     | _ :: _ => (e :: sg ++ es, r''')
                     end
                   else ([], r1)
               | [] => ([], r1)
               end).
  assert (Hexp : (List.length (snd expo) <= List.length r1)%nat).
  { subst expo. destruct r1 as [|e r']; [apply Nat.le_refl|].
    destruct ((e =? 101) || (e =? 69)); [|apply Nat.le_refl].
    set (sg := match r' with
               | sg :: t => if (sg =? 45) || (sg =? 43) then ([sg], t) else ([], r')
               | [] => ([], r')
               end).
    assert (Hsg : (List.length (snd sg) <= List.length r')%nat).
    { subst sg. destruct r' as [|x t]; [apply Nat.le_refl|].
      destruct ((x =? 45) || (x =? 43)); cbn [snd List.length]; lia. }
    destruct sg as [sg r'']. cbn [snd] in Hsg.
    destruct (span_digits r'') as [es r'''] eqn:Hs.
    apply span_digits_length in Hs.
    destruct es; cbn [snd List.length]; lia. }
  destruct expo as [ex r2]. cbn [snd] in Hexp.
  cbn [List.length] in *.
  destruct fr; destruct ex; intros [= _ <-]; lia.
Qed.

Lemma strip_prefix_length (p s r : ustr) :
  strip_prefix p s = Some r -> (List.length r + List.length p = List.length s)%nat.
Proof.
  revert s. induction p as [|c p IH]; intros s H; cbn [strip_prefix] in H.
  - injection H as <-. cbn [List.length]. lia.
  - destruct s as [|d s]; [discriminate|].
    destruct (c =? d); [|discriminate].
    apply IH in H. cbn [List.length]. lia.
Qed.

Lemma scan_atom_length (s r : ustr) (v : json) :
  scan_atom s = Some (v, r) -> (List.length r < List.length s)%nat.
Proof.
  unfold scan_atom.
  repeat match goal with
  | |- context [strip_prefix (lit ?p) s] =>
      let H := fresh in
      destruct (strip_prefix (lit p) s) eqn:H;
      [apply strip_prefix_length in H; cbn [lit map list_ascii_of_string List.length] in H;
       intros [= _ <-]; lia|]
  end.
  apply match_number_length.
Qed.

Lemma parse_members_S (fuel : nat) (s : ustr) (pairs : list (ustr * json)) :
  parse_members (S fuel) s pairs =
  match scanstring s [] with
  | None => None
  | Some (key, s) =>
      match skip_ws s with
      | colon :: s =>
          if colon =? 58 then
            match scan_once fuel (skip_ws s) with
            | None => None
            | Some (value, s) =>
                let pairs := pairs ++ [(key, value)] in
                match skip_ws s with
                | c :: s =>
                    if c =? 125 then Some (JDict (dict_of_pairs pairs), s)
                    else if c =? 44 then
                      match skip_ws s with
                      | q :: s => if q =? 34 then parse_members fuel s pairs else None
                      | [] => None
                      end
                    else None
                | [] => None
                end
            end
          else None
      | [] => None
      end
  end.
Proof. reflexivity. Qed.

Lemma parse_progress (fuel : nat) :
  (forall s v r, scan_once fuel s = Some (v, r) ->
                 (List.length r < List.length s)%nat) /\
  (forall s v r, parse_object fuel s = Some (v, r) ->
                 (List.length r < List.length s)%nat) /\
  (forall s pairs v r, parse_members fuel s pairs = Some (v, r) ->
                       (List.length r < List.length s)%nat) /\
  (forall s v r, parse_array fuel s = Some (v, r) ->
                 (List.length r < List.length s)%nat) /\
  (forall s values v r, parse_elements fuel s values = Some (v, r) ->
                        (List.length r < List.length s)%nat).
Proof.
  induction fuel as [|fuel (IHv & IHo & IHm & IHa & IHe)];
    [repeat split; intros; discriminate|].
  repeat split.
  - intros s v r H. cbn [scan_once] in H. destruct s as [|c s']; [discriminate|].
    pose proof (skip_ws_length s') as Hws.
    destruct (c =? 34).
    { destruct (scanstring s' []) as [[x r']|] eqn:Hs; [|discriminate].
      injection H as _ <-. apply (scanstring_length _ _ _ _ _ (Nat.le_refl _)) in Hs.
      cbn [List.length]. lia. }
    destruct (c =? 123); [apply IHo in H; cbn [List.length]; lia|].
    destruct (c =? 91); [apply IHa in H; cbn [List.length]; lia|].
    now apply scan_atom_length in H.
  - intros s v r H. cbn [parse_object] in H. destruct s as [|c s']; [discriminate|].
    destruct (c =? 125); [injection H as _ <-; cbn [List.length]; lia|].
    destruct (c =? 34); [|discriminate].
    apply IHm in H. cbn [List.length]. lia.
  - intros s pairs v r H. rewrite parse_members_S in H.
    destruct (scanstring s []) as [[key s1]|] eqn:Hs; [|discriminate].
    apply (scanstring_length _ _ _ _ _ (Nat.le_refl _)) in Hs.
    pose proof (skip_ws_length s1) as H1.
    destruct (skip_ws s1) as [|colon s2]; [discriminate|].
    destruct (colon =? 58); [|discriminate].
    pose proof (skip_ws_length s2) as H2.
    destruct (scan_once fuel (skip_ws s2)) as [[value s3]|] eqn:Hv; [|discriminate].
    apply IHv in Hv. pose proof (skip_ws_length s3) as H3. cbv zeta in H.
    destruct (skip_ws s3) as [|c s4]; [discriminate|].
    destruct (c =? 125); [injection H as _ <-; cbn [List.length] in *; lia|].
    destruct (c =? 44); [|discriminate].
    pose proof (skip_ws_length s4) as H4.
    destruct (skip_ws s4) as [|q s5]; [discriminate|].
    destruct (q =? 34); [|discriminate].
    apply IHm in H. cbn [List.length] in *. lia.
  - intros s v r H. cbn [parse_array] in H. destruct s as [|c s']; [discriminate|].
    destruct (c =? 93); [injection H as _ <-; cbn [List.length]; lia|].
    now apply IHe in H.
  - intros s values v r H. cbn [parse_elements] in H.
    destruct (scan_once fuel s) as [[value s1]|] eqn:Hv; [|discriminate].
    apply IHv in Hv. pose proof (skip_ws_length s1) as H1.
    destruct (skip_ws s1) as [|c s2]; [discriminate|].
    destruct (c =? 93); [injection H as _ <-; cbn [List.length] in *; lia|].
    destruct (c =? 44); [|discriminate].
    pose proof (skip_ws_length s2) as H2.
    apply IHe in H. cbn [List.length] in *. lia.
Qed.

(** For a text of at most [n] characters every amount of fuel from the given
    bound on gives the same result: the parser never stops for lack of it. *)
Lemma fuel_enough (n : nat) :
  (forall s f1 f2, (List.length s <= n)%nat ->
     (3 * n + 1 <= f1)%nat -> (3 * n + 1 <= f2)%nat ->
     scan_once f1 s = scan_once f2 s) /\
  (forall s f1 f2, (List.length s <= n)%nat ->
     (3 * n + 3 <= f1)%nat -> (3 * n + 3 <= f2)%nat ->
     parse_object f1 s = parse_object f2 s) /\
  (forall s pairs f1 f2, (List.length s <= n)%nat ->
     (3 * n + 2 <= f1)%nat -> (3 * n + 2 <= f2)%nat ->
     parse_members f1 s pairs = parse_members f2 s pairs) /\
  (forall s f1 f2, (List.length s <= n)%nat ->
     (3 * n + 3 <= f1)%nat -> (3 * n + 3 <= f2)%nat ->
     parse_array f1 s = parse_array f2 s) /\
  (forall s values f1 f2, (List.length s <= n)%nat ->
     (3 * n + 2 <= f1)%nat -> (3 * n + 2 <= f2)%nat ->
     parse_elements f1 s values = parse_elements f2 s values).
Proof.
  induction n as [n IH] using lt_wf_ind.
  assert (Hv : forall s f1 f2, (List.length s <= n)%nat ->
     (3 * n + 1 <= f1)%nat -> (3 * n + 1 <= f2)%nat ->
     scan_once f1 s = scan_once f2 s).
  { intros s f1 f2 Hs H1 H2.
    destruct f1 as [|f1]; [lia|]. destruct f2 as [|f2]; [lia|].
    cbn [scan_once]. destruct s as [|c s']; [reflexivity|].
    cbn [List.length] in Hs. pose proof (skip_ws_length s') as Hws.
    destruct (IH (n - 1)%nat ltac:(lia)) as (_ & IHo & _ & IHa & _).
    destruct (c =? 34); [reflexivity|].
    destruct (c =? 123); [apply IHo; lia|].
    destruct (c =? 91); [apply IHa; lia|]. reflexivity. }
  assert (He : forall s values f1 f2, (List.length s <= n)%nat ->
     (3 * n + 2 <= f1)%nat -> (3 * n + 2 <= f2)%nat ->
     parse_elements f1 s values = parse_elements f2 s values).
  { intros s values f1 f2 Hs H1 H2.
    destruct f1 as [|f1]; [lia|]. destruct f2 as [|f2]; [lia|].
    cbn [parse_elements]. rewrite (Hv s f1 f2) by lia.
    destruct (scan_once f2 s) as [[value s1]|] eqn:E; [|reflexivity].
    apply (proj1 (parse_progress f2)) in E.
    pose proof (skip_ws_length s1) as H3.
    destruct (skip_ws s1) as [|c s2]; [reflexivity|].
    destruct (c =? 93); [reflexivity|]. destruct (c =? 44); [|reflexivity].
    pose proof (skip_ws_length s2) as H4. cbn [List.length] in H3.
    destruct (IH (n - 1)%nat ltac:(lia)) as (_ & _ & _ & _ & IHe).
    apply IHe; lia. }
  split; [exact Hv|]. split; [|split; [|split; [|exact He]]].
  - intros s f1 f2 Hs H1 H2.
    destruct f1 as [|f1]; [lia|]. destruct f2 as [|f2]; [lia|].
    cbn [parse_object]. destruct s as [|c s']; [reflexivity|].
    cbn [List.length] in Hs.
    destruct (IH (n - 1)%nat ltac:(lia)) as (_ & _ & IHm & _ & _).
    destruct (c =? 125); [reflexivity|]. destruct (c =? 34); [|reflexivity].
    apply IHm; lia.
  - intros s pairs f1 f2 Hs H1 H2.
    destruct f1 as [|f1]; [lia|]. destruct f2 as [|f2]; [lia|].
    rewrite !parse_members_S.
    destruct (scanstring s []) as [[key s1]|] eqn:Hk; [|reflexivity].
    apply (scanstring_length _ _ _ _ _ (Nat.le_refl _)) in Hk.
    pose proof (skip_ws_length s1) as H3.
    destruct (skip_ws s1) as [|colon s2]; [reflexivity|].
    destruct (colon =? 58); [|reflexivity].
    pose proof (skip_ws_length s2) as H4. cbn [List.length] in H3.
    destruct (IH (n - 1)%nat ltac:(lia)) as (IHv & _ & IHm & _ & _).
    rewrite (IHv (skip_ws s2) f1 f2) by lia.
    destruct (scan_once f2 (skip_ws s2)) as [[value s3]|] eqn:E; [|reflexivity].
    apply (proj1 (parse_progress f2)) in E. cbv zeta.
    pose proof (skip_ws_length s3) as H5.
    destruct (skip_ws s3) as [|c s4]; [reflexivity|].
    destruct (c =? 125); [reflexivity|]. destruct (c =? 44); [|reflexivity].
    pose proof (skip_ws_length s4) as H6. cbn [List.length] in H5.
    destruct (skip_ws s4) as [|q s5]; [reflexivity|].
    destruct (q =? 34); [|reflexivity]. cbn [List.length] in H6.
    apply IHm; lia.
  - intros s f1 f2 Hs H1 H2.
    destruct f1 as [|f1]; [lia|]. destruct f2 as [|f2]; [lia|].
    cbn [parse_array]. destruct s as [|c s']; [reflexivity|].
    destruct (c =? 93); [reflexivity|]. apply He; [exact Hs|lia..].
Qed.

(** More fuel than [loads] takes would change nothing. *)
Lemma loads_fuel (s : ustr) (fuel : nat) :
  (3 * List.length s + 3 <= fuel)%nat ->
  scan_once fuel (skip_ws s) = scan_once (3 * List.length s + 3) (skip_ws s).
Proof.
  intros Hf. apply (proj1 (fuel_enough (List.length s)));
    [apply skip_ws_length|lia..].
Qed.

(** ** Reading back a dictionary of strings *)

Lemma scan_once_string (fuel : nat) (s rest : ustr) :
  ok_text s = true ->
  scan_once (S fuel) (encode_basestring_ascii s ++ rest) = Some (JStr s, rest).
Proof.
  intros [Hs Hnp]%andb_true_iff.
  unfold encode_basestring_ascii. cbn [app scan_once].
  change (34 =? 34) with true. cbv iota.
  rewrite <- app_assoc. cbn [app].
  now rewrite scanstring_escaped.
Qed.

Lemma dumps_str_dict (kvs : list (ustr * ustr)) :
  dumps (str_dict kvs) = lit "{" ++ join (lit ", ") (map member_text kvs) ++ lit "}".
Proof.
  unfold str_dict. cbn [dumps]. now rewrite map_map.
Qed.

Lemma lit_colon : lit ": " = [58; 32]. Proof. reflexivity. Qed.
Lemma lit_comma : lit ", " = [44; 32]. Proof. reflexivity. Qed.
Lemma lit_open : lit "{" = [123]. Proof. reflexivity. Qed.
Lemma lit_close : lit "}" = [125]. Proof. reflexivity. Qed.

Lemma skip_ws_quote (s rest : ustr) :
  skip_ws (32 :: encode_basestring_ascii s ++ rest) = encode_basestring_ascii s ++ rest.
Proof. reflexivity. Qed.

Lemma more_members (k v : ustr) (kvs : list (ustr * ustr)) (rest : ustr) :
  (lit ", " ++ join (lit ", ") (map member_text ((k, v) :: kvs))) ++ rest
  = 44 :: 32 :: 34 ::
    (flat_map escape_char k ++ [34] ++ lit ": " ++ encode_basestring_ascii v ++
     match kvs with
     | [] => []
     | _ :: _ => lit ", " ++ join (lit ", ") (map member_text kvs)
     end ++ rest).
Proof.
  rewrite lit_comma.
  destruct kvs as [|kv kvs]; cbn [map join app]; do 2 f_equal;
    unfold member_text at 1, encode_basestring_ascii at 1; cbn [fst snd app];
    rewrite <- ?app_assoc; cbn [app]; rewrite <- ?app_assoc; reflexivity.
Qed.

Lemma parse_members_strings (kvs : list (ustr * ustr)) :
  forall (k v : ustr) (fuel : nat) (pairs : list (ustr * json)) (rest : ustr),
  ok_text k = true -> ok_text v = true ->
  forallb (fun kv => ok_text (fst kv) && ok_text (snd kv)) kvs = true ->
  (List.length kvs + 2 <= fuel)%nat ->
  parse_members fuel
    (flat_map escape_char k ++ [34] ++ lit ": " ++ encode_basestring_ascii v ++
     match kvs with
     | [] => []
     | _ :: _ => lit ", " ++ join (lit ", ") (map member_text kvs)
     end ++ lit "}" ++ rest) pairs
  = Some (JDict (dict_of_pairs
                   (pairs ++ (k, JStr v) :: map (fun kv => (fst kv, JStr (snd kv))) kvs)),
          rest).
Proof.
  induction kvs as [|[k' v'] kvs IH]; intros k v fuel pairs rest Hk Hv Hkvs Hfuel;
    (destruct fuel as [|[|fuel]]; [cbn in Hfuel; lia..|]);
    rewrite ?more_members, lit_colon, parse_members_S; cbn [app];
    pose proof Hk as [Hk1 Hk2]%andb_true_iff;
    rewrite (scanstring_escaped k [] _ Hk1 Hk2);
    change (skip_ws (58 :: 32 :: ?x)) with (58 :: 32 :: x);
    change (58 =? 58) with true; cbv iota;
    rewrite skip_ws_quote, (scan_once_string fuel v _ Hv);
    cbv beta iota zeta; cbn [app].
  - reflexivity.
  - change (skip_ws (44 :: ?x)) with (44 :: x).
    change (44 =? 125) with false. change (44 =? 44) with true. cbv iota.
    change (skip_ws (32 :: 34 :: ?x)) with (34 :: x).
    change (34 =? 34) with true. cbv iota.
    cbn [forallb fst snd] in Hkvs.
    apply andb_true_iff in Hkvs as [[Hk' Hv']%andb_true_iff Hkvs].
    specialize (IH k' v' (S fuel) (pairs ++ [(k, JStr v)]) rest Hk' Hv' Hkvs).
    rewrite lit_colon in IH. cbn [app] in IH.
    rewrite IH by (cbn [List.length] in Hfuel; lia).
    now rewrite <- app_assoc.
Qed.

Lemma members_length (kvs : list (ustr * ustr)) :
  (List.length kvs <= List.length (join (lit ", ") (map member_text kvs)))%nat.
Proof.
  induction kvs as [|kv kvs IH]; [apply Nat.le_0_l|].
  assert (Hm : (1 <= List.length (member_text kv))%nat).
  { unfold member_text, encode_basestring_ascii. cbn [app List.length]. lia. }
  destruct kvs as [|kv' kvs]; [exact Hm|].
  cbn [map join] in *. rewrite !length_app. cbn [List.length] in *. lia.
Qed.

Lemma loads_str_dict (kvs : list (ustr * ustr)) :
  forallb (fun kv => ok_text (fst kv) && ok_text (snd kv)) kvs = true ->
  loads (dumps (str_dict kvs))
  = Some (JDict (dict_of_pairs (map (fun kv => (fst kv, JStr (snd kv))) kvs))).
Proof.
  intros Hok. rewrite dumps_str_dict. unfold loads.
  pose proof (members_length kvs) as Hlen.
  rewrite lit_open, lit_close. cbn [app List.length].
  rewrite length_app. cbn [List.length].
  set (n := List.length (join (lit ", ") (map member_text kvs))) in *.
  replace (3 * S (n + 1) + 3)%nat with (S (S (S (3 * n + 6)))) by lia.
  destruct kvs as [|[k v] kvs].
  - reflexivity.
  - cbn [forallb fst snd] in Hok.
    apply andb_true_iff in Hok as [[Hk Hv]%andb_true_iff Hok].
    assert (Htext :
      join (lit ", ") (map member_text ((k, v) :: kvs)) ++ [125]
      = 34 :: (flat_map escape_char k ++ [34] ++ lit ": " ++ encode_basestring_ascii v ++
               match kvs with
               | [] => []
               | _ :: _ => lit ", " ++ join (lit ", ") (map member_text kvs)
               end ++ lit "}" ++ [])).
    { pose proof (more_members k v kvs (lit "}" ++ [])) as H.
      rewrite lit_comma in H at 1. cbn [app] in H. injection H as H.
      rewrite lit_close in *. cbn [app] in *. exact H. }
    rewrite Htext.
    change (skip_ws (123 :: 34 :: ?x)) with (123 :: 34 :: x).
    cbn [scan_once]. change (123 =? 34) with false. change (123 =? 123) with true.
    cbv iota. change (skip_ws (34 :: ?x)) with (34 :: x).
    cbn [parse_object]. change (34 =? 125) with false. change (34 =? 34) with true.
    cbv iota.
    rewrite (parse_members_strings kvs k v _ [] [] Hk Hv Hok)
      by (cbn [List.length map] in Hlen; lia).
    reflexivity.
Qed.

(** Text made of characters below 256, as every literal of the source and
    every time stamp is, is well formed. *)
Lemma lit_ok (s : string) : ok_text (lit s) = true.
Proof.
  unfold ok_text, lit. apply andb_true_iff. split.
  - induction s as [|a s IH]; [reflexivity|].
    cbn [list_ascii_of_string map is_str forallb]. apply andb_true_iff.
    split; [|exact IH].
    unfold is_code_point. apply N.leb_le.
    pose proof (N_ascii_bounded a). lia.
  - induction s as [|a s IH]; [reflexivity|].
    cbn [list_ascii_of_string map no_surrogate_pair].
    destruct (map N_of_ascii (list_ascii_of_string s)) as [|c t] eqn:Ht; [reflexivity|].
    rewrite IH, andb_true_r.
    replace (is_high_surrogate (N_of_ascii a)) with false; [reflexivity|].
    unfold is_high_surrogate. pose proof (N_ascii_bounded a).
    symmetry. apply andb_false_iff. left. apply N.leb_gt. lia.
Qed.

End JsonFacts.

(* ================================================================= *)
(** * Properties of the bridge connection manager *)

Module BridgeFacts.
Import Json Bridge Lifecycle JsonFacts.
Local Open Scope string_scope.
Local Open Scope list_scope.

(** Run the manager's operations symbolically, splitting on what the outside
    does at each step. *)
Ltac unfold_ops :=
  cbv beta iota zeta delta
    [Main.send_prompt MultiModel.send_prompt ensure_connected connect disconnect
     bind try_except ret raise get_is_connected set_is_connected set_ws_client
     websockets_connect ws_send wait_for_recv json_loads
     result_of state_of trace_of init];
  cbn [is_connected ws_client ws_id ws_closed fst snd app negb].

Ltac split_world :=
  repeat (unfold_ops;
          match goal with
          | |- context [match on_connect ?w with _ => _ end] =>
              destruct (on_connect w) eqn:?
          | |- context [match on_send ?w ?t with _ => _ end] =>
              destruct (on_send w t) eqn:?
          | |- context [match on_recv ?w ?t ?T with _ => _ end] =>
              destruct (on_recv w t T) eqn:?
          | |- context [match loads ?r with _ => _ end] =>
              destruct (loads r) eqn:?
          end);
  unfold_ops.

(** ** The code on small inputs *)

Example isoformat_noon : isoformat noon = "2025-01-02T12:00:00".
Proof. reflexivity. Qed.

Example isoformat_microseconds :
  isoformat {| year := 987; month := 12; day := 31; hour := 23; minute := 59;
               second := 7; microsecond := 42 |}
  = "0987-12-31T23:59:07.000042".
Proof. reflexivity. Qed.

(** Nobody listens: one connection attempt, the 503 error, nothing written. *)
Example absent_peer_unavailable :
  Main.send_prompt absent_peer (lit "hello") 60 init
  = (Raise (HTTPException 503
       (lit "VS Code Copilot bridge is not available. Please ensure the VS Code extension is running.")),
     init, [EvConnect]).
Proof. reflexivity. Qed.

(** The first call connects; the reply is handed back as parsed. *)
Example first_call_connects :
  result_of
    (Main.send_prompt
       {| now := noon; on_connect := Connects 7; on_send := fun _ => Sent;
          on_recv := fun _ _ => Receives (lit "[1, 2]");
          decode_error := fun _ => [] |}
       (lit "hello") 60 init)
  = Ok (JList [JInt 1; JInt 2]) /\
  state_of
    (Main.send_prompt
       {| now := noon; on_connect := Connects 7; on_send := fun _ => Sent;
          on_recv := fun _ _ => Receives (lit "[1, 2]");
          decode_error := fun _ => [] |}
       (lit "hello") 60 init)
  = {| ws_client := Some {| ws_id := 7; ws_closed := false |}; is_connected := true |}.
Proof. split; reflexivity. Qed.

(** A reply that is not JSON: [main.py] turns the decoding error into a 500
    error, [main_multi_model.py] lets it through. *)
Example reply_is_not_json :
  result_of
    (Main.send_prompt
       {| now := noon; on_connect := Connects 7; on_send := fun _ => Sent;
          on_recv := fun _ _ => Receives (lit "oops");
          decode_error := fun _ => lit "Expecting value" |}
       (lit "hello") 60 connected_manager)
  = Raise (HTTPException 500
             (lit "Error communicating with VS Code bridge: Expecting value")) /\
  result_of
    (MultiModel.send_prompt
       {| now := noon; on_connect := Connects 7; on_send := fun _ => Sent;
          on_recv := fun _ _ => Receives (lit "oops");
          decode_error := fun _ => lit "Expecting value" |}
       (lit "hello") 60 [] connected_manager)
  = Raise (JSONDecodeError (lit "Expecting value")).
Proof. split; reflexivity. Qed.

(** ** The state invariant *)

Ltac close_consistent :=
  let Hm := fresh in let Hc := fresh in
  intros Hm Hc; first [congruence | exfalso; now apply Hm].

Lemma connect_consistent (w : peer) (m : manager) :
  consistent m -> consistent (state_of (connect w m)).
Proof.
  unfold consistent. destruct m as [[ws|] [|]]; split_world; close_consistent.
Qed.

Lemma disconnect_consistent (m : manager) :
  consistent m -> consistent (state_of (disconnect m)).
Proof.
  unfold consistent. destruct m as [[ws|] [|]]; split_world; close_consistent.
Qed.

Lemma send_prompt_consistent (w : peer) (prompt : ustr) (timeout : Z) (m : manager) :
  consistent m -> consistent (state_of (Main.send_prompt w prompt timeout m)).
Proof.
  unfold consistent. destruct m as [[ws|] [|]]; split_world; close_consistent.
Qed.

Lemma send_prompt_multi_consistent (w : peer) (prompt : ustr) (timeout : Z)
    (kwargs : list (string * json)) (m : manager) :
  consistent m ->
  consistent (state_of (MultiModel.send_prompt w prompt timeout kwargs m)).
Proof.
  unfold consistent. destruct m as [[ws|] [|]]; split_world; close_consistent.
Qed.

Lemma reachable_consistent (m : manager) : reachable m -> consistent m.
Proof.
  induction 1.
  - unfold consistent, init. cbn. discriminate.
  - now apply connect_consistent.
  - now apply disconnect_consistent.
  - now apply send_prompt_consistent.
  - now apply send_prompt_multi_consistent.
Qed.

(** ** What the specification says of the manager *)

(** C8.  From every reachable state, [disconnect] run twice leaves the manager
    as one run does, and after it the flag is down, with or without a client
    object. *)
Theorem disconnect_idempotent (m : manager) :
  reachable m ->
  state_of (disconnect (state_of (disconnect m))) = state_of (disconnect m) /\
  is_connected (state_of (disconnect m)) = false.
Proof.
  intros Hm. apply reachable_consistent in Hm. unfold consistent in Hm.
  destruct m as [[ws|] [|]]; cbn in *; split; try reflexivity.
  exfalso. now apply Hm.
Qed.

Lemma disconnect_idempotent_witness :
  reachable (state_of (connect silent_peer init)) /\
  state_of (disconnect (state_of (disconnect (state_of (connect silent_peer init)))))
  = {| ws_client := Some {| ws_id := 1; ws_closed := true |}; is_connected := false |} /\
  is_connected (state_of (disconnect init)) = false.
Proof.
  assert (H : reachable (state_of (connect silent_peer init)))
    by exact (reach_connect silent_peer init reach_init).
  split; [exact H|]. split.
  - exact (proj1 (disconnect_idempotent _ H)).
  - exact (proj2 (disconnect_idempotent _ reach_init)).
Defined.

(** C6.  A call of [send_prompt], in either file, makes at most one connection
    attempt, and none when the flag is up on entry; when the flag is down and
    that one attempt fails, the call raises the 503 "not available" error with
    the attempt as its only event: nothing is written and nothing else is
    tried. *)
Theorem send_prompt_connects_at_most_once
    (w : peer) (prompt : ustr) (timeout : Z) (kwargs : list (string * json))
    (m : manager) :
  let run1 := Main.send_prompt w prompt timeout m in
  let run2 := MultiModel.send_prompt w prompt timeout kwargs m in
  let unavailable :=
    HTTPException 503
      (lit "VS Code Copilot bridge is not available. Please ensure the VS Code extension is running.") in
  (connect_count (trace_of run1) <= 1 /\ connect_count (trace_of run2) <= 1) /\
  (is_connected m = true ->
   connect_count (trace_of run1) = 0 /\ connect_count (trace_of run2) = 0) /\
  (forall msg, is_connected m = false -> on_connect w = ConnectRaises msg ->
   run1 = (Raise unavailable,
           {| ws_client := ws_client m; is_connected := false |}, [EvConnect]) /\
   run2 = (Raise unavailable,
           {| ws_client := ws_client m; is_connected := false |}, [EvConnect])).
Proof.
  intros run1 run2 unavailable. subst run1 run2 unavailable.
  split; [|split].
  - split; destruct m as [[ws|] [|]]; split_world; cbn; lia.
  - intros Hc. split; destruct m as [[ws|] [|]]; try discriminate Hc;
      split_world; reflexivity.
  - intros msg Hc Hw. destruct m as [[ws|] [|]]; try discriminate Hc;
      unfold_ops; rewrite Hw; split; reflexivity.
Qed.

(** C7.  In [main.py], when the call has got as far as waiting for the reply,
    the flag is down afterwards exactly when the transport reported the
    connection closed, and then the call raises the 503 "was closed" error;
    after a timeout the call has failed and the flag is still up. *)
Theorem flag_drops_only_when_closed
    (w : peer) (prompt : ustr) (timeout : Z) (m : manager) (ws : nat) :
  let run := Main.send_prompt w prompt timeout m in
  let text := dumps (Main.request_message (lit (isoformat (now w))) prompt) in
  In (EvRecv ws timeout) (trace_of run) ->
  (is_connected (state_of run) = false <->
   exists msg, on_recv w text timeout = RecvRaisesClosed msg) /\
  (forall msg, on_recv w text timeout = RecvRaisesClosed msg ->
   result_of run = Raise (HTTPException 503 (lit "Connection to VS Code bridge was closed"))) /\
  (on_recv w text timeout = TimesOut ->
   is_connected (state_of run) = true /\ exists e, result_of run = Raise e).
Proof.
  intros run text. subst run text.
  destruct m as [[c|] [|]]; split_world; cbn [In];
    intros Hin; repeat split;
    try (intros [msg' ?]); try (intros msg' ?); intros;
    try congruence; try tauto; eauto;
    destruct Hin as [Hin|Hin]; try discriminate Hin;
    try (destruct Hin as [Hin|Hin]; try discriminate Hin); tauto.
Qed.

Lemma flag_drops_only_when_closed_witness :
  In (EvRecv 1 5)
     (trace_of (Main.send_prompt closing_peer (lit "hello") 5 connected_manager)) /\
  is_connected (state_of (Main.send_prompt closing_peer (lit "hello") 5 connected_manager))
  = false /\
  result_of (Main.send_prompt closing_peer (lit "hello") 5 connected_manager)
  = Raise (HTTPException 503 (lit "Connection to VS Code bridge was closed")).
Proof.
  assert (Hin : In (EvRecv 1 5)
     (trace_of (Main.send_prompt closing_peer (lit "hello") 5 connected_manager)))
    by (right; left; reflexivity).
  split; [exact Hin|].
  pose proof (flag_drops_only_when_closed closing_peer (lit "hello") 5
                connected_manager 1 Hin) as (Hflag & Hclosed & _).
  split.
  - apply Hflag. eexists. reflexivity.
  - eapply Hclosed. reflexivity.
Defined.

(** ** Timeouts *)

(** With the connection up and the request written, a reply that does not come
    in time makes [main_multi_model.py] raise the 504 error it builds.  The
    manager is as before and nothing is closed. *)
Lemma multi_model_timeout (w : peer) (prompt : ustr) (timeout : Z)
    (kwargs : list (string * json)) (c : websocket) :
  let m := {| ws_client := Some c; is_connected := true |} in
  let text := dumps (MultiModel.request_message (lit (isoformat (now w))) prompt kwargs) in
  on_send w text = Sent ->
  on_recv w text timeout = TimesOut ->
  MultiModel.send_prompt w prompt timeout kwargs m
  = (Raise (HTTPException 504
              (lit "Timeout waiting for response after " ++ lit (str_of_Z timeout)
               ++ lit " seconds")),
     m, [EvSend (ws_id c) text; EvRecv (ws_id c) timeout]).
Proof.
  intros m text Hs Hr. subst m text. unfold_ops. rewrite Hs. unfold_ops.
  rewrite Hr. reflexivity.
Qed.

(** In [main.py] the same 504 error is raised inside the outer [try], whose
    [except Exception] clause catches it and raises a 500 error in its
    place. *)
Lemma main_timeout (w : peer) (prompt : ustr) (timeout : Z) (c : websocket) :
  let m := {| ws_client := Some c; is_connected := true |} in
  let text := dumps (Main.request_message (lit (isoformat (now w))) prompt) in
  on_send w text = Sent ->
  on_recv w text timeout = TimesOut ->
  Main.send_prompt w prompt timeout m
  = (Raise (HTTPException 500
              (lit "Error communicating with VS Code bridge: " ++
               str_exn (HTTPException 504
                          (lit "Timeout waiting for Copilot response after " ++
                           lit (str_of_Z timeout) ++ lit " seconds")))),
     m, [EvSend (ws_id c) text; EvRecv (ws_id c) timeout]).
Proof.
  intros m text Hs Hr. subst m text. unfold_ops. rewrite Hs. unfold_ops.
  rewrite Hr. reflexivity.
Qed.

(** C1, at a concrete input: the connection is up, the peer takes the request
    and stays silent for the whole second.  [main.py] ends with status 500,
    not 504; [main_multi_model.py] ends with 504.  In both the manager is
    unchanged, and the events are the write and the wait: no [close()]. *)
Theorem main_reports_timeout_as_500 :
  (exists detail text,
     Main.send_prompt silent_peer (lit "hello") 1 connected_manager
     = (Raise (HTTPException 500 detail), connected_manager,
        [EvSend 1 text; EvRecv 1 1])) /\
  (exists text,
     MultiModel.send_prompt silent_peer (lit "hello") 1 [] connected_manager
     = (Raise (HTTPException 504 (lit "Timeout waiting for response after 1 seconds")),
        connected_manager, [EvSend 1 text; EvRecv 1 1])).
Proof.
  split.
  - do 2 eexists.
    exact (main_timeout silent_peer (lit "hello") 1
             {| ws_id := 1; ws_closed := false |} eq_refl eq_refl).
  - eexists.
    exact (multi_model_timeout silent_peer (lit "hello") 1 []
             {| ws_id := 1; ws_closed := false |} eq_refl eq_refl).
Qed.

(** ** The request envelope *)

(** C5, as the code has it.  The envelope is a dictionary with ["type"] set to
    "copilot_request", ["requestId"] and ["timestamp"] both set to the ISO text
    of the current time, and the prompt; [main_multi_model.py] adds
    ["temperature"] and ["maxTokens"], with 0.7 and 2000 standing in for an
    option that is not given, and [main.py] adds nothing.  Whatever a call
    writes is the JSON text of that envelope; once the connection is up the
    write is the next event; and a wait for the reply comes directly after
    the write. *)
Theorem envelope_is_written_before_the_wait
    (w : peer) (prompt : ustr) (timeout : Z) (kwargs : list (string * json))
    (m : manager) :
  let request_id := lit (isoformat (now w)) in
  let message1 :=
    JDict [ (lit "type", JStr (lit "copilot_request"));
            (lit "requestId", JStr request_id);
            (lit "prompt", JStr prompt);
            (lit "timestamp", JStr request_id) ] in
  let message2 :=
    JDict [ (lit "type", JStr (lit "copilot_request"));
            (lit "requestId", JStr request_id);
            (lit "prompt", JStr prompt);
            (lit "temperature",
             MultiModel.kwargs_get kwargs "temperature" (JFloat (lit "0.7")));
            (lit "maxTokens", MultiModel.kwargs_get kwargs "max_tokens" (JInt 2000));
            (lit "timestamp", JStr request_id) ] in
  let run1 := Main.send_prompt w prompt timeout m in
  let run2 := MultiModel.send_prompt w prompt timeout kwargs m in
  (forall ws text,
     (In (EvSend ws text) (trace_of run1) -> text = dumps message1) /\
     (In (EvSend ws text) (trace_of run2) -> text = dumps message2)) /\
  (forall c, is_connected m = true -> ws_client m = Some c ->
     (exists rest, trace_of run1 = EvSend (ws_id c) (dumps message1) :: rest) /\
     (exists rest, trace_of run2 = EvSend (ws_id c) (dumps message2) :: rest)) /\
  (forall id, is_connected m = false -> on_connect w = Connects id ->
     (exists rest, trace_of run1 = EvConnect :: EvSend id (dumps message1) :: rest) /\
     (exists rest, trace_of run2 = EvConnect :: EvSend id (dumps message2) :: rest)) /\
  (forall ws T,
     (In (EvRecv ws T) (trace_of run1) ->
      exists pre, trace_of run1 = pre ++ [EvSend ws (dumps message1); EvRecv ws T]) /\
     (In (EvRecv ws T) (trace_of run2) ->
      exists pre, trace_of run2 = pre ++ [EvSend ws (dumps message2); EvRecv ws T])).
Proof.
  intros request_id message1 message2 run1 run2.
  change message1 with (Main.request_message request_id prompt).
  change message2 with (MultiModel.request_message request_id prompt kwargs).
  subst run1 run2 request_id. clear message1 message2.
  split; [|split; [|split]].
  - intros ws text.
    split; destruct m as [[c|] [|]]; split_world; cbn [In]; intros Hin;
      repeat (destruct Hin as [Hin|Hin]; [try discriminate Hin|]);
      try contradiction; now injection Hin as _ <-.
  - intros c Hc Hws. destruct m as [[c'|] [|]]; try discriminate;
      injection Hws as ->; split; split_world; eexists; reflexivity.
  - intros id Hc Hw. destruct m as [[c'|] [|]]; try discriminate;
      split; unfold_ops; rewrite Hw; split_world; eexists; reflexivity.
  - intros ws T.
    split; destruct m as [[c|] [|]]; split_world; cbn [In]; intros Hin;
      repeat (destruct Hin as [Hin|Hin]; [try discriminate Hin|]);
      try contradiction; injection Hin as <- <-;
      first [ now exists [] | now exists [EvConnect] ].
Qed.

(** C5 as worded fails on the ["type"] field: the envelope [main.py] writes for
    the prompt "hello" says "copilot_request", and its text is not the text of
    the envelope with "request".  Without any option given,
    [main_multi_model.py] still writes ["temperature"] and ["maxTokens"]. *)
Lemma envelope_type_is_copilot_request :
  trace_of (Main.send_prompt silent_peer (lit "hello") 1 connected_manager)
  = [EvSend 1 (dumps (JDict [ (lit "type", JStr (lit "copilot_request"));
                              (lit "requestId", JStr (lit "2025-01-02T12:00:00"));
                              (lit "prompt", JStr (lit "hello"));
                              (lit "timestamp", JStr (lit "2025-01-02T12:00:00")) ]));
     EvRecv 1 1] /\
  dumps (JDict [ (lit "type", JStr (lit "copilot_request"));
                 (lit "requestId", JStr (lit "2025-01-02T12:00:00"));
                 (lit "prompt", JStr (lit "hello"));
                 (lit "timestamp", JStr (lit "2025-01-02T12:00:00")) ])
  <> dumps (JDict [ (lit "type", JStr (lit "request"));
                    (lit "requestId", JStr (lit "2025-01-02T12:00:00"));
                    (lit "prompt", JStr (lit "hello"));
                    (lit "timestamp", JStr (lit "2025-01-02T12:00:00")) ]) /\
  trace_of (MultiModel.send_prompt silent_peer (lit "hello") 1 [] connected_manager)
  = [EvSend 1 (dumps (JDict [ (lit "type", JStr (lit "copilot_request"));
                              (lit "requestId", JStr (lit "2025-01-02T12:00:00"));
                              (lit "prompt", JStr (lit "hello"));
                              (lit "temperature", JFloat (lit "0.7"));
                              (lit "maxTokens", JInt 2000);
                              (lit "timestamp", JStr (lit "2025-01-02T12:00:00")) ]));
     EvRecv 1 1].
Proof.
  split; [reflexivity|]. split; [|reflexivity].
  vm_compute. discriminate.
Qed.

(** Whatever [send_prompt] of [main.py] writes to the connection is the JSON
    text of the envelope. *)
Lemma main_writes_the_envelope (w : peer) (prompt : ustr) (timeout : Z) (m : manager)
    (id : nat) (text : ustr) :
  In (EvSend id text) (trace_of (Main.send_prompt w prompt timeout m)) ->
  text = dumps (Main.request_message (lit (isoformat (now w))) prompt).
Proof.
  destruct m as [[c|] [|]]; split_world; cbn [In]; intros H;
    repeat match goal with
           | H : _ \/ _ |- _ => destruct H as [H|H]
           | H : False |- _ => destruct H
           | H : EvConnect = EvSend _ _ |- _ => discriminate H
           | H : EvRecv _ _ = EvSend _ _ |- _ => discriminate H
           end;
    match goal with
    | H : EvSend _ ?t = EvSend _ text |- _ =>
        apply (f_equal (fun ev => match ev with EvSend _ t' => t' | _ => text end)) in H;
        cbn beta iota in H; symmetry; exact H
    end.
Qed.

(** C9, as the code has it.  For a prompt in which no high surrogate is
    directly followed by a low surrogate (every text of Unicode scalar values
    is such), reading back the JSON text of the envelope gives the envelope
    itself: a dictionary whose ["prompt"] field is the prompt, unchanged.  The
    same holds of every text that [send_prompt] writes to the connection. *)
Theorem prompt_round_trip (w : peer) (prompt : ustr) (timeout : Z) (m : manager) :
  is_str prompt = true ->
  no_surrogate_pair prompt = true ->
  let request_id := lit (isoformat (now w)) in
  loads (dumps (Main.request_message request_id prompt))
  = Some (Main.request_message request_id prompt) /\
  (exists d,
     loads (dumps (Main.request_message request_id prompt)) = Some (JDict d) /\
     dict_get d (lit "prompt") = Some (JStr prompt)) /\
  (forall id text,
     In (EvSend id text) (trace_of (Main.send_prompt w prompt timeout m)) ->
     exists d,
       loads text = Some (JDict d) /\
       dict_get d (lit "prompt") = Some (JStr prompt)).
Proof.
  intros Hs Hnp request_id.
  assert (Hback : loads (dumps (Main.request_message request_id prompt))
                  = Some (Main.request_message request_id prompt)).
  { change (Main.request_message request_id prompt)
      with (str_dict [ (lit "type", lit "copilot_request"); (lit "requestId", request_id);
                       (lit "prompt", prompt); (lit "timestamp", request_id) ]).
    rewrite loads_str_dict; [reflexivity|].
    cbn [forallb fst snd]. unfold request_id.
    rewrite !lit_ok. unfold ok_text. now rewrite Hs, Hnp. }
  assert (Hfield : exists d,
            loads (dumps (Main.request_message request_id prompt)) = Some (JDict d) /\
            dict_get d (lit "prompt") = Some (JStr prompt)).
  { rewrite Hback. unfold Main.request_message.
    eexists. split; [reflexivity|]. reflexivity. }
  split; [exact Hback|]. split; [exact Hfield|].
  intros id text Hin. apply main_writes_the_envelope in Hin. subst text.
  exact Hfield.
Qed.

Lemma prompt_round_trip_witness :
  is_str (lit "  hello  ") = true /\
  no_surrogate_pair (lit "  hello  ") = true /\
  In (EvSend 1 (dumps (Main.request_message (lit "2025-01-02T12:00:00") (lit "  hello  "))))
     (trace_of (Main.send_prompt silent_peer (lit "  hello  ") 1 connected_manager)) /\
  exists d,
    loads (dumps (Main.request_message (lit "2025-01-02T12:00:00") (lit "  hello  ")))
    = Some (JDict d) /\
    dict_get d (lit "prompt") = Some (JStr (lit "  hello  ")).
Proof.
  split; [reflexivity|]. split; [reflexivity|].
  assert (Hin :
    In (EvSend 1 (dumps (Main.request_message (lit "2025-01-02T12:00:00")
                           (lit "  hello  "))))
       (trace_of (Main.send_prompt silent_peer (lit "  hello  ") 1 connected_manager)))
    by (left; reflexivity).
  split; [exact Hin|].
  exact (proj2 (proj2 (prompt_round_trip silent_peer (lit "  hello  ") 1
                         connected_manager eq_refl eq_refl)) _ _ Hin).
Defined.

(** C9 as worded fails for a prompt of two code points, a high surrogate and
    then a low one: the text written for it is the text of the single code
    point U+1F600, and that is what comes back in the ["prompt"] field. *)
Lemma surrogate_prompt_comes_back_joined :
  is_str [55357; 56832]%N = true /\
  loads (dumps (Main.request_message (lit "2025-01-02T12:00:00") [55357; 56832]%N))
  = Some (Main.request_message (lit "2025-01-02T12:00:00") [128512]%N) /\
  Main.request_message (lit "2025-01-02T12:00:00") [128512]%N
  <> Main.request_message (lit "2025-01-02T12:00:00") [55357; 56832]%N /\
  exists d,
    loads (dumps (Main.request_message (lit "2025-01-02T12:00:00") [55357; 56832]%N))
    = Some (JDict d) /\
    dict_get d (lit "prompt") = Some (JStr [128512]%N) /\
    JStr [128512]%N <> JStr [55357; 56832]%N.
Proof.
  split; [reflexivity|]. split; [vm_compute; reflexivity|].
  split; [discriminate|].
  eexists. split; [vm_compute; reflexivity|]. split; [reflexivity|discriminate].
Qed.

End BridgeFacts.

(* ================================================================= *)
(** * More on the database executor and its helpers *)

Module DatabaseHelperFacts.
Import Database DatabaseHelpers DatabaseFacts.
Local Open Scope string_scope.
Local Open Scope list_scope.

Section Verdicts.

Variables (w : db_world) (db_path query : string) (params : list sql_value).
Variables (fetch_one fetch_all commit : bool).

Let loop := retry_loop w db_path query params fetch_one fetch_all commit.
Let judge := judge w db_path query params fetch_one fetch_all commit.

Lemma judge_done (i : nat) (v : py_value) :
  judge i = Done v <->
  path_exists w i = true /\
  exists rows, run_statement w i query params commit = Completes rows /\
               v = fetched fetch_one fetch_all rows.
Proof.
  unfold judge, Database.judge, try_body, fetched.
  destruct (path_exists w i); cbn [negb].
  - destruct (run_statement w i query params commit) as [rows|[m|m|m]].
    + split.
      * intros [= <-]. split; [reflexivity|]. now exists rows.
      * intros [_ (rows' & [= <-] & ->)]. reflexivity.
    + destruct (contains "database is locked" (lower m));
        [|destruct (contains "database disk image is malformed" (lower m));
          [|destruct (contains "no such table" (lower m))]];
        (split; [discriminate|intros [_ (rows & H & _)]; discriminate]).
    + split; [discriminate|intros [_ (rows & H & _)]; discriminate].
    + split; [discriminate|intros [_ (rows & H & _)]; discriminate].
  - split; [discriminate|intros [H _]; discriminate].
Qed.

Lemma judge_again (j : nat) :
  (exists e final, judge j = Again e final) <->
  path_exists w j = true /\
  exists e, run_statement w j query params commit = Throws e /\ retried e = true.
Proof.
  unfold judge, Database.judge, try_body, retried.
  destruct (path_exists w j); cbn [negb].
  - destruct (run_statement w j query params commit) as [rows|[m|m|m]].
    + split; [intros (e & f & H); discriminate|intros [_ (e & H & _)]; discriminate].
    + destruct (contains "database is locked" (lower m)) eqn:Hl;
        [|destruct (contains "database disk image is malformed" (lower m)) eqn:Hc;
          [|destruct (contains "no such table" (lower m)) eqn:Hs]];
        (split;
         [intros (e & f & H);
          first [discriminate
                |split; [reflexivity|];
                 eexists; split; [reflexivity|]; cbn [retried];
                 rewrite ?Hl, ?Hc, ?Hs; reflexivity]
         |intros [_ (e & [= <-] & He)]; cbn [retried] in He;
          rewrite ?Hl, ?Hc, ?Hs in He; first [discriminate|eauto]]).
    + split; [intros (e & f & H); discriminate|].
      intros [_ (e & [= <-] & He)]. discriminate.
    + split; [|eauto]. intros _. split; [reflexivity|]. eexists. split; reflexivity.
  - split; [intros (e & f & H); discriminate|intros [H _]; discriminate].
Qed.

(** The loop returns exactly when an attempt completes after nothing but
    retries, and then its events are that many attempts with their sleeps. *)
Lemma loop_returns (n a : nat) (last : option py_exn) (v : py_value) (tr : trace) :
  a + S n = MAX_RETRIES ->
  loop (seq a (S n)) last = (Returned v, tr) <->
  exists i, a <= i < MAX_RETRIES /\
            (forall j, a <= j < i -> exists e final, judge j = Again e final) /\
            judge i = Done v /\ tr = schedule a (S (i - a)).
Proof.
  revert a last tr. induction n as [|n IH]; intros a last tr Ha;
    rewrite <- cons_seq; unfold loop; rewrite loop_step; fold loop; fold judge;
    unfold MAX_RETRIES in *.
  - replace (a <? 3 - 1)%nat with false by (symmetry; apply Nat.ltb_ge; simpl; lia).
    assert (a = 2) as -> by lia. split.
    + destruct (judge 2) as [v'|msg|e [msg|]] eqn:Hj; cbn [emit fst snd];
        try discriminate. intros [= <- <-]. exists 2.
      split; [lia|]. split; [intros j Hjr; lia|]. split; [exact Hj|reflexivity].
    + intros (i & Hi & _ & Hd & ->). assert (i = 2) as -> by lia.
      rewrite Hd. reflexivity.
  - replace (a <? 3 - 1)%nat with true by (symmetry; apply Nat.ltb_lt; simpl; lia).
    split.
    + destruct (judge a) as [v'|msg|e final] eqn:Hj; cbn [emit fst snd];
        try discriminate.
      * intros [= <- <-]. exists a. split; [lia|].
        split; [intros j Hjr; lia|]. split; [exact Hj|].
        now rewrite Nat.sub_diag.
      * destruct (loop (seq (S a) (S n)) (Some e)) as [r tr'] eqn:Hl.
        cbn [fst snd]. intros [= -> <-].
        apply (IH (S a) (Some e) tr' ltac:(lia)) in Hl as (i & Hi & Hr & Hd & ->).
        exists i. split; [lia|]. split; [|split; [exact Hd|]].
        -- intros j Hjr. destruct (Nat.eq_dec j a) as [->|]; [eauto|].
           apply Hr. lia.
        -- replace (i - a) with (S (i - S a)) by lia. reflexivity.
    + intros (i & Hi & Hr & Hd & ->).
      destruct (Nat.eq_dec i a) as [->|Hne].
      * rewrite Hd, Nat.sub_diag. reflexivity.
      * destruct (Hr a ltac:(lia)) as (e & final & Hj). rewrite Hj.
        assert (Hl : loop (seq (S a) (S n)) (Some e)
                     = (Returned v, schedule (S a) (S (i - S a)))).
        { apply (IH (S a) (Some e) _ ltac:(lia)). exists i.
          split; [lia|]. split; [intros j Hjr; apply Hr; lia|]. now split. }
        rewrite Hl. cbn [emit fst snd].
        replace (i - a) with (S (i - S a)) by lia. reflexivity.
Qed.

(** How the loop can fail. *)
Lemma loop_raises (n a : nat) (last : option py_exn) (msg : string) :
  a + S n = MAX_RETRIES ->
  fst (loop (seq a (S n)) last) = Raised msg ->
  (exists i, judge i = Fatal msg) \/
  (exists e, judge 2 = Again e (Some msg)) \/
  (exists e, judge 2 = Again e None /\
             msg = "Database operation failed after 3 attempts. Last error: "
                   ++ str_exn e)%string.
Proof.
  revert a last. induction n as [|n IH]; intros a last Ha;
    rewrite <- cons_seq; unfold loop; rewrite loop_step; fold loop; fold judge;
    unfold MAX_RETRIES in *.
  - replace (a <? 3 - 1)%nat with false by (symmetry; apply Nat.ltb_ge; simpl; lia).
    assert (a = 2) as -> by lia.
    destruct (judge 2) as [v'|msg'|e [msg'|]] eqn:Hj; cbn [emit fst snd];
      try discriminate.
    + intros [= <-]. left. now exists 2.
    + intros [= <-]. right. left. now exists e.
    + unfold loop. cbn [retry_loop fst]. intros [= <-]. right. right.
      exists e. split; reflexivity.
  - replace (a <? 3 - 1)%nat with true by (symmetry; apply Nat.ltb_lt; simpl; lia).
    destruct (judge a) as [v'|msg'|e final] eqn:Hj; cbn [emit fst snd];
      try discriminate.
    + intros [= <-]. left. now exists a.
    + apply (IH (S a) (Some e)). lia.
Qed.

(** While the attempts are answered with a retry the loop goes on: the
    attempt after them is made too. *)
Lemma loop_goes_on (n a : nat) (last : option py_exn) (i : nat) :
  a + S n = MAX_RETRIES ->
  a <= i < MAX_RETRIES ->
  (forall j, a <= j < i -> exists e final, judge j = Again e final) ->
  exists m, S (i - a) <= m <= S n /\ snd (loop (seq a (S n)) last) = schedule a m.
Proof.
  revert a last. induction n as [|n IH]; intros a last Ha Hi Hr.
  - destruct (loop_schedule w db_path query params fetch_one fetch_all commit
                0 a last Ha) as (m & Hm & Htr).
    exists m. split; [unfold MAX_RETRIES in *; lia|exact Htr].
  - destruct (Nat.eq_dec i a) as [->|Hne].
    + destruct (loop_schedule w db_path query params fetch_one fetch_all commit
                  (S n) a last Ha) as (m & Hm & Htr).
      exists m. split; [lia|exact Htr].
    + destruct (Hr a ltac:(lia)) as (e & final & Hj).
      destruct (IH (S a) (Some e) ltac:(lia) ltac:(lia)) as (m & Hm & Htr).
      { intros j Hjr. apply Hr. lia. }
      exists (S m). split; [lia|].
      rewrite <- cons_seq. unfold loop. rewrite loop_step. fold loop. fold judge.
      rewrite Hj.
      replace (a <? MAX_RETRIES - 1)%nat with true
        by (symmetry; apply Nat.ltb_lt; unfold MAX_RETRIES in *; simpl; lia).
      cbn [emit snd schedule]. rewrite Htr.
      destruct m; [lia|reflexivity].
Qed.

End Verdicts.

(** ** Whole calls *)

Lemma call_returns (w : db_world) (db_path query : string) (params : list sql_value)
    (fetch_one fetch_all commit : bool) (v : py_value) (tr : trace) :
  execute_with_retry w db_path query params fetch_one fetch_all commit = (Returned v, tr)
  <->
  exists i rows,
    i < MAX_RETRIES /\
    retried_before w query params commit i /\
    path_exists w i = true /\
    run_statement w i query params commit = Completes rows /\
    v = fetched fetch_one fetch_all rows /\
    tr = schedule 0 (S i).
Proof.
  unfold execute_with_retry.
  rewrite (loop_returns w db_path query params fetch_one fetch_all commit
             2 0 None v tr eq_refl).
  split.
  - intros (i & Hi & Hr & Hd & ->).
    apply judge_done in Hd as (Hp & rows & Hrun & ->).
    exists i, rows. split; [lia|]. split.
    { intros j Hj.
      apply (proj1 (judge_again w db_path query params fetch_one fetch_all commit j)).
      apply Hr. lia. }
    rewrite Nat.sub_0_r. repeat split; assumption.
  - intros (i & rows & Hi & Hr & Hp & Hrun & -> & ->).
    exists i. split; [lia|]. split.
    { intros j Hj.
      apply (proj2 (judge_again w db_path query params fetch_one fetch_all commit j)).
      apply Hr. lia. }
    split; [|now rewrite Nat.sub_0_r].
    apply (proj2 (judge_done w db_path query params fetch_one fetch_all commit i _)).
    split; [exact Hp|]. now exists rows.
Qed.

Lemma call_raises (w : db_world) (db_path query : string) (params : list sql_value)
    (fetch_one fetch_all commit : bool) (msg : string) :
  fst (execute_with_retry w db_path query params fetch_one fetch_all commit) = Raised msg ->
  (msg = "Database file not accessible. Please check network connection and file permissions."
   \/ msg = "Database is corrupted. Please contact administrator to restore database."
   \/ msg = "Required database tables not found. Please check database schema.") \/
  (exists m,
     run_statement w 2 query params commit = Throws (DatabaseError m) /\
     contains "database is locked" (lower m) = true /\
     msg = ("Database operation failed after 3 attempts. Last error: " ++ m)%string) \/
  (exists m,
     run_statement w 2 query params commit = Throws (DatabaseError m) /\
     contains "database is locked" (lower m) = false /\
     msg = ("Database error: " ++ m)%string) \/
  (exists m,
     run_statement w 2 query params commit = Throws (OtherException m) /\
     msg = ("Database connection failed: " ++ m)%string).
Proof.
  intros H.
  apply (loop_raises w db_path query params fetch_one fetch_all commit 2 0 None msg eq_refl)
    in H as [[i Hi]|[[e He]|(e & He & ->)]].
  - left. unfold judge, try_body in Hi.
    destruct (path_exists w i); cbn [negb] in Hi; [|injection Hi as <-; tauto].
    destruct (run_statement w i query params commit) as [rows|[m|m|m]];
      try discriminate; [|injection Hi as <-; tauto].
    destruct (contains "database is locked" (lower m)); [discriminate|].
    destruct (contains "database disk image is malformed" (lower m));
      [injection Hi as <-; tauto|].
    destruct (contains "no such table" (lower m)); [injection Hi as <-; tauto|].
    discriminate.
  - right. right. unfold judge, try_body in He.
    destruct (path_exists w 2); cbn [negb] in He; [|discriminate].
    destruct (run_statement w 2 query params commit) as [rows|[m|m|m]];
      try discriminate.
    + destruct (contains "database is locked" (lower m)) eqn:Hl; [discriminate|].
      destruct (contains "database disk image is malformed" (lower m)); [discriminate|].
      destruct (contains "no such table" (lower m)); [discriminate|].
      injection He as _ <-. left. now exists m.
    + injection He as _ <-. right. now exists m.
  - right. left. unfold judge, try_body in He.
    destruct (path_exists w 2); cbn [negb] in He; [|discriminate].
    destruct (run_statement w 2 query params commit) as [rows|[m|m|m]];
      try discriminate.
    destruct (contains "database is locked" (lower m)) eqn:Hl.
    + injection He as <-. now exists m.
    + destruct (contains "database disk image is malformed" (lower m)); [discriminate|].
      destruct (contains "no such table" (lower m)); discriminate.
Qed.

Lemma fetch_one_first (w : db_world) (db_path query : string) (params : list sql_value)
    (commit : bool) (attempts : list nat) (last : option py_exn) :
  retry_loop w db_path query params true true commit attempts last
  = retry_loop w db_path query params true false commit attempts last.
Proof.
  revert last. induction attempts as [|a rest IH]; intros last; [reflexivity|].
  cbn [retry_loop].
  replace (try_body w db_path a query params true true commit)
    with (try_body w db_path a query params true false commit) by reflexivity.
  destruct (try_body w db_path a query params true false commit) as [v|[m|m|m]];
    rewrite ?IH; reflexivity.
Qed.

(** ** What the executor shows its callers *)

(** Attempts 0 .. [i - 1] answered with a retry: attempt [i] is made, with the
    sleeps in between. *)
Lemma call_goes_on (w : db_world) (db_path query : string) (params : list sql_value)
    (fetch_one fetch_all commit : bool) (i : nat) :
  i < MAX_RETRIES ->
  retried_before w query params commit i ->
  exists m,
    S i <= m <= MAX_RETRIES /\
    snd (execute_with_retry w db_path query params fetch_one fetch_all commit)
    = schedule 0 m.
Proof.
  intros Hi Hr. unfold execute_with_retry.
  destruct (loop_goes_on w db_path query params fetch_one fetch_all commit
              2 0 None i eq_refl ltac:(lia)) as (m & Hm & Htr).
  - intros j Hj.
    apply (proj2 (judge_again w db_path query params fetch_one fetch_all commit j)).
    apply Hr. lia.
  - exists m. split; [unfold MAX_RETRIES; lia|exact Htr].
Qed.

(** C4.  Whatever the outside does, the events of a call are the physical
    attempts 0, 1, ... (at most [MAX_RETRIES] = 3 of them); the event right
    before physical attempt [k >= 2] (the one with index [k - 1]) is a sleep of
    [RETRY_DELAY * 2^(k-2)] with [RETRY_DELAY] = 1/10; and that delay doubles,
    hence grows, from one attempt to the next.  The back-off does happen: when
    each physical attempt before the [k]-th ([2 <= k <= 3]) has found the file
    and ended in an error that is retried, the call sleeps
    [RETRY_DELAY * 2^(k-2)] and then makes physical attempt [k], the attempts
    and sleeps before being those of the schedule; after two such errors the
    events are exactly three attempts with sleeps of 0.1 and 0.2 between
    them. *)
Theorem backoff_doubles_within_three_attempts
    (w : db_world) (db_path query : string) (params : list sql_value)
    (fetch_one fetch_all commit : bool) :
  let tr := snd (execute_with_retry w db_path query params fetch_one fetch_all commit) in
  (exists m, 1 <= m <= MAX_RETRIES /\ attempts_of tr = seq 0 m /\
             sleeps_of tr = map delay_before (seq 2 (m - 1))) /\
  (forall k pre post,
      2 <= k -> tr = pre ++ EvAttempt (k - 1) :: post ->
      exists pre', pre = pre' ++ [EvSleep (delay_before k)]) /\
  (forall k, 2 <= k ->
      (delay_before k == (1 # 10) * inject_Z (2 ^ (Z.of_nat k - 2)))%Q /\
      (delay_before (S k) == 2 * delay_before k)%Q /\
      (delay_before k < delay_before (S k))%Q) /\
  List.length (attempts_of tr) <= 3 /\
  (forall k,
      2 <= k <= MAX_RETRIES ->
      retried_before w query params commit (k - 1) ->
      exists pre post,
        tr = pre ++ EvSleep (delay_before k) :: EvAttempt (k - 1) :: post /\
        attempts_of pre = seq 0 (k - 1) /\
        sleeps_of pre = map delay_before (seq 2 (k - 2))) /\
  (retried_before w query params commit 2 ->
   tr = [EvAttempt 0; EvSleep (1 # 10); EvAttempt 1; EvSleep (2 # 10); EvAttempt 2]).
Proof.
  intros tr.
  destruct (call_schedule w db_path query params fetch_one fetch_all commit)
    as (m & Hm & Htr).
  fold tr in Htr. unfold MAX_RETRIES in Hm.
  assert (Hatt : attempts_of tr = seq 0 m) by (rewrite Htr; apply schedule_attempts).
  split; [|split; [|split; [|split; [|split]]]].
  - exists m. split; [exact Hm|]. split; [exact Hatt|].
    rewrite Htr. destruct m as [|m]; [lia|].
    rewrite schedule_sleeps. cbn [Nat.sub]. rewrite Nat.sub_0_r.
    apply (sleeps_as_specified m 0).
  - intros k pre post Hk Hsplit. rewrite Htr in Hsplit.
    apply schedule_before in Hsplit as [[_ Hz]|[_ [pre' ->]]]; [lia|].
    exists pre'. replace (k - 1 - 1) with (k - 2) by lia.
    now rewrite backoff_delay_before.
  - intros k Hk. split; [reflexivity|]. now apply delay_before_doubles.
  - rewrite Hatt, length_seq. lia.
  - intros k Hk Hr. unfold MAX_RETRIES in Hk.
    destruct (call_goes_on w db_path query params fetch_one fetch_all commit (k - 1)
                ltac:(unfold MAX_RETRIES; lia) Hr) as (m' & Hm' & Htr').
    fold tr in Htr'. unfold MAX_RETRIES in Hm'. rewrite Htr'.
    assert (Hcases : (k = 2 /\ m' = 2) \/ (k = 2 /\ m' = 3) \/ (k = 3 /\ m' = 3)) by lia.
    destruct Hcases as [[-> ->]|[[-> ->]|[-> ->]]].
    + exists [EvAttempt 0], []. repeat split.
    + exists [EvAttempt 0], [EvSleep (backoff 1); EvAttempt 2]. repeat split.
    + exists [EvAttempt 0; EvSleep (backoff 0); EvAttempt 1], []. repeat split.
  - intros Hr.
    destruct (call_goes_on w db_path query params fetch_one fetch_all commit 2
                ltac:(unfold MAX_RETRIES; lia) Hr) as (m' & Hm' & Htr').
    fold tr in Htr'. unfold MAX_RETRIES in Hm'.
    assert (m' = 3) as -> by lia. rewrite Htr'. reflexivity.
Qed.

(** Two errors that are retried, then a row: three attempts, the sleeps of the
    schedule between them. *)
Lemma backoff_doubles_within_three_attempts_witness :
  let w := {| path_exists := fun _ => true;
              run_statement := fun attempt _ _ _ =>
                if (attempt <? 2)%nat then Throws (DatabaseError "database is locked")
                else Completes [[SqlInteger 1]] |} in
  retried_before w "SELECT 1 LIMIT 1" [] false 2 /\
  snd (execute_with_retry w "Z:\mcp_dashboard.db" "SELECT 1 LIMIT 1" [] true false false)
  = [EvAttempt 0; EvSleep (1 # 10); EvAttempt 1; EvSleep (2 # 10); EvAttempt 2].
Proof.
  intros w.
  assert (Hr : retried_before w "SELECT 1 LIMIT 1" [] false 2).
  { intros j Hj. split; [reflexivity|].
    exists (DatabaseError "database is locked").
    destruct j as [|[|j]]; [split; reflexivity|split; reflexivity|lia]. }
  split; [exact Hr|].
  exact (proj2 (proj2 (proj2 (proj2 (proj2
           (backoff_doubles_within_three_attempts w "Z:\mcp_dashboard.db"
              "SELECT 1 LIMIT 1" [] true false false))))) Hr).
Defined.

(** X1.  A call returns a value exactly when one of the three attempts finds
    the file and completes, every attempt before it having ended in an error
    that is retried; the value is fetched from the rows of that attempt, and
    the events are the attempts up to it with a sleep between each two. *)
Theorem returns_after_retries_only
    (w : db_world) (db_path query : string) (params : list sql_value)
    (fetch_one fetch_all commit : bool) (v : py_value) (tr : trace) :
  execute_with_retry w db_path query params fetch_one fetch_all commit = (Returned v, tr)
  <->
  exists i rows,
    i < MAX_RETRIES /\
    retried_before w query params commit i /\
    path_exists w i = true /\
    run_statement w i query params commit = Completes rows /\
    v = fetched fetch_one fetch_all rows /\
    tr = schedule 0 (S i).
Proof. apply call_returns. Qed.

(** X2.  A call that fails raises one of six messages: the three that end it
    at once, or, from the third attempt, the "failed after 3 attempts" message
    when that attempt hit a lock, "Database error: ..." when it hit another
    database error, and "Database connection failed: ..." when it hit any other
    exception; each of the last three carries the message of the third
    attempt's error. *)
Theorem failure_messages
    (w : db_world) (db_path query : string) (params : list sql_value)
    (fetch_one fetch_all commit : bool) (msg : string) :
  fst (execute_with_retry w db_path query params fetch_one fetch_all commit) = Raised msg ->
  (msg = "Database file not accessible. Please check network connection and file permissions."
   \/ msg = "Database is corrupted. Please contact administrator to restore database."
   \/ msg = "Required database tables not found. Please check database schema.") \/
  (exists m,
     run_statement w 2 query params commit = Throws (DatabaseError m) /\
     contains "database is locked" (lower m) = true /\
     msg = ("Database operation failed after 3 attempts. Last error: " ++ m)%string) \/
  (exists m,
     run_statement w 2 query params commit = Throws (DatabaseError m) /\
     contains "database is locked" (lower m) = false /\
     msg = ("Database error: " ++ m)%string) \/
  (exists m,
     run_statement w 2 query params commit = Throws (OtherException m) /\
     msg = ("Database connection failed: " ++ m)%string).
Proof. apply call_raises. Qed.

Lemma failure_messages_witness :
  fst (execute_with_retry (always_raises "disk I/O error") "Z:\mcp_dashboard.db"
         "SELECT 1 LIMIT 1" [] true false false)
  = Raised "Database error: disk I/O error" /\
  exists m,
    run_statement (always_raises "disk I/O error") 2 "SELECT 1 LIMIT 1" [] false
    = Throws (DatabaseError m) /\
    "Database error: disk I/O error" = ("Database error: " ++ m)%string.
Proof.
  split; [reflexivity|].
  destruct (failure_messages (always_raises "disk I/O error") "Z:\mcp_dashboard.db"
              "SELECT 1 LIMIT 1" [] true false false "Database error: disk I/O error"
              eq_refl)
    as [[H|[H|H]]|[(m & _ & _ & H)|[(m & Hr & _ & Hm)|(m & Hr & _)]]];
    try discriminate H.
  - now exists m.
  - discriminate Hr.
Defined.

(** X3.  When [fetch_one] is set, [fetch_all] is not looked at: the call with
    both flags does what the call with [fetch_one] alone does, and so never
    hands back a list. *)
Theorem fetch_one_overrides_fetch_all
    (w : db_world) (db_path query : string) (params : list sql_value) (commit : bool) :
  execute_with_retry w db_path query params true true commit
  = execute_with_retry w db_path query params true false commit /\
  forall rs tr,
    execute_with_retry w db_path query params true true commit <> (Returned (PyRows rs), tr).
Proof.
  split; [apply fetch_one_first|].
  intros rs tr H. apply call_returns in H as (i & rows & _ & _ & _ & _ & Hv & _).
  destruct rows; discriminate Hv.
Qed.

(** ** The helpers *)

(** X4.  [check_jira_exists] answers only when the statement has run: with
    [True] when the cursor holds a row and [False] when it holds none.  When
    the executor raises, the helper raises the same message; a database that
    cannot be read is never reported as a missing JIRA number. *)
Theorem check_jira_exists_answers_from_rows
    (w : db_world) (db_path jira_id : string) :
  let query := "SELECT 1 FROM jira_dashboard WHERE jira_number = ? LIMIT 1" in
  (forall b tr,
     check_jira_exists w db_path jira_id = (Gives b, tr) <->
     exists i rows,
       i < MAX_RETRIES /\
       retried_before w query [SqlText jira_id] false i /\
       path_exists w i = true /\
       run_statement w i query [SqlText jira_id] false = Completes rows /\
       b = match rows with [] => false | _ :: _ => true end /\
       tr = schedule 0 (S i)) /\
  (forall msg tr,
     check_jira_exists w db_path jira_id = (Fails msg, tr) <->
     execute_with_retry w db_path query [SqlText jira_id] true false false
     = (Raised msg, tr)).
Proof.
  intros query. unfold check_jira_exists. fold query.
  destruct (execute_with_retry w db_path query [SqlText jira_id] true false false)
    as [[v|msg'] tr'] eqn:Hcall; split.
  - intros b tr.
    apply call_returns in Hcall as (i & rows & Hi & Hr & Hp & Hrun & -> & ->).
    split.
    + intros [= <- <-]. exists i, rows.
      split; [exact Hi|]. split; [exact Hr|]. split; [exact Hp|].
      split; [exact Hrun|]. split; [now destruct rows|reflexivity].
    + intros (i' & rows' & Hi' & Hr' & Hp' & Hrun' & -> & ->).
      assert (i' = i) as ->.
      { destruct (Nat.lt_trichotomy i' i) as [Hlt|[Heq|Hgt]]; [|exact Heq|].
        - destruct (Hr i' Hlt) as (_ & e & He & _). congruence.
        - destruct (Hr' i Hgt) as (_ & e & He & _). congruence. }
      assert (rows' = rows) as -> by congruence.
      now destruct rows.
  - intros msg tr. split; discriminate.
  - intros b tr. split; [discriminate|].
    intros (i & rows & Hi & Hr & Hp & Hrun & _ & _).
    assert (Hret : execute_with_retry w db_path query [SqlText jira_id] true false false
                   = (Returned (fetched true false rows), schedule 0 (S i))).
    { apply call_returns. exists i, rows.
      split; [exact Hi|]. split; [exact Hr|]. split; [exact Hp|].
      split; [exact Hrun|]. split; reflexivity. }
    congruence.
  - intros msg tr. split; intros [= <- <-]; reflexivity.
Qed.

(** X5.  [get_prompt_template] gives back the first value of the row only
    when that value is true in Python's sense; a statement that runs but finds
    no row, or finds [NULL], an empty text, an empty blob or a zero, raises
    "Prompt template '<key>' not found in database". *)
Theorem get_prompt_template_wants_a_value
    (w : db_world) (db_path template_key : string) :
  let query := "SELECT p_value FROM jira_prompts_template WHERE p_key = ? LIMIT 1" in
  (forall v tr,
     get_prompt_template w db_path template_key = (Gives v, tr) ->
     truthy v = true /\
     exists i others rows,
       i < MAX_RETRIES /\
       run_statement w i query [SqlText template_key] false
       = Completes ((v :: others) :: rows)) /\
  (forall i rows,
     i < MAX_RETRIES ->
     retried_before w query [SqlText template_key] false i ->
     path_exists w i = true ->
     run_statement w i query [SqlText template_key] false = Completes rows ->
     match rows with
     | (v :: _) :: _ => truthy v = false
     | _ => True
     end ->
     fst (get_prompt_template w db_path template_key)
     = Fails ("Prompt template '" ++ template_key ++ "' not found in database")%string).
Proof.
  intros query. unfold get_prompt_template. fold query. split.
  - intros v tr.
    destruct (execute_with_retry w db_path query [SqlText template_key] true false false)
      as [[r|msg'] tr'] eqn:Hcall; [|discriminate].
    apply call_returns in Hcall as (i & rows & Hi & _ & _ & Hrun & -> & _).
    destruct rows as [|[|p others] rows]; cbn [fetched fetchone]; try discriminate.
    destruct (truthy p) eqn:Ht; cbn [negb]; [|discriminate].
    intros [= <- _]. split; [exact Ht|]. now exists i, others, rows.
  - intros i rows Hi Hr Hp Hrun Hrows.
    assert (Hret : execute_with_retry w db_path query [SqlText template_key] true false false
                   = (Returned (fetched true false rows), schedule 0 (S i))).
    { apply call_returns. exists i, rows.
      split; [exact Hi|]. split; [exact Hr|]. split; [exact Hp|].
      split; [exact Hrun|]. split; reflexivity. }
    rewrite Hret.
    destruct rows as [|[|p others] rows]; cbn [fetched fetchone fst]; try reflexivity.
    now rewrite Hrows.
Qed.

(** X6.  [save_prompt] never raises: it answers [True] when one of the
    attempts at the [INSERT] completes after retries only, and [False] in
    every other case. *)
Theorem save_prompt_never_raises
    (w : db_world) (db_path jira_id prompt : string) :
  let query := "INSERT INTO jira_tmp_prompts (jira_no, analysis_prompt) VALUES (?, ?)" in
  let params := [SqlText jira_id; SqlText prompt] in
  (exists b, fst (save_prompt w db_path jira_id prompt) = Gives b) /\
  (fst (save_prompt w db_path jira_id prompt) = Gives true <->
   exists i rows,
     i < MAX_RETRIES /\
     retried_before w query params true i /\
     path_exists w i = true /\
     run_statement w i query params true = Completes rows).
Proof.
  intros query params. unfold save_prompt. fold query. fold params.
  destruct (execute_with_retry w db_path query params false false true)
    as [[v|msg'] tr'] eqn:Hcall; cbn [fst].
  - split; [now exists true|]. split; [intros _|reflexivity].
    apply call_returns in Hcall as (i & rows & Hi & Hr & Hp & Hrun & _ & _).
    now exists i, rows.
  - split; [now exists false|]. split; [discriminate|].
    intros (i & rows & Hi & Hr & Hp & Hrun).
    assert (Hret : execute_with_retry w db_path query params false false true
                   = (Returned (fetched false false rows), schedule 0 (S i)))
      by (apply call_returns; exists i, rows;
          split; [exact Hi|]; split; [exact Hr|]; split; [exact Hp|];
          split; [exact Hrun|]; split; reflexivity).
    congruence.
Qed.

End DatabaseHelperFacts.

(* ================================================================= *)
(** * More on the bridge connection manager *)

Module BridgeMoreFacts.
Import Json Bridge Lifecycle JsonFacts BridgeFacts.
Local Open Scope string_scope.
Local Open Scope list_scope.

(** ** How a call can end *)

(** X7.  In [main.py] a call of [send_prompt] that fails always raises an
    [HTTPException]: 503 with one of two details (not available, connection
    closed) or 500 wrapping the text of what went wrong.  No other exception
    and no other status leaves the call; in particular not 504. *)
Theorem main_send_prompt_raises_503_or_500
    (w : peer) (prompt : ustr) (timeout : Z) (m : manager) (e : exn) :
  result_of (Main.send_prompt w prompt timeout m) = Raise e ->
  e = HTTPException 503
        (lit "VS Code Copilot bridge is not available. Please ensure the VS Code extension is running.")
  \/ e = HTTPException 503 (lit "Connection to VS Code bridge was closed")
  \/ exists cause,
       e = HTTPException 500
             (lit "Error communicating with VS Code bridge: " ++ str_exn cause).
Proof.
  intros H.
  assert (Hshape :
    match result_of (Main.send_prompt w prompt timeout m) with
    | Ok _ => True
    | Raise e =>
        e = HTTPException 503
              (lit "VS Code Copilot bridge is not available. Please ensure the VS Code extension is running.")
        \/ e = HTTPException 503 (lit "Connection to VS Code bridge was closed")
        \/ exists cause,
             e = HTTPException 500
                   (lit "Error communicating with VS Code bridge: " ++ str_exn cause)
    end).
  { clear H. destruct m as [[c|] [|]]; split_world;
      first [ exact I
            | left; reflexivity
            | right; left; reflexivity
            | right; right; eexists; reflexivity ]. }
  now rewrite H in Hshape.
Qed.

Lemma main_send_prompt_raises_503_or_500_witness :
  result_of (Main.send_prompt closing_peer (lit "hello") 5 connected_manager)
  = Raise (HTTPException 503 (lit "Connection to VS Code bridge was closed")) /\
  (HTTPException 503 (lit "Connection to VS Code bridge was closed")
   = HTTPException 503
       (lit "VS Code Copilot bridge is not available. Please ensure the VS Code extension is running.")
   \/ HTTPException 503 (lit "Connection to VS Code bridge was closed")
      = HTTPException 503 (lit "Connection to VS Code bridge was closed")
   \/ exists cause,
        HTTPException 503 (lit "Connection to VS Code bridge was closed")
        = HTTPException 500
            (lit "Error communicating with VS Code bridge: " ++ str_exn cause)).
Proof.
  split; [reflexivity|].
  exact (main_send_prompt_raises_503_or_500 closing_peer (lit "hello") 5
           connected_manager _ eq_refl).
Defined.



(** X9.  What a call returns is the one message it received, parsed and not
    looked into: the events end with the write of the request and the wait on
    the same connection, the message that arrived reads as the value returned,
    and the flag is up.  The same in both files. *)
Theorem send_prompt_returns_the_parsed_reply
    (w : peer) (prompt : ustr) (timeout : Z) (kwargs : list (string * json))
    (m : manager) (v : json) :
  let text1 := dumps (Main.request_message (lit (isoformat (now w))) prompt) in
  let text2 :=
    dumps (MultiModel.request_message (lit (isoformat (now w))) prompt kwargs) in
  (result_of (Main.send_prompt w prompt timeout m) = Ok v ->
   is_connected (state_of (Main.send_prompt w prompt timeout m)) = true /\
   exists pre id raw,
     trace_of (Main.send_prompt w prompt timeout m)
     = pre ++ [EvSend id text1; EvRecv id timeout] /\
     on_recv w text1 timeout = Receives raw /\ loads raw = Some v) /\
  (result_of (MultiModel.send_prompt w prompt timeout kwargs m) = Ok v ->
   is_connected (state_of (MultiModel.send_prompt w prompt timeout kwargs m)) = true /\
   exists pre id raw,
     trace_of (MultiModel.send_prompt w prompt timeout kwargs m)
     = pre ++ [EvSend id text2; EvRecv id timeout] /\
     on_recv w text2 timeout = Receives raw /\ loads raw = Some v).
Proof.
  intros text1 text2. subst text1 text2.
  split; destruct m as [[c|] [|]]; split_world; intros H;
    try discriminate H; injection H as <-;
    (split; [reflexivity|]);
    first [ exists []; do 2 eexists; (split; [reflexivity|]);
            split; [reflexivity|eassumption]
          | exists [EvConnect]; do 2 eexists; (split; [reflexivity|]);
            split; [reflexivity|eassumption] ].
Qed.

(** X10.  A call never closes the connection and never forgets the client
    object: there is no close event, and afterwards the client is the one from
    before, or the new one of the connection attempt that succeeded. *)
Theorem send_prompt_never_closes
    (w : peer) (prompt : ustr) (timeout : Z) (kwargs : list (string * json))
    (m : manager) :
  let run1 := Main.send_prompt w prompt timeout m in
  let run2 := MultiModel.send_prompt w prompt timeout kwargs m in
  (forall id, ~ In (EvClose id) (trace_of run1) /\ ~ In (EvClose id) (trace_of run2)) /\
  (ws_client (state_of run1) = ws_client m \/
   exists id, is_connected m = false /\ on_connect w = Connects id /\
              ws_client (state_of run1) = Some {| ws_id := id; ws_closed := false |}) /\
  (ws_client (state_of run2) = ws_client m \/
   exists id, is_connected m = false /\ on_connect w = Connects id /\
              ws_client (state_of run2) = Some {| ws_id := id; ws_closed := false |}).
Proof.
  intros run1 run2. subst run1 run2. split; [|split].
  - intros id.
    split; destruct m as [[c|] [|]]; split_world; cbn [In]; intros Hin;
      repeat (destruct Hin as [Hin|Hin]; [discriminate Hin|]); exact Hin.
  - destruct m as [[c|] [|]]; split_world;
      first [ left; reflexivity | right; eexists; repeat split; eassumption ].
  - destruct m as [[c|] [|]]; split_world;
      first [ left; reflexivity | right; eexists; repeat split; eassumption ].
Qed.

(** ** One call after another *)

(** What the next call does depends on the flag alone. *)
Lemma next_call_when_flag_down (w : peer) (prompt : ustr) (timeout : Z)
    (kwargs : list (string * json)) (m : manager) :
  is_connected m = false ->
  connect_count (trace_of (Main.send_prompt w prompt timeout m)) = 1 /\
  connect_count (trace_of (MultiModel.send_prompt w prompt timeout kwargs m)) = 1 /\
  forall id, on_connect w = Connects id ->
    (exists rest,
       trace_of (Main.send_prompt w prompt timeout m)
       = EvConnect ::
         EvSend id (dumps (Main.request_message (lit (isoformat (now w))) prompt)) ::
         rest) /\
    (exists rest,
       trace_of (MultiModel.send_prompt w prompt timeout kwargs m)
       = EvConnect ::
         EvSend id
           (dumps (MultiModel.request_message (lit (isoformat (now w))) prompt kwargs)) ::
         rest).
Proof.
  intros Hc. destruct m as [[c|] [|]]; try discriminate Hc.
  - split; [split_world; reflexivity|]. split; [split_world; reflexivity|].
    intros id Hid. split; unfold_ops; rewrite Hid; split_world; eexists; reflexivity.
  - split; [split_world; reflexivity|]. split; [split_world; reflexivity|].
    intros id Hid. split; unfold_ops; rewrite Hid; split_world; eexists; reflexivity.
Qed.

Lemma next_call_when_flag_up (w : peer) (prompt : ustr) (timeout : Z)
    (kwargs : list (string * json)) (c : websocket) :
  let m := {| ws_client := Some c; is_connected := true |} in
  (exists rest,
     trace_of (Main.send_prompt w prompt timeout m)
     = EvSend (ws_id c) (dumps (Main.request_message (lit (isoformat (now w))) prompt))
       :: rest /\ connect_count rest = 0) /\
  (exists rest,
     trace_of (MultiModel.send_prompt w prompt timeout kwargs m)
     = EvSend (ws_id c)
         (dumps (MultiModel.request_message (lit (isoformat (now w))) prompt kwargs))
       :: rest /\ connect_count rest = 0).
Proof.
  intros m. subst m. split; split_world; eexists; split; reflexivity.
Qed.

(** The state a call leaves behind when the wait was reached. *)
Lemma state_after_wait (w : peer) (prompt : ustr) (timeout : Z)
    (kwargs : list (string * json)) (m : manager) (id : nat) :
  (In (EvRecv id timeout) (trace_of (Main.send_prompt w prompt timeout m)) ->
   match on_recv w (dumps (Main.request_message (lit (isoformat (now w))) prompt))
           timeout with
   | RecvRaisesClosed _ =>
       is_connected (state_of (Main.send_prompt w prompt timeout m)) = false
   | _ =>
       exists c, ws_id c = id /\
         state_of (Main.send_prompt w prompt timeout m)
         = {| ws_client := Some c; is_connected := true |}
   end) /\
  (In (EvRecv id timeout)
      (trace_of (MultiModel.send_prompt w prompt timeout kwargs m)) ->
   match on_recv w
           (dumps (MultiModel.request_message (lit (isoformat (now w))) prompt kwargs))
           timeout with
   | RecvRaisesClosed _ =>
       is_connected (state_of (MultiModel.send_prompt w prompt timeout kwargs m)) = false
   | _ =>
       exists c, ws_id c = id /\
         state_of (MultiModel.send_prompt w prompt timeout kwargs m)
         = {| ws_client := Some c; is_connected := true |}
   end).
Proof.
  split; destruct m as [[c|] [|]]; split_world; cbn [In]; intros Hin;
    repeat (destruct Hin as [Hin|Hin]; [try discriminate Hin|]);
    try contradiction; try reflexivity;
    injection Hin as <-; eexists; (split; [|reflexivity]); reflexivity.
Qed.

(** X11.  After a call that found the connection closed while waiting, the
    next call starts with one connection attempt and, when that succeeds,
    writes its request on the new connection.  After a call whose wait ran out
    of time, the next call makes no connection attempt and writes on the
    connection of the call before: a late reply to the first request is what
    it would read.  The same in both files. *)
Theorem next_call_reconnects_only_after_a_close
    (w1 w2 : peer) (prompt1 prompt2 : ustr) (timeout1 timeout2 : Z)
    (kwargs1 kwargs2 : list (string * json)) (m : manager) (id : nat) :
  let text1 := dumps (Main.request_message (lit (isoformat (now w1))) prompt1) in
  let text1' :=
    dumps (MultiModel.request_message (lit (isoformat (now w1))) prompt1 kwargs1) in
  let first := Main.send_prompt w1 prompt1 timeout1 m in
  let first' := MultiModel.send_prompt w1 prompt1 timeout1 kwargs1 m in
  let second := Main.send_prompt w2 prompt2 timeout2 (state_of first) in
  let second' := MultiModel.send_prompt w2 prompt2 timeout2 kwargs2 (state_of first') in
  (In (EvRecv id timeout1) (trace_of first) ->
   ((exists msg, on_recv w1 text1 timeout1 = RecvRaisesClosed msg) ->
    connect_count (trace_of second) = 1 /\
    forall id2, on_connect w2 = Connects id2 ->
      exists rest,
        trace_of second
        = EvConnect ::
          EvSend id2 (dumps (Main.request_message (lit (isoformat (now w2))) prompt2)) ::
          rest) /\
   (on_recv w1 text1 timeout1 = TimesOut ->
    exists rest,
      trace_of second
      = EvSend id (dumps (Main.request_message (lit (isoformat (now w2))) prompt2)) ::
        rest /\ connect_count rest = 0)) /\
  (In (EvRecv id timeout1) (trace_of first') ->
   ((exists msg, on_recv w1 text1' timeout1 = RecvRaisesClosed msg) ->
    connect_count (trace_of second') = 1 /\
    forall id2, on_connect w2 = Connects id2 ->
      exists rest,
        trace_of second'
        = EvConnect ::
          EvSend id2
            (dumps (MultiModel.request_message (lit (isoformat (now w2))) prompt2 kwargs2))
          :: rest) /\
   (on_recv w1 text1' timeout1 = TimesOut ->
    exists rest,
      trace_of second'
      = EvSend id
          (dumps (MultiModel.request_message (lit (isoformat (now w2))) prompt2 kwargs2))
        :: rest /\ connect_count rest = 0)).
Proof.
  intros text1 text1' first first' second second'.
  subst text1 text1' second second'.
  destruct (state_after_wait w1 prompt1 timeout1 kwargs1 m id) as [H1 H2].
  fold first in H1. fold first' in H2.
  split; intros Hin.
  - specialize (H1 Hin). split.
    + intros [msg Hmsg]. rewrite Hmsg in H1.
      destruct (next_call_when_flag_down w2 prompt2 timeout2 kwargs2 (state_of first) H1)
        as (Hcount & _ & Hnew).
      split; [exact Hcount|]. intros id2 Hid2. exact (proj1 (Hnew id2 Hid2)).
    + intros Hto. rewrite Hto in H1. destruct H1 as (c & <- & ->).
      exact (proj1 (next_call_when_flag_up w2 prompt2 timeout2 kwargs2 c)).
  - specialize (H2 Hin). split.
    + intros [msg Hmsg]. rewrite Hmsg in H2.
      destruct (next_call_when_flag_down w2 prompt2 timeout2 kwargs2 (state_of first') H2)
        as (_ & Hcount & Hnew).
      split; [exact Hcount|]. intros id2 Hid2. exact (proj2 (Hnew id2 Hid2)).
    + intros Hto. rewrite Hto in H2. destruct H2 as (c & <- & ->).
      exact (proj2 (next_call_when_flag_up w2 prompt2 timeout2 kwargs2 c)).
Qed.

End BridgeMoreFacts.

(* ================================================================= *)
(** * The chat endpoint and its validator *)

Module EndpointFacts.
Import Json Bridge Lifecycle Endpoint BridgeFacts.
Local Open Scope string_scope.
Local Open Scope list_scope.

(** ** Stripping *)

Lemma lstrip_split (s : ustr) :
  exists pre, s = pre ++ lstrip s /\ forallb isspace pre = true.
Proof.
  induction s as [|c s (pre & Hs & Hpre)]; [now exists []|].
  cbn [lstrip]. destruct (isspace c) eqn:Hc.
  - exists (c :: pre). cbn [app forallb]. rewrite Hc, Hpre. split; [|reflexivity].
    now f_equal.
  - now exists [].
Qed.

Lemma lstrip_clean (s : ustr) : starts_clean (lstrip s).
Proof.
  induction s as [|c s IH]; [exact I|].
  cbn [lstrip]. destruct (isspace c) eqn:Hc; [exact IH|exact Hc].
Qed.

Lemma lstrip_fixed (s : ustr) : starts_clean s -> lstrip s = s.
Proof. destruct s as [|c s]; [reflexivity|]. cbn. now intros ->. Qed.

Lemma lstrip_empty (s : ustr) : lstrip s = [] <-> forallb isspace s = true.
Proof.
  induction s as [|c s IH]; [now split|].
  cbn [lstrip forallb]. destruct (isspace c); [exact IH|].
  split; discriminate.
Qed.

Lemma lstrip_keeps_last (s : ustr) (c : N) :
  isspace c = false -> lstrip (s ++ [c]) = lstrip s ++ [c].
Proof.
  intros Hc. induction s as [|d s IH]; cbn [app lstrip].
  - now rewrite Hc.
  - destruct (isspace d); [exact IH|reflexivity].
Qed.

Lemma strip_shape (s : ustr) :
  starts_clean (strip s) /\ starts_clean (rev (strip s)) /\
  (exists pre post,
     s = pre ++ strip s ++ post /\
     forallb isspace pre = true /\ forallb isspace post = true) /\
  (strip s = [] <-> forallb isspace s = true).
Proof.
  unfold strip, rstrip.
  destruct (lstrip_split s) as (pre & Hs & Hpre).
  destruct (lstrip_split (rev (lstrip s))) as (post & Ht & Hpost).
  pose proof (lstrip_clean s) as Hclean.
  assert (Hsplit : lstrip s = rev (lstrip (rev (lstrip s))) ++ rev post).
  { rewrite <- rev_app_distr, <- Ht. now rewrite rev_involutive. }
  split; [|split; [|split]].
  - destruct (lstrip s) as [|c t] eqn:Hl; [exact I|].
    cbn [rev]. cbv [starts_clean] in Hclean.
    rewrite (lstrip_keeps_last _ _ Hclean), rev_app_distr. exact Hclean.
  - rewrite rev_involutive. apply lstrip_clean.
  - exists pre, (rev post). split; [|split; [exact Hpre|]].
    + rewrite <- Hsplit. exact Hs.
    + rewrite forallb_forall in *. intros x Hx. apply Hpost. now apply in_rev.
  - split.
    + intros He. rewrite He in Hsplit. cbn [app] in Hsplit.
      rewrite Hs, forallb_app, Hpre, Hsplit. cbn [andb].
      rewrite forallb_forall in *. intros x Hx. apply Hpost. now apply in_rev.
    + intros Hall. apply lstrip_empty in Hall. now rewrite Hall.
Qed.

Lemma strip_fixed (p : ustr) :
  starts_clean p -> starts_clean (rev p) -> strip p = p.
Proof.
  intros H1 H2. unfold strip, rstrip.
  now rewrite (lstrip_fixed p H1), (lstrip_fixed (rev p) H2), rev_involutive.
Qed.

(** X12.  The validator rejects exactly the prompts made of white space only
    (the empty one among them).  A prompt it accepts comes back without the
    white space at its two ends and otherwise unchanged: the result is not
    empty, begins and ends with a character that is no white space, and passes
    the validator again as it is. *)
Theorem validate_prompt_strips
    (v : ustr) :
  match validate_prompt v with
  | inr msg =>
      forallb isspace v = true /\ msg = "Prompt cannot be empty or whitespace only"
  | inl p =>
      p <> [] /\ starts_clean p /\ starts_clean (rev p) /\
      (exists pre post,
         v = pre ++ p ++ post /\
         forallb isspace pre = true /\ forallb isspace post = true) /\
      forallb isspace v = false /\
      validate_prompt p = inl p
  end.
Proof.
  destruct (strip_shape v) as (H1 & H2 & H3 & H4).
  unfold validate_prompt.
  destruct v as [|c v]; [now split|]. cbn [is_empty orb].
  destruct (strip (c :: v)) as [|d p] eqn:Hp; cbn [is_empty].
  - split; [|reflexivity]. now apply H4.
  - split; [discriminate|]. split; [exact H1|]. split; [exact H2|].
    split; [exact H3|]. split.
    + destruct (forallb isspace (c :: v)); [|reflexivity].
      discriminate (proj2 H4 eq_refl).
    + cbn [orb is_empty]. now rewrite (strip_fixed (d :: p) H1 H2).
Qed.

(** ** The chat endpoint *)

Ltac unfold_handler :=
  cbv beta iota zeta delta
    [getCopilotResponseWithVSCodeBridge py_get str_field optional_str_field equals_str
     Main.send_prompt ensure_connected connect bind try_except ret raise
     get_is_connected set_is_connected set_ws_client websockets_connect ws_send
     wait_for_recv json_loads result_of state_of trace_of];
  cbn [is_connected ws_client ws_id ws_closed fst snd app negb
       success response prompt timestamp error].

Ltac split_handler :=
  repeat (unfold_handler;
          match goal with
          | |- context [match on_connect ?w with _ => _ end] =>
              destruct (on_connect w) eqn:?
          | |- context [match on_send ?w ?t with _ => _ end] =>
              destruct (on_send w t) eqn:?
          | |- context [match on_recv ?w ?t ?T with _ => _ end] =>
              destruct (on_recv w t T) eqn:?
          | |- context [match loads ?r with _ => _ end] =>
              destruct (loads r) eqn:?
          | |- context [match dict_get ?d ?k with _ => _ end] =>
              destruct (dict_get d k) eqn:?
          | |- context [match coerce_str ?w ?v with _ => _ end] =>
              destruct (coerce_str w v) eqn:?
          | |- context [if ustr_eqb ?a ?b then _ else _] =>
              destruct (ustr_eqb a b) eqn:?
          | |- context [match ?x with _ => _ end] =>
              is_var x; destruct x
          end);
  unfold_handler.


Lemma ustr_eqb_eq (s t : ustr) : ustr_eqb s t = true -> s = t.
Proof.
  revert t. induction s as [|c s IH]; intros [|d t]; cbn [ustr_eqb];
    try discriminate; [reflexivity|].
  intros [Hc Hs]%andb_true_iff. apply N.eqb_eq in Hc. apply IH in Hs. congruence.
Qed.

(** X14.  When the chat endpoint answers, the extension has replied with a
    dictionary whose ["type"] is "copilot_response" (then [success] is true and
    there is no error text) or "error" (then [success] is false and the
    response text is empty): an error reported by the extension is answered
    with an ordinary response, not with an HTTP error.  The prompt is echoed as
    it came in. *)
Theorem chat_endpoint_answers
    (w : handler_world) (request_prompt : ustr) (request_timeout : Z)
    (m : manager) (r : CopilotResponse) :
  let text :=
    dumps (Main.request_message (lit (isoformat (now (bridge w)))) request_prompt) in
  result_of (getCopilotResponseWithVSCodeBridge w request_prompt request_timeout m)
  = Ok r ->
  prompt r = request_prompt /\
  timestamp r = isoformat (answered_at w) /\
  exists raw d,
    on_recv (bridge w) text request_timeout = Receives raw /\
    loads raw = Some (JDict d) /\
    ((success r = true /\ error r = None /\
      dict_get d (lit "type") = Some (JStr (lit "copilot_response")))
     \/
     (success r = false /\ response r = [] /\
      dict_get d (lit "type") = Some (JStr (lit "error")))).
Proof.
  intros text H. subst text.
  assert (Hshape :
    match result_of
            (getCopilotResponseWithVSCodeBridge w request_prompt request_timeout m) with
    | Raise _ => True
    | Ok r =>
        prompt r = request_prompt /\
        timestamp r = isoformat (answered_at w) /\
        exists raw d,
          on_recv (bridge w)
            (dumps (Main.request_message (lit (isoformat (now (bridge w))))
                      request_prompt))
            request_timeout = Receives raw /\
          loads raw = Some (JDict d) /\
          ((success r = true /\ error r = None /\
            dict_get d (lit "type") = Some (JStr (lit "copilot_response")))
           \/
           (success r = false /\ response r = [] /\
            dict_get d (lit "type") = Some (JStr (lit "error"))))
    end).
  { clear H. destruct m as [[c|] [|]]; split_handler; try exact I;
      (split; [reflexivity|]); (split; [reflexivity|]);
      do 2 eexists; (split; [reflexivity|]); (split; [eassumption|]);
      repeat match goal with
             | H : ustr_eqb _ _ = true |- _ => apply ustr_eqb_eq in H; subst
             end;
      first [ left; repeat split; congruence
            | right; repeat split; congruence ]. }
  now rewrite H in Hshape.
Qed.

Lemma chat_endpoint_answers_witness :
  let w := {| bridge :=
                {| now := noon; on_connect := Connects 7; on_send := fun _ => Sent;
                   on_recv := fun _ _ =>
                     Receives (lit "{" ++ encode_basestring_ascii (lit "type") ++ lit ":" ++
                               encode_basestring_ascii (lit "error") ++ lit "}");
                   decode_error := fun _ => [] |};
              answered_at := noon;
              coerce_str := fun _ => inr (lit "str type expected") |} in
  result_of (getCopilotResponseWithVSCodeBridge w (lit "hello") 60 init)
  = Ok {| success := false; response := []; prompt := lit "hello";
          timestamp := "2025-01-02T12:00:00";
          error := Some (lit "Unknown error from VS Code bridge") |} /\
  prompt {| success := false; response := []; prompt := lit "hello";
            timestamp := "2025-01-02T12:00:00";
            error := Some (lit "Unknown error from VS Code bridge") |} = lit "hello".
Proof.
  intros w. split; [reflexivity|].
  exact (proj1 (chat_endpoint_answers w (lit "hello") 60 init _ eq_refl)).
Defined.


End EndpointFacts.

(* ================================================================= *)
(** * Properties of [inject_and_save_prompt] *)

Module InjectFacts.
Import Json Bridge Lifecycle DatabaseHelpers Inject.
Local Open Scope string_scope.
Local Open Scope list_scope.

(** ** The code on small inputs *)

Example strip_jira_id : strip "  DEV-42 " = "DEV-42".
Proof. reflexivity. Qed.

Example replace_every_mark :
  replace "Analyse ? and test ?" "?" "DEV-42" = "Analyse DEV-42 and test DEV-42".
Proof. reflexivity. Qed.

(** The prompt goes out and the save fails: the response shows no error. *)
Example injected_and_not_saved :
  response_of (inject_and_save_prompt (locked_at_save silent_peer) " DEV-42 " init)
  = Ok {| isValidJiraId := true; isPromptInjectVScode := true;
          genratedPrompt := Some "Analyse DEV-42"; error := None |}.
Proof. vm_compute. reflexivity. Qed.

(** The write finds the connection closed and the save fails: the response
    says the prompt was saved, and the flag of the manager stays up. *)
Example closed_at_write_goes_unnoticed :
  response_of
    (inject_and_save_prompt (locked_at_save closed_at_write) "DEV-42" connected_manager)
  = Ok {| isValidJiraId := true; isPromptInjectVScode := false;
          genratedPrompt := Some "Analyse DEV-42";
          error := Some "VS Code Copilot bridge is not available. Prompt saved to database. Please ensure VS Code extension is running on port 8765." |}
  /\
  manager_after
    (inject_and_save_prompt (locked_at_save closed_at_write) "DEV-42" connected_manager)
  = connected_manager.
Proof. split; vm_compute; reflexivity. Qed.

(** A template that is a number has no [replace]. *)
Example numeric_template :
  response_of
    (inject_and_save_prompt
       (with_save
          {| on_check := holds (Database.SqlInteger 1);
             on_template := holds (Database.SqlInteger 7);
             on_save := holds Database.SqlNull;
             bridge := silent_peer; request_id_at := noon; timestamp_at := noon |}
          (holds Database.SqlNull))
       "DEV-42" init)
  = Ok (rejected "'int' object has no attribute 'replace'").
Proof. vm_compute. reflexivity. Qed.

(** ** Step 3 *)

(** What the third step does, case by case. *)
Lemma inject_cases (w : inject_world) (generated_prompt : string) (m : manager) :
  let text := dumps (request_message w generated_prompt) in
  let sent := match on_send (bridge w) text with Sent => true | _ => false end in
  inject w generated_prompt m =
  if is_connected m then
    match ws_client m with
    | Some ws => (Ok sent, m, [EvSend (ws_id ws) text])
    | None => (Ok false, m, [])
    end
  else
    match on_connect (bridge w) with
    | Connects id =>
        (Ok sent,
         {| ws_client := Some {| ws_id := id; ws_closed := false |};
            is_connected := true |},
         [EvConnect; EvSend id text])
    | ConnectRaises _ =>
        (Ok false, {| ws_client := ws_client m; is_connected := false |}, [EvConnect])
    end.
Proof.
  cbv zeta. destruct m as [[ws|] [|]];
    cbv beta iota zeta delta
      [inject send_request connect bind try_except ret raise get_is_connected
       set_is_connected set_ws_client websockets_connect ws_send];
    cbn [is_connected ws_client ws_id negb];
    try destruct (on_connect (bridge w));
    cbv beta iota zeta; cbn [is_connected ws_client ws_id negb];
    try destruct (on_send (bridge w) _); reflexivity.
Qed.

Lemma inject_returns (w : inject_world) (generated_prompt : string) (m : manager) :
  exists b, fst (fst (inject w generated_prompt m)) = Ok b.
Proof.
  rewrite inject_cases. cbv zeta.
  destruct (is_connected m); [destruct (ws_client m)|destruct (on_connect (bridge w))];
    eexists; reflexivity.
Qed.

(** ** The texts *)

Lemma eqb_empty (s : string) : String.eqb s "" = false <-> s <> "".
Proof.
  destruct s; cbn; split; intros H; congruence.
Qed.

Lemma replace_nonempty (s : string) (old : ascii) (new : string) :
  s <> "" -> new <> "" -> replace s old new <> "".
Proof.
  destruct s as [|c s]; [congruence|]. intros _ Hnew. cbn [replace].
  destruct (Ascii.eqb c old); [|discriminate].
  destruct new; [congruence|discriminate].
Qed.

Lemma template_is_true (w : Database.db_world) (db_path key : string)
    (v : Database.sql_value) (tr : Database.trace) :
  get_prompt_template w db_path key = (Gives v, tr) -> truthy v = true.
Proof.
  unfold get_prompt_template.
  destruct (Database.execute_with_retry _ _ _ _ _ _ _) as [[[|[|p r]|[|]]|] tr'];
    try discriminate.
  destruct (truthy p) eqn:Hp; cbn [negb]; [|discriminate].
  intros [= <- _]. exact Hp.
Qed.

Lemma call_starts (w : Database.db_world) (db_path query : string)
    (params : list Database.sql_value) (fetch_one fetch_all commit : bool) :
  exists rest,
    snd (Database.execute_with_retry w db_path query params fetch_one fetch_all commit)
    = Database.EvAttempt 0 :: rest.
Proof.
  unfold Database.execute_with_retry.
  cbn [seq Database.MAX_RETRIES Database.retry_loop].
  unfold Database.emit at 1. cbn [snd]. eexists. reflexivity.
Qed.

Lemma save_starts (w : Database.db_world) (db_path jira_id prompt : string) :
  exists rest, snd (save_prompt w db_path jira_id prompt) = Database.EvAttempt 0 :: rest.
Proof.
  unfold save_prompt.
  destruct (call_starts w db_path
              "INSERT INTO jira_tmp_prompts (jira_no, analysis_prompt) VALUES (?, ?)"
              [Database.SqlText jira_id; Database.SqlText prompt] false false true)
    as [rest H].
  destruct (Database.execute_with_retry _ _ _ _ _ _ _) as [[|] tr];
    cbn [snd] in *; exists rest; exact H.
Qed.

(** ** The endpoint, case by case *)

Lemma reads_only (tr1 tr2 : Database.trace) (ev : event) :
  In ev (db_events CheckJira tr1 ++ db_events GetTemplate tr2) -> is_read ev.
Proof.
  unfold db_events. intros [H|H]%in_app_or; apply in_map_iff in H as [e [<- _]];
    eexists; eexists; (split; [reflexivity|discriminate]).
Qed.

Lemma endpoint_cases (w : inject_world) (request_jira_id : string) (m : manager) :
  let jira_id := strip request_jira_id in
  let run := inject_and_save_prompt w request_jira_id m in
  ((forall template, ~ accepted w request_jira_id template) /\
   exists msg tr,
     run = (Ok (rejected msg), m, tr) /\ forall ev, In ev tr -> is_read ev)
  \/
  (exists template b m1 tr3 before,
     accepted w request_jira_id template /\
     inject w (replace template "?" jira_id) m = (Ok b, m1, tr3) /\
     (forall ev, In ev before -> is_read ev) /\
     run =
     (Ok {| isValidJiraId := true; isPromptInjectVScode := b;
            genratedPrompt := Some (replace template "?" jira_id);
            error :=
              if negb b then
                Some "VS Code Copilot bridge is not available. Prompt saved to database. Please ensure VS Code extension is running on port 8765."
              else None |},
      m1,
      before ++ ws_events tr3 ++
      db_events SavePrompt
        (snd (save_prompt (on_save w) DB_PATH jira_id (replace template "?" jira_id))))).
Proof.
  cbv zeta. unfold inject_and_save_prompt. cbv zeta.
  destruct (String.eqb (strip request_jira_id) "") eqn:He.
  { left. apply String.eqb_eq in He. split; [intros t [H _]; contradiction|].
    do 2 eexists. split; [reflexivity|]. intros ev []. }
  apply eqb_empty in He.
  destruct (check_jira_exists _ _ _) as [[[|]|msg] tr1] eqn:Hc.
  - destruct (get_prompt_template _ _ _) as [[v|msg] tr2] eqn:Ht.
    + pose proof (template_is_true _ _ _ _ _ Ht) as Hv.
      destruct v as [|z|r|s|b]; cbn [call_replace];
        try (left; split;
             [ intros t (_ & _ & H); rewrite Ht in H; discriminate
             | do 2 eexists; split; [reflexivity|apply reads_only] ]).
      right. cbn [truthy] in Hv. apply negb_true_iff, eqb_empty in Hv.
      pose proof (replace_nonempty s "?" _ Hv He) as Hp. apply eqb_empty in Hp.
      rewrite Hp. cbn [andb negb].
      destruct (inject_returns w (replace s "?" (strip request_jira_id)) m) as [b Hb].
      destruct (inject w _ m) as [[r m1] tr3] eqn:Hi. cbn [fst] in Hb. subst r.
      exists s, b, m1, tr3, (db_events CheckJira tr1 ++ db_events GetTemplate tr2).
      split; [unfold accepted; rewrite Hc, Ht; auto|].
      split; [exact Hi|]. split; [apply reads_only|]. reflexivity.
    + left. split; [intros t (_ & _ & H); rewrite Ht in H; discriminate|].
      do 2 eexists. split; [reflexivity|apply reads_only].
  - left. split; [intros t (_ & H & _); rewrite Hc in H; discriminate|].
    do 2 eexists. split; [reflexivity|].
    intros ev H. apply (reads_only tr1 []). rewrite app_nil_r. exact H.
  - left. split; [intros t (_ & H & _); rewrite Hc in H; discriminate|].
    do 2 eexists. split; [reflexivity|].
    intros ev H. apply (reads_only tr1 []). rewrite app_nil_r. exact H.
Qed.

(** ** Counting events *)

Lemma count_app (p : event -> bool) (a b : list event) :
  count p (a ++ b) = count p a + count p b.
Proof. unfold count. now rewrite filter_app, length_app. Qed.

Lemma count_reads (p : event -> bool) (tr : list event) :
  (forall h e, p (EvDb h e) = false) ->
  (forall ev, In ev tr -> is_read ev) ->
  count p tr = 0.
Proof.
  intros Hp. unfold count. induction tr as [|ev tr IH]; intros H; [reflexivity|].
  destruct (H ev (or_introl eq_refl)) as (h & e & -> & _).
  cbn [filter]. rewrite Hp. apply IH. intros ev' Hin. apply H. now right.
Qed.

Lemma count_db (p : event -> bool) (h : helper) (tr : Database.trace) :
  (forall h e, p (EvDb h e) = false) -> count p (db_events h tr) = 0.
Proof.
  intros Hp. unfold count, db_events. induction tr as [|e tr IH]; [reflexivity|].
  cbn [map filter]. now rewrite Hp.
Qed.

Ltac count_events :=
  rewrite ?count_app, ?count_db by reflexivity;
  repeat match goal with
         | H : forall ev, In ev ?tr -> is_read ev |- context [count ?p ?tr] =>
             rewrite (count_reads p tr (fun _ _ => eq_refl) H)
         end;
  cbn.

Lemma step3_eq (b b' : bool) (m m' : manager) (tr tr' : list Bridge.event) :
  (Ok b, m, tr) = (Ok b', m', tr') -> b' = b /\ m' = m /\ tr' = tr.
Proof. intros [= -> -> ->]. auto. Qed.

(** Split on how the request went, and on what the third step met. *)
Ltac split_request w request_jira_id m :=
  let Hrun := fresh "Hrun" in
  let Hi := fresh "Hi" in
  destruct (endpoint_cases w request_jira_id m)
    as [[Hno (msg & tr & Hrun & Hreads)]
       |(template & b & m1 & tr3 & before & Hacc & Hi & Hreads & Hrun)];
  [ rewrite Hrun
  | rewrite Hrun; rewrite inject_cases in Hi; cbv zeta in Hi;
    destruct (is_connected m) eqn:Hflag;
    [ destruct (ws_client m) as [ws|] eqn:Hclient
    | destruct (on_connect (bridge w)) as [id|cause] eqn:Hconnect ];
    apply step3_eq in Hi as (-> & -> & ->) ];
  unfold response_of, manager_after, events_of;
  cbn [fst snd isValidJiraId isPromptInjectVScode genratedPrompt error rejected].

(** X15.  The endpoint always answers with a response, never with an
    exception.  It never waits for a message of the extension and never closes
    the connection; it tries to connect at most once, and only when the flag is
    down, and writes at most once. *)
Theorem inject_endpoint_never_waits
    (w : inject_world) (request_jira_id : string) (m : manager) :
  let run := inject_and_save_prompt w request_jira_id m in
  (exists r, response_of run = Ok r) /\
  count is_wait (events_of run) = 0 /\
  count is_close (events_of run) = 0 /\
  count is_dial (events_of run) <= 1 /\
  count is_write (events_of run) <= 1 /\
  (is_connected m = true -> count is_dial (events_of run) = 0).
Proof.
  cbv zeta. split_request w request_jira_id m;
    (split; [eexists; reflexivity|]); count_events;
    repeat split; try lia; try discriminate.
Qed.

(** X16.  The response says the JIRA number is valid exactly when the number is
    not blank, is found, and the template read is a text; the prompt is then
    the template with every question mark replaced by the stripped number.  A
    number that is found is therefore reported as not valid when the template
    cannot be read.  A request reported as not valid has an error text and no
    prompt, has touched neither the extension nor the manager, and has saved
    nothing. *)
Theorem valid_means_found_and_templated
    (w : inject_world) (request_jira_id : string) (m : manager) :
  let run := inject_and_save_prompt w request_jira_id m in
  match response_of run with
  | Raise _ => False
  | Ok r =>
      (isValidJiraId r = true <-> exists template, accepted w request_jira_id template) /\
      (forall template,
         accepted w request_jira_id template ->
         genratedPrompt r = Some (replace template "?" (strip request_jira_id))) /\
      (isValidJiraId r = false ->
       isPromptInjectVScode r = false /\ genratedPrompt r = None /\
       error r <> None /\ manager_after run = m /\
       forall ev, In ev (events_of run) -> is_read ev)
  end.
Proof.
  cbv zeta. split_request w request_jira_id m.
  1: { split; [split; [discriminate|intros [t H]; now apply Hno in H]|].
       split; [intros t H; now apply Hno in H|].
       intros _. repeat split; try discriminate. exact Hreads. }
  all: split; [split; [intros _; now exists template|reflexivity]|];
    (split; [|discriminate]);
    intros t (_ & _ & Ht); destruct Hacc as (_ & _ & Ht');
    rewrite Ht' in Ht; now injection Ht as <-.
Qed.

(** X17.  A request that passes the first two steps always reaches the save:
    the prompt is never empty, so the test before the save never fails, and the
    events end with those of [save_prompt], which start with an attempt.  What
    the save meets does not show: with any other database at that time the
    response and the manager are the same. *)
Theorem accepted_prompt_is_always_saved
    (w : inject_world) (request_jira_id : string) (m : manager)
    (db : Database.db_world) :
  let run := inject_and_save_prompt w request_jira_id m in
  let jira_id := strip request_jira_id in
  (forall template,
     accepted w request_jira_id template ->
     replace template "?" jira_id <> "" /\
     In (EvDb SavePrompt (Database.EvAttempt 0)) (events_of run) /\
     exists before,
       events_of run
       = before ++
         db_events SavePrompt
           (snd (save_prompt (on_save w) DB_PATH jira_id (replace template "?" jira_id)))
       /\ forall h ev, In (EvDb h ev) before -> h <> SavePrompt) /\
  response_of (inject_and_save_prompt (with_save w db) request_jira_id m)
  = response_of run /\
  manager_after (inject_and_save_prompt (with_save w db) request_jira_id m)
  = manager_after run.
Proof.
  cbv zeta. split.
  - intros t Ht. split.
    { destruct Ht as (Hj & _ & Ht).
      apply replace_nonempty; [|exact Hj].
      destruct (get_prompt_template _ _ _) as [a tr] eqn:Hg. cbn [fst] in Ht. subst a.
      apply template_is_true in Hg. cbn [truthy] in Hg.
      now apply negb_true_iff, eqb_empty in Hg. }
    split_request w request_jira_id m; [now apply Hno in Ht|..].
    all: destruct Ht as (_ & _ & Ht); destruct Hacc as (_ & _ & Ht');
      rewrite Ht' in Ht; injection Ht as <-.
    all: destruct (save_starts (on_save w) DB_PATH (strip request_jira_id)
                     (replace template "?" (strip request_jira_id))) as [rest Hs].
    all: split;
      [ rewrite Hs; apply in_or_app; right; apply in_or_app; right; now left
      | eexists; split; [rewrite app_assoc; reflexivity|] ].
    all: intros h ev [H|H]%in_app_or;
      [ apply Hreads in H as (h' & e' & [= <- <-] & Hh); exact Hh
      | cbn in H; repeat destruct H as [H|H]; try discriminate H; contradiction ].
  - unfold inject_and_save_prompt. cbv zeta.
    cbn [with_save on_check on_template on_save].
    destruct (String.eqb _ _); [split; reflexivity|].
    destruct (check_jira_exists _ _ _) as [[[|]|] ?]; try (split; reflexivity).
    destruct (get_prompt_template _ _ _) as [[v|] ?]; try (split; reflexivity).
    destruct (call_replace _ _) as [p|]; try (split; reflexivity).
    assert (Hsame : inject (with_save w db) p m = inject w p m) by reflexivity.
    rewrite Hsame. destruct (inject w p m) as [[[|] ?] ?]; split; reflexivity.
Qed.

(** X18.  The endpoint does not touch a manager whose flag is up, and whenever
    it has written to a connection the flag is up afterwards, whatever became
    of the write: a connection found closed here stays marked as connected.
    The manager changes only through the one call of [connect]. *)
Theorem inject_endpoint_keeps_the_flag
    (w : inject_world) (request_jira_id : string) (m : manager) :
  let run := inject_and_save_prompt w request_jira_id m in
  (is_connected m = true -> manager_after run = m) /\
  (forall id text,
     In (EvWs (EvSend id text)) (events_of run) ->
     is_connected (manager_after run) = true) /\
  (manager_after run = m \/
   is_connected m = false /\ manager_after run = state_of (connect (bridge w) m)).
Proof.
  cbv zeta. split_request w request_jira_id m.
  1: { split; [reflexivity|]. split; [|now left].
       intros id text H. apply Hreads in H as (h & e & [=] & _). }
  1,2: split; [reflexivity|]; (split; [intros; exact Hflag|now left]).
  all: split; [discriminate|]; split.
  1,3: intros id' text [H|H]%in_app_or;
    [ apply Hreads in H as (h & e & [=] & _)
    | apply in_app_or in H as [H|H];
      [ cbn in H; repeat destruct H as [H|H]; try discriminate H; try contradiction;
        reflexivity
      | unfold db_events in H; apply in_map_iff in H as (e & [=] & _) ] ].
  all: right; split; [reflexivity|];
    cbv beta iota zeta delta
      [connect bind try_except ret raise set_is_connected set_ws_client
       websockets_connect state_of];
    rewrite Hconnect; reflexivity.
Qed.

Lemma write_in_step3 (before : list event) (tr3 : list Bridge.event)
    (h : helper) (tr4 : Database.trace) (id : nat) (text : ustr) :
  (forall ev, In ev before -> is_read ev) ->
  In (EvWs (EvSend id text)) (before ++ ws_events tr3 ++ db_events h tr4) ->
  In (EvSend id text) tr3.
Proof.
  intros Hreads [H|H]%in_app_or.
  - apply Hreads in H as (h' & e & [=] & _).
  - apply in_app_or in H as [H|H].
    + unfold ws_events in H. apply in_map_iff in H as (e & [= ->] & H). exact H.
    + unfold db_events in H. apply in_map_iff in H as (e & [=] & _).
Qed.

(** The flag [isPromptInjectVScode] against the events: it is set exactly when
    the text of the envelope was written and the write went through. *)
Lemma written_and_sent
    (w : inject_world) (request_jira_id : string) (m : manager) :
  let run := inject_and_save_prompt w request_jira_id m in
  match response_of run with
  | Raise _ => False
  | Ok r =>
      (isPromptInjectVScode r = true <->
       exists id generated_prompt,
         genratedPrompt r = Some generated_prompt /\
         In (EvWs (EvSend id (dumps (request_message w generated_prompt))))
            (events_of run) /\
         on_send (bridge w) (dumps (request_message w generated_prompt)) = Sent) /\
      (isValidJiraId r = true ->
       (error r = None <-> isPromptInjectVScode r = true))
  end.
Proof.
  cbv zeta. split_request w request_jira_id m.
  - split; [|discriminate]. split; [discriminate|].
    intros (id & p & [=] & _).
  - split.
    + split.
      * intros Hb. destruct (on_send (bridge w) _) eqn:Hsend; try discriminate Hb.
        eexists; eexists. split; [reflexivity|]. split; [|exact Hsend].
        apply in_or_app; right; apply in_or_app; left. now left.
      * intros (id' & p & Hp & _ & Hsent).
        apply (f_equal (fun o => match o with Some x => x | None => p end)) in Hp.
        cbn beta iota in Hp. subst p. now rewrite Hsent.
    + intros _. destruct (on_send (bridge w) _); cbn [negb]; split; congruence.
  - split.
    + split; [discriminate|].
      intros (id' & p & _ & Hin & _).
      apply write_in_step3 in Hin; [destruct Hin|exact Hreads].
    + intros _. cbn [negb]. split; discriminate.
  - split.
    + split.
      * intros Hb. destruct (on_send (bridge w) _) eqn:Hsend; try discriminate Hb.
        eexists; eexists. split; [reflexivity|]. split; [|exact Hsend].
        apply in_or_app; right; apply in_or_app; left. right. now left.
      * intros (id' & p & Hp & _ & Hsent).
        apply (f_equal (fun o => match o with Some x => x | None => p end)) in Hp.
        cbn beta iota in Hp. subst p. now rewrite Hsent.
    + intros _. destruct (on_send (bridge w) _); cbn [negb]; split; congruence.
  - split.
    + split; [discriminate|].
      intros (id' & p & _ & Hin & _).
      apply write_in_step3 in Hin; [|exact Hreads].
      destruct Hin as [H|[]]. discriminate H.
    + intros _. cbn [negb]. split; discriminate.
Qed.

(** X19.  The response says the prompt was injected exactly when the envelope
    was written to the connection and the write went through.  The envelope is
    the dictionary with ["type"] "copilot_request", ["requestId"] the first
    reading of the clock, ["prompt"] the generated prompt and ["timestamp"] the
    second reading of the clock, in this order, as JSON text.  For a valid JIRA
    number the error text is absent exactly in that case. *)
Theorem injected_means_written
    (w : inject_world) (request_jira_id : string) (m : manager) :
  let run := inject_and_save_prompt w request_jira_id m in
  let envelope (generated_prompt : string) :=
    JDict [ (lit "type", JStr (lit "copilot_request"));
            (lit "requestId", JStr (lit (isoformat (request_id_at w))));
            (lit "prompt", JStr (lit generated_prompt));
            (lit "timestamp", JStr (lit (isoformat (timestamp_at w)))) ] in
  match response_of run with
  | Raise _ => False
  | Ok r =>
      (isPromptInjectVScode r = true <->
       exists id generated_prompt,
         genratedPrompt r = Some generated_prompt /\
         In (EvWs (EvSend id (dumps (envelope generated_prompt)))) (events_of run) /\
         on_send (bridge w) (dumps (envelope generated_prompt)) = Sent) /\
      (isValidJiraId r = true ->
       (error r = None <-> isPromptInjectVScode r = true))
  end.
Proof. exact (written_and_sent w request_jira_id m). Qed.

End InjectFacts.

(* ================================================================= *)
(** * Properties of the provider factory *)

Module ProviderFacts.
Import Providers.
Local Open Scope string_scope.
Local Open Scope list_scope.

(** ** The code on small inputs *)

Example unknown_provider :
  create_provider (environment []) "Mistral" []
  = (inr "Unknown provider: mistral. Available: openai, claude, gemini, ollama", []).
Proof. reflexivity. Qed.

Example only_openai_configured :
  fst (get_available_providers (environment [("OPENAI_API_KEY", "sk-1")]) [])
  = [("openai", true); ("claude", false); ("gemini", false); ("ollama", true)].
Proof. reflexivity. Qed.

Example ollama_switched_off :
  fst (get_available_providers (environment [("OLLAMA_BASE_URL", "")]) [])
  = [("openai", false); ("claude", false); ("gemini", false); ("ollama", false)].
Proof. reflexivity. Qed.

(** ** Dictionaries *)

Lemma lookup_store_same {A : Type} (k : string) (v : A) (d : list (string * A)) :
  lookup k (store k v d) = Some v.
Proof.
  induction d as [|[k' v'] d IH]; cbn [store lookup].
  - now rewrite String.eqb_refl.
  - destruct (String.eqb k' k) eqn:E; cbn [lookup].
    + now rewrite String.eqb_refl.
    + now rewrite E.
Qed.

Lemma lookup_store_other {A : Type} (k k' : string) (v : A) (d : list (string * A)) :
  k <> k' -> lookup k (store k' v d) = lookup k d.
Proof.
  intros Hk. induction d as [|[k0 v0] d IH]; cbn [store lookup].
  - destruct (String.eqb k' k) eqn:E; [apply String.eqb_eq in E; congruence|reflexivity].
  - destruct (String.eqb k0 k') eqn:E; cbn [lookup].
    + apply String.eqb_eq in E. subst k0.
      destruct (String.eqb k' k) eqn:E'; [apply String.eqb_eq in E'; congruence|reflexivity].
    + now rewrite IH.
Qed.

(** ** [str.lower] applied twice *)

Lemma lower_char_twice (c : ascii) :
  Database.lower_char (Database.lower_char c) = Database.lower_char c.
Proof. destruct c as [[] [] [] [] [] [] [] []]; reflexivity. Qed.

Lemma lower_twice (s : string) : Database.lower (Database.lower s) = Database.lower s.
Proof.
  induction s as [|c s IH]; [reflexivity|].
  cbn [Database.lower]. now rewrite lower_char_twice, IH.
Qed.

(** ** One call of [create_provider] *)

Lemma create_known (env : environ) (name : string) (c : instances) :
  known name ->
  exists p,
    fst (create_provider env name c) = inl p /\
    lookup name (snd (create_provider env name c)) = Some p.
Proof.
  intros [Hl Hk]. unfold create_provider. cbv zeta. rewrite Hl.
  destruct (lookup name c) as [i|] eqn:Hc.
  - exists i. split; [reflexivity|exact Hc].
  - destruct (lookup name _providers) as [cls|]; [|congruence].
    eexists. split; [reflexivity|]. cbn [snd]. apply lookup_store_same.
Qed.

Lemma create_hit (env : environ) (name : string) (c : instances) (p : provider) :
  lookup (Database.lower name) c = Some p ->
  create_provider env name c = (inl p, c).
Proof. intros H. unfold create_provider. cbv zeta. now rewrite H. Qed.

Lemma create_keeps (env : environ) (name k : string) (c : instances) (p : provider) :
  lookup k c = Some p ->
  lookup k (snd (create_provider env name c)) = Some p.
Proof.
  intros H. unfold create_provider. cbv zeta.
  destruct (lookup (Database.lower name) c) as [i|] eqn:Hc; [exact H|].
  destruct (lookup (Database.lower name) _providers) as [cls|]; [|exact H].
  cbn [snd]. rewrite lookup_store_other; [exact H|]. congruence.
Qed.

Lemma check_keeps (env : environ) (names : list string) (status : list (string * bool))
    (c : instances) (k : string) (p : provider) :
  lookup k c = Some p ->
  lookup k (snd (check_providers env names status c)) = Some p.
Proof.
  revert status c. induction names as [|n names IH]; intros status c H; [exact H|].
  cbn [check_providers].
  pose proof (create_keeps env n k c p H) as Hk.
  destruct (create_provider env n c) as [[i|msg] c1]; cbn [snd] in Hk; now apply IH.
Qed.

Lemma check_again (env1 env2 : environ) (names : list string)
    (status : list (string * bool)) (c : instances) :
  (forall n, In n names -> known n) ->
  check_providers env2 names status (snd (check_providers env1 names status c))
  = check_providers env1 names status c.
Proof.
  revert status c. induction names as [|n names IH]; intros status c Hn; [reflexivity|].
  cbn [check_providers].
  destruct (create_known env1 n c (Hn n (or_introl eq_refl))) as (p & Hp & Hc).
  destruct (create_provider env1 n c) as [r c1]. cbn [fst snd] in Hp, Hc. subst r.
  pose proof (check_keeps env1 names (store n (is_available p) status) c1 n p Hc) as Hk.
  rewrite (create_hit env2 n _ p).
  - apply IH. intros n' H. apply Hn. now right.
  - destruct (Hn n (or_introl eq_refl)) as [-> _]. exact Hk.
Qed.

Lemma names_known (n : string) : In n (keys _providers) -> known n.
Proof.
  cbn. intros [<-|[<-|[<-|[<-|[]]]]]; (split; [reflexivity|discriminate]).
Qed.

Lemma check_keys (env : environ) (c : instances) :
  keys (fst (get_available_providers env c)) = keys _providers.
Proof.
  unfold get_available_providers. cbn [keys _providers map fst check_providers].
  repeat match goal with
         | |- context [create_provider ?e ?n ?c] =>
             destruct (create_provider e n c) as [[?|?] ?]
         end; reflexivity.
Qed.

(** X20.  [get_available_providers] answers for the four providers, in the
    order of [_providers], and what it answers is frozen by the cache: a second
    call gives the answer of the first and leaves the cache as it is, whatever
    the environment has become in between.  A key set after the first call
    does not show. *)
Theorem availability_is_frozen_by_the_cache
    (env1 env2 : environ) (c : instances) :
  let first := get_available_providers env1 c in
  keys (fst first) = ["openai"; "claude"; "gemini"; "ollama"] /\
  get_available_providers env2 (snd first) = first.
Proof.
  cbv zeta. split; [apply check_keys|].
  unfold get_available_providers. apply check_again. apply names_known.
Qed.

(** X21.  On an empty cache, and so after [clear_cache], the answer is read
    from the environment: the three hosted providers are available when their
    key is set to a text that is not empty, and Ollama is available unless
    [OLLAMA_BASE_URL] is set to the empty text. *)
Theorem cleared_cache_reads_the_environment
    (env : environ) (c : instances) :
  fst (get_available_providers env (clear_cache c))
  = [ ("openai", bool_str (env "OPENAI_API_KEY"));
      ("claude", bool_str (env "ANTHROPIC_API_KEY"));
      ("gemini", bool_str (env "GOOGLE_API_KEY"));
      ("ollama", match env "OLLAMA_BASE_URL" with
                 | Some "" => false
                 | _ => true
                 end) ].
Proof.
  unfold clear_cache. cbv - [bool_str String.eqb].
  destruct (env "OLLAMA_BASE_URL") as [[|a s]|]; reflexivity.
Qed.

(** X22.  [create_provider] does not tell upper case from lower case.  When it
    returns an instance, every later call for that name returns the same
    instance and leaves the cache as it is, whatever the environment; when it
    raises, the name in lower case is none of the four, the message lists them,
    and the cache is as before. *)
Theorem create_provider_caches_by_lower_case_name
    (env : environ) (provider_name : string) (c : instances) :
  let run := create_provider env provider_name c in
  create_provider env (Database.lower provider_name) c = run /\
  match fst run with
  | inl p =>
      forall env' again,
        Database.lower again = Database.lower provider_name ->
        create_provider env' again (snd run) = (inl p, snd run)
  | inr msg =>
      lookup (Database.lower provider_name) _providers = None /\
      msg = ("Unknown provider: " ++ Database.lower provider_name
             ++ ". Available: openai, claude, gemini, ollama")%string /\
      snd run = c
  end.
Proof.
  cbv zeta. split.
  { unfold create_provider. cbv zeta. now rewrite lower_twice. }
  assert (Hrun : create_provider env provider_name c
                 = match lookup (Database.lower provider_name) c with
                   | Some i => (inl i, c)
                   | None =>
                       match lookup (Database.lower provider_name) _providers with
                       | None =>
                           (inr ("Unknown provider: " ++ Database.lower provider_name
                                 ++ ". Available: openai, claude, gemini, ollama")%string,
                            c)
                       | Some cls =>
                           (inl (construct env cls),
                            store (Database.lower provider_name) (construct env cls) c)
                       end
                   end) by reflexivity.
  rewrite Hrun.
  destruct (lookup (Database.lower provider_name) c) as [i|] eqn:Hc; cbn [fst snd].
  - intros env' again Ha. apply create_hit. now rewrite Ha.
  - destruct (lookup (Database.lower provider_name) _providers) as [cls|] eqn:Hp;
      cbn [fst snd].
    + intros env' again Ha. apply create_hit. rewrite Ha. apply lookup_store_same.
    + repeat split.
Qed.

End ProviderFacts.

(* ================================================================= *)
(** * Properties of [chat_with_ai] *)

Module MultiEndpointFacts.
Import Json Bridge Lifecycle Providers MultiEndpoint BridgeFacts.
Local Open Scope string_scope.
Local Open Scope list_scope.

(** ** The code on small inputs *)

(** No reply in time: the client sees 504. *)
Example bridge_timeout_is_504 :
  outcome_of (chat_with_ai (unconfigured silent_peer) (ask VSCODE_BRIDGE)
                connected_manager [])
  = Fails 504 (JStr (lit "Timeout waiting for response after 1 seconds")).
Proof. vm_compute. reflexivity. Qed.

(** No key for the provider: 503, and the instance stays in the cache. *)
Example provider_without_key :
  outcome_of (chat_with_ai (unconfigured silent_peer) (ask CLAUDE_SONNET) init [])
  = Fails 503 (JStr (lit "CLAUDE is not configured. Please set up API key.")) /\
  keys (cache_of (chat_with_ai (unconfigured silent_peer) (ask CLAUDE_SONNET) init []))
  = ["claude"].
Proof. split; vm_compute; reflexivity. Qed.

(** Ollama needs no key: the failure of its API is answered, not raised. *)
Example ollama_unreachable :
  outcome_of (chat_with_ai (unconfigured silent_peer) (ask OLLAMA_MISTRAL) init [])
  = Responds (answer_error (unconfigured silent_peer) (ask OLLAMA_MISTRAL)
                (lit "unreachable")).
Proof. vm_compute. reflexivity. Qed.

(** ** The routing table *)

Lemma bridge_model (model : ModelProvider) :
  is_bridge model = true -> model = VSCODE_BRIDGE.
Proof. destruct model; (reflexivity || discriminate). Qed.

(** Every model of the enumeration but the bridge has a route, to a provider
    the factory knows. *)
Lemma routed (model : ModelProvider) :
  is_bridge model = false ->
  exists provider_key model_name,
    lookup (value model) MODEL_ROUTING = Some (provider_key, model_name) /\
    known provider_key.
Proof.
  destruct model; intros H; try discriminate H;
    eexists; eexists; (split; [reflexivity|]); (split; [reflexivity|discriminate]).
Qed.

Lemma create_routed (env : environ) (provider_key : string) (c : instances) :
  known provider_key ->
  exists p, create_provider env provider_key c
            = (inl p, snd (create_provider env provider_key c)).
Proof.
  intros Hk. destruct (ProviderFacts.create_known env provider_key c Hk) as (p & Hp & _).
  exists p. destruct (create_provider env provider_key c) as [r c1].
  cbn [fst snd] in *. now subst r.
Qed.

Lemma equals_str_eq (v : json) (s : string) :
  Endpoint.equals_str v s = true -> v = JStr (lit s).
Proof.
  destruct v; cbn [Endpoint.equals_str]; try discriminate.
  intros H. apply EndpointFacts.ustr_eqb_eq in H. now subst.
Qed.

(** Run one request symbolically, splitting on what the outside does. *)
Ltac unfold_chat :=
  cbv beta iota zeta delta [outcome_of manager_of cache_of events_of];
  unfold_ops;
  cbn [fst snd].

Ltac split_chat :=
  repeat (unfold_chat;
          match goal with
          | |- context [match on_connect ?w with _ => _ end] =>
              destruct (on_connect w) eqn:?
          | |- context [match on_send ?w ?t with _ => _ end] =>
              destruct (on_send w t) eqn:?
          | |- context [match on_recv ?w ?t ?T with _ => _ end] =>
              destruct (on_recv w t T) eqn:?
          | |- context [match loads ?r with _ => _ end] =>
              destruct (loads r) eqn:?
          | |- context [if Endpoint.equals_str ?v ?s then _ else _] =>
              destruct (Endpoint.equals_str v s) eqn:?
          | |- context [match ?x with _ => _ end] => is_var x; destruct x
          end);
  unfold_chat.

(** Split on the branch a request takes; on the second, the route and the
    instance are named. *)
Ltac split_branch w request m c :=
  unfold chat_with_ai;
  destruct (is_bridge (model request)) eqn:Hbridge;
  [ destruct m as [[ws|] [|]]
  | let key := fresh "route_key" in
    let name := fresh "route_model" in
    let Hr := fresh "Hroute" in
    let Hk := fresh "Hknown" in
    let p := fresh "p" in
    let Hc := fresh "Hcreate" in
    destruct (routed _ Hbridge) as (key & name & Hr & Hk);
    rewrite Hr;
    destruct (create_routed (env w) key c Hk) as (p & Hc);
    rewrite Hc ].

Lemma ustr_eqb_refl (s : ustr) : ustr_eqb s s = true.
Proof. induction s as [|c s IH]; cbn [ustr_eqb]; [reflexivity|]. now rewrite N.eqb_refl. Qed.

Lemma equals_str_neq (v : json) (s : string) :
  Endpoint.equals_str v s = false -> v <> JStr (lit s).
Proof. intros H ->. cbn [Endpoint.equals_str] in H. now rewrite ustr_eqb_refl in H. Qed.

(** The two responses the [return] at the end of the [try] comes to. *)
Lemma answer_cases (w : chat_world) (request : PromptRequest) (v : json) (name : string) :
  (exists text,
     answer w request v name
     = {| success := true; response := text;
          response_prompt := prompt request;
          response_model := value (model request);
          provider_name := name;
          timestamp := isoformat (answered_at w);
          error := None;
          metadata :=
            Some [ ("temperature", json_of_temperature (temperature request));
                   ("max_tokens", json_of_max_tokens (max_tokens request)) ] |} /\
     forall s, v = JStr s -> text = s)
  \/ (exists msg, answer w request v name = answer_error w request msg).
Proof.
  unfold answer.
  destruct v; try (destruct (coerce_str w _) as [text|msg];
                   [ left; exists text; split; [reflexivity|discriminate]
                   | right; exists msg; reflexivity ]).
  left. eexists. split; [reflexivity|]. now intros s0 [= ->].
Qed.

(** X23.  [chat_with_ai] fails with status 503, 504 or 500 and never with 400:
    every model of the enumeration has a route.  With the bridge it is 503 when
    the extension cannot be reached or the connection is closed, 504 when no
    reply comes in time, and 500 when the extension replies with an error,
    whose text is the detail.  With a provider it is 503, when the provider is
    not configured. *)
Theorem chat_with_ai_fails_with_503_504_or_500
    (w : chat_world) (request : PromptRequest) (m : manager) (c : instances)
    (status_code : Z) (detail : json) :
  outcome_of (chat_with_ai w request m c) = Fails status_code detail ->
  (model request = VSCODE_BRIDGE /\
   (status_code = 503%Z /\
    (detail = JStr (lit "VS Code Copilot bridge is not available. Please ensure the VS Code extension is running.")
     \/ detail = JStr (lit "Connection to VS Code bridge was closed"))
    \/
    status_code = 504%Z /\
    detail = JStr (lit "Timeout waiting for response after "
                   ++ lit (str_of_Z (timeout request)) ++ lit " seconds")
    \/
    status_code = 500%Z /\
    exists raw d,
      on_recv (bridge w) (dumps (envelope w request)) (timeout request) = Receives raw /\
      loads raw = Some (JDict d) /\
      get d "type" JNull = JStr (lit "error") /\
      detail = get d "error" (JStr (lit "Unknown error from VS Code bridge"))))
  \/
  (exists provider_key model_name,
     lookup (value (model request)) MODEL_ROUTING = Some (provider_key, model_name) /\
     status_code = 503%Z /\
     detail = JStr (lit (upper provider_key ++ " is not configured. Please set up API key."))).
Proof.
  intros H.
  assert (Hshape :
    match outcome_of (chat_with_ai w request m c) with
    | Responds _ => True
    | Fails status_code detail =>
        (model request = VSCODE_BRIDGE /\
         (status_code = 503%Z /\
          (detail = JStr (lit "VS Code Copilot bridge is not available. Please ensure the VS Code extension is running.")
           \/ detail = JStr (lit "Connection to VS Code bridge was closed"))
          \/
          status_code = 504%Z /\
          detail = JStr (lit "Timeout waiting for response after "
                         ++ lit (str_of_Z (timeout request)) ++ lit " seconds")
          \/
          status_code = 500%Z /\
          exists raw d,
            on_recv (bridge w) (dumps (envelope w request)) (timeout request)
            = Receives raw /\
            loads raw = Some (JDict d) /\
            get d "type" JNull = JStr (lit "error") /\
            detail = get d "error" (JStr (lit "Unknown error from VS Code bridge"))))
        \/
        (exists provider_key model_name,
           lookup (value (model request)) MODEL_ROUTING
           = Some (provider_key, model_name) /\
           status_code = 503%Z /\
           detail = JStr (lit (upper provider_key
                               ++ " is not configured. Please set up API key.")))
    end).
  { clear H. split_branch w request m c.
    5: { unfold_chat. destruct (is_available p); cbn [negb].
         - destruct (generate w p _ _ _ _); exact I.
         - right. do 2 eexists. split; [reflexivity|]. split; reflexivity. }
    all: apply bridge_model in Hbridge; split_chat; try exact I.
    all: left; (split; [exact Hbridge|]);
      first [ left; split; [reflexivity|]; (left + right); reflexivity
            | right; left; split; reflexivity
            | right; right; split; [reflexivity|];
              do 2 eexists; split; [eassumption|]; split; [eassumption|];
              split; [now apply equals_str_eq|reflexivity] ]. }
  now rewrite H in Hshape.
Qed.

Lemma chat_with_ai_fails_with_503_504_or_500_witness :
  outcome_of (chat_with_ai (unconfigured silent_peer) (ask CLAUDE_SONNET) init [])
  = Fails 503 (JStr (lit "CLAUDE is not configured. Please set up API key.")) /\
  exists provider_key model_name,
    lookup (value (model (ask CLAUDE_SONNET))) MODEL_ROUTING
    = Some (provider_key, model_name) /\
    503%Z = 503%Z /\
    JStr (lit "CLAUDE is not configured. Please set up API key.")
    = JStr (lit (upper provider_key ++ " is not configured. Please set up API key.")).
Proof.
  split; [vm_compute; reflexivity|].
  destruct (chat_with_ai_fails_with_503_504_or_500
              (unconfigured silent_peer) (ask CLAUDE_SONNET) init [] 503
              (JStr (lit "CLAUDE is not configured. Please set up API key.")) eq_refl)
    as [[Hm _]|H]; [discriminate Hm|exact H].
Defined.

(** X24.  What [chat_with_ai] answers.  A response with [success] false comes
    from the [except] clause: its provider is "error", its text is empty and it
    has an error text.  A response with [success] true has no error text and
    carries the two options of the request; with the bridge it stands for a
    reply of type "copilot_response", or for a reply of any type other than
    that and "error", and then the text and the name of the provider are both
    empty; with a provider the name is the key of the provider in upper case
    and the name of the model. *)
Theorem chat_with_ai_answers
    (w : chat_world) (request : PromptRequest) (m : manager) (c : instances)
    (r : AIResponse) :
  outcome_of (chat_with_ai w request m c) = Responds r ->
  response_prompt r = prompt request /\
  response_model r = value (model request) /\
  timestamp r = isoformat (answered_at w) /\
  (success r = false ->
   provider_name r = "error" /\ response r = [] /\ metadata r = None /\
   error r <> None) /\
  (success r = true ->
   error r = None /\
   metadata r = Some [ ("temperature", json_of_temperature (temperature request));
                       ("max_tokens", json_of_max_tokens (max_tokens request)) ] /\
   ((model request = VSCODE_BRIDGE /\
     exists raw d,
       on_recv (bridge w) (dumps (envelope w request)) (timeout request) = Receives raw /\
       loads raw = Some (JDict d) /\
       (get d "type" JNull = JStr (lit "copilot_response") /\
        provider_name r = "VS Code Copilot"
        \/
        get d "type" JNull <> JStr (lit "copilot_response") /\
        get d "type" JNull <> JStr (lit "error") /\
        provider_name r = "" /\ response r = []))
    \/
    (exists provider_key model_name,
       lookup (value (model request)) MODEL_ROUTING = Some (provider_key, model_name) /\
       provider_name r = (upper provider_key ++ " - " ++ model_name)%string))).
Proof.
  intros H.
  assert (Hshape :
    match outcome_of (chat_with_ai w request m c) with
    | Fails _ _ => True
    | Responds r =>
        response_prompt r = prompt request /\
        response_model r = value (model request) /\
        timestamp r = isoformat (answered_at w) /\
        (success r = false ->
         provider_name r = "error" /\ response r = [] /\ metadata r = None /\
         error r <> None) /\
        (success r = true ->
         error r = None /\
         metadata r = Some [ ("temperature", json_of_temperature (temperature request));
                             ("max_tokens", json_of_max_tokens (max_tokens request)) ] /\
         ((model request = VSCODE_BRIDGE /\
           exists raw d,
             on_recv (bridge w) (dumps (envelope w request)) (timeout request)
             = Receives raw /\
             loads raw = Some (JDict d) /\
             (get d "type" JNull = JStr (lit "copilot_response") /\
              provider_name r = "VS Code Copilot"
              \/
              get d "type" JNull <> JStr (lit "copilot_response") /\
              get d "type" JNull <> JStr (lit "error") /\
              provider_name r = "" /\ response r = []))
          \/
          (exists provider_key model_name,
             lookup (value (model request)) MODEL_ROUTING
             = Some (provider_key, model_name) /\
             provider_name r = (upper provider_key ++ " - " ++ model_name)%string)))
    end).
  { clear H.
    assert (Herr : forall text,
      let r := answer_error w request text in
      response_prompt r = prompt request /\
      response_model r = value (model request) /\
      timestamp r = isoformat (answered_at w) /\
      (success r = false ->
       provider_name r = "error" /\ response r = [] /\ metadata r = None /\
       error r <> None) /\
      (success r = true ->
       error r = None /\
       metadata r = Some [ ("temperature", json_of_temperature (temperature request));
                           ("max_tokens", json_of_max_tokens (max_tokens request)) ] /\
       ((model request = VSCODE_BRIDGE /\
         exists raw d,
           on_recv (bridge w) (dumps (envelope w request)) (timeout request)
           = Receives raw /\
           loads raw = Some (JDict d) /\
           (get d "type" JNull = JStr (lit "copilot_response") /\
            provider_name r = "VS Code Copilot"
            \/
            get d "type" JNull <> JStr (lit "copilot_response") /\
            get d "type" JNull <> JStr (lit "error") /\
            provider_name r = "" /\ response r = []))
        \/
        (exists provider_key model_name,
           lookup (value (model request)) MODEL_ROUTING
           = Some (provider_key, model_name) /\
           provider_name r = (upper provider_key ++ " - " ++ model_name)%string)))).
    { intros text. cbv zeta. cbn. repeat split; discriminate. }
    split_branch w request m c.
    5: { unfold_chat. destruct (is_available p); cbn [negb]; [|exact I].
         destruct (generate w p _ _ _ _) as [v|msg]; unfold_chat;
           [|rewrite <- Hroute; apply Herr].
         destruct (answer_cases w request v (upper route_key ++ " - " ++ route_model))
           as [(text & -> & _)|(msg & ->)]; [|rewrite <- Hroute; apply Herr].
         cbn [success response response_prompt response_model provider_name
              timestamp error metadata].
         (split; [reflexivity|]); (split; [reflexivity|]); (split; [reflexivity|]);
         (split; [discriminate|]); intros _;
         (split; [reflexivity|]); (split; [reflexivity|]).
         right. do 2 eexists. split; reflexivity. }
    all: apply bridge_model in Hbridge; split_chat; try exact I; try apply Herr.
    all: match goal with
         | |- context [answer ?w ?rq ?v ?n] =>
             destruct (answer_cases w rq v n) as [(text & -> & Htext)|(msg & ->)];
             [|apply Herr]
         end.
    all: cbn [success response response_prompt response_model provider_name
              timestamp error metadata];
      (split; [reflexivity|]); (split; [reflexivity|]); (split; [reflexivity|]);
      (split; [discriminate|]); intros _;
      (split; [reflexivity|]); (split; [reflexivity|]);
      left; (split; [exact Hbridge|]);
      do 2 eexists; (split; [eassumption|]); (split; [eassumption|]).
    all: first
      [ left; split; [now apply equals_str_eq|reflexivity]
      | right; split; [now apply equals_str_neq|];
        split; [now apply equals_str_neq|]; split; [reflexivity|];
        now apply Htext ]. }
  now rewrite H in Hshape.
Qed.

Lemma chat_with_ai_answers_witness :
  outcome_of (chat_with_ai (unconfigured silent_peer) (ask OLLAMA_MISTRAL) init [])
  = Responds (answer_error (unconfigured silent_peer) (ask OLLAMA_MISTRAL)
                (lit "unreachable")) /\
  response_model (answer_error (unconfigured silent_peer) (ask OLLAMA_MISTRAL)
                    (lit "unreachable"))
  = "ollama-mistral".
Proof.
  split; [vm_compute; reflexivity|].
  exact (proj1 (proj2 (chat_with_ai_answers
                         (unconfigured silent_peer) (ask OLLAMA_MISTRAL) init [] _
                         eq_refl))).
Defined.

(** X25.  A request for the bridge leaves the cache of the factory alone, and
    the envelope it writes holds the two options of the request as they are,
    [None] as [null]: the defaults of [send_prompt] are never used from here.
    A request for any other model leaves the manager alone, calls nothing of
    the extension, and always gets an instance from the factory, which is in
    the cache afterwards. *)
Theorem chat_with_ai_keeps_to_its_branch
    (w : chat_world) (request : PromptRequest) (m : manager) (c : instances) :
  let run := chat_with_ai w request m c in
  (model request = VSCODE_BRIDGE ->
   cache_of run = c /\
   forall id text, In (EvSend id text) (events_of run) -> text = dumps (envelope w request)) /\
  (model request <> VSCODE_BRIDGE ->
   manager_of run = m /\ events_of run = [] /\
   exists provider_key model_name p,
     lookup (value (model request)) MODEL_ROUTING = Some (provider_key, model_name) /\
     create_provider (env w) provider_key c = (inl p, cache_of run)).
Proof.
  cbv zeta. split.
  - intros Hm. unfold chat_with_ai. rewrite Hm. cbn [is_bridge].
    destruct m as [[ws|] [|]]; split_chat;
      (split; [reflexivity|]); intros id' text Hin; cbn [In] in Hin;
      repeat match goal with
             | H : _ \/ _ |- _ => destruct H as [H|H]
             | H : False |- _ => destruct H
             | H : EvConnect = EvSend _ _ |- _ => discriminate H
             | H : EvRecv _ _ = EvSend _ _ |- _ => discriminate H
             end;
      match goal with
      | H : EvSend _ ?t = EvSend _ text |- _ =>
          apply (f_equal (fun ev => match ev with EvSend _ t' => t' | _ => text end)) in H;
          cbn beta iota in H; rewrite <- H; reflexivity
      end.
  - intros Hm. split_branch w request m c.
    1-4: apply bridge_model in Hbridge; contradiction.
    destruct (is_available p); cbn [negb]; [destruct (generate w p _ _ _ _)|];
      unfold_chat; (split; [reflexivity|]); (split; [reflexivity|]);
      exists route_key, route_model, p; (split; [reflexivity|]); exact Hcreate.
Qed.

End MultiEndpointFacts.

(* ================================================================= *)
(** * Properties of [health_check] *)

Module HealthFacts.
Import Database DatabaseHelpers Bridge Health.
Local Open Scope string_scope.
Local Open Scope list_scope.

(** A database whose table of JIRA numbers is missing still answers the test
    statement. *)
Example empty_result_is_healthy :
  status (fst (health_check (always_rows []) Lifecycle.noon init)) = "healthy".
Proof. reflexivity. Qed.

(** X26.  [health_check] always answers.  It reports the database as connected,
    and the service as "healthy", exactly when one of the three attempts at the
    test statement completes, the attempts before it having ended in errors
    that are retried; otherwise the status is "degraded".  It makes between one
    and three attempts, and reports the flag of the manager as it finds it. *)
Theorem health_check_reports_the_executor
    (w : db_world) (clock : datetime) (m : manager) :
  let r := fst (health_check w clock m) in
  let tr := snd (health_check w clock m) in
  (database_connected r = true <->
   exists i rows,
     i < MAX_RETRIES /\
     retried_before w "SELECT 1 LIMIT 1" [] false i /\
     path_exists w i = true /\
     run_statement w i "SELECT 1 LIMIT 1" [] false = Completes rows) /\
  status r = (if database_connected r then "healthy" else "degraded") /\
  bridge_connected r = is_connected m /\
  1 <= List.length (attempts_of tr) <= MAX_RETRIES.
Proof.
  cbv zeta. unfold health_check.
  pose proof (DatabaseHelperFacts.call_returns w Inject.DB_PATH "SELECT 1 LIMIT 1" []
                true false false) as Hret.
  destruct (DatabaseFacts.call_schedule w Inject.DB_PATH "SELECT 1 LIMIT 1" []
              true false false) as (n & Hn & Htr).
  destruct (execute_with_retry w Inject.DB_PATH "SELECT 1 LIMIT 1" [] true false false)
    as [[v|msg] tr] eqn:Hcall; cbn [fst snd status bridge_connected database_connected] in *.
  - split.
    + split; [intros _|reflexivity].
      destruct (proj1 (Hret v tr) eq_refl) as (i & rows & Hi & Hb & Hp & Hr & _).
      now exists i, rows.
    + split; [reflexivity|]. split; [reflexivity|].
      rewrite Htr, DatabaseFacts.schedule_attempts, length_seq. exact Hn.
  - split.
    + split; [discriminate|].
      intros (i & rows & Hi & Hb & Hp & Hr).
      assert (H : (Raised msg, tr)
                  = (Returned (fetched true false rows), schedule 0 (S i))).
      { apply (proj2 (Hret _ _)). exists i, rows.
        split; [exact Hi|]. split; [exact Hb|]. split; [exact Hp|].
        split; [exact Hr|]. split; reflexivity. }
      discriminate H.
    + split; [reflexivity|]. split; [reflexivity|].
      rewrite Htr, DatabaseFacts.schedule_attempts, length_seq. exact Hn.
Qed.

End HealthFacts.
